(** * MiroCalculatorApp: the sticky-note calculator of [src/main.js]

    A shallow embedding of the class [StickyNoteCalculator] and of the
    JavaScript built-ins its methods call, followed by the properties of the
    specification that concern them.

    - JavaScript numbers are IEEE 754 binary64 values: [spec_float] of the
      Standard Library with [prec = 53] and [emax = 1024].
    - JavaScript strings are sequences of code units: [string], one [ascii]
      per code unit (the code units 0..255).
    - [Map] is an insertion-ordered association list with unique keys.
    - The Miro board is an external collaborator: a method that awaits it is
      a tree of requests, and a property about it holds for every way the
      board answers. *)

From Stdlib Require Import ZArith Lia List Bool String Ascii Permutation.
From Stdlib Require Import Floats.SpecFloat DecimalString.
Import ListNotations.

Set Implicit Arguments.
Open Scope Z_scope.

(** ** JavaScript numbers *)

Module Number.

Definition prec : Z := 53.
Definition emax : Z := 1024.

(** The exponent of the subnormal numbers, [3 - emax - prec]. *)
Definition emin : Z := -1074.

Definition number : Type := spec_float.

Definition add : number -> number -> number := SFadd prec emax.
Definition mul : number -> number -> number := SFmul prec emax.
Definition div : number -> number -> number := SFdiv prec emax.

(** The number that an integer rounds to (ties to even, overflow to an
    infinity). *)
Definition of_Z (z : Z) : number := binary_normalize prec emax z 0 false.

(** The [ex] with [2^ex <= num / den < 2^(ex+1)], for a positive fraction
    that is not below the normal numbers. *)
Definition binade (num den : Z) : Z :=
  let ex := Z.log2 num - Z.log2 den in
  if den * 2 ^ (ex - emin) <=? num * 2 ^ (- emin) then ex else ex - 1.

(** The exponent of the binary64 numbers around the positive fraction
    [num / den]. *)
Definition exponent_of (num den : Z) : Z := Z.max (binade num den - (prec - 1)) emin.

(** The integer nearest to the fraction [num / den], the even one of two. *)
Definition nearest_even (num den : Z) : Z :=
  let q := num / den in
  match 2 * (num mod den) ?= den with
  | Lt => q
  | Gt => q + 1
  | Eq => if Z.even q then q else q + 1
  end.

(** The number that the positive fraction [num / den] rounds to, with the
    sign [neg]: to the nearest multiple of [2^e], ties to even, where [e] is
    the exponent of the numbers around it; to zero below half the least
    subnormal number, to an infinity from [2^1024 - 2^970] on. *)
Definition of_fraction (neg : bool) (num den : Z) : number :=
  let e := exponent_of num den in
  let m := nearest_even (num * 2 ^ (- emin)) (den * 2 ^ (e - emin)) in
  if m =? 0 then S754_zero neg
  else
    let '(m, e) := if m =? 2 ^ prec then (2 ^ (prec - 1), e + 1) else (m, e) in
    if emax - prec <? e then S754_infinity neg else S754_finite neg (Z.to_pos m) e.

(** The number that the decimal [m * 10^e] rounds to, for [0 <= m]; a
    mantissa of zero keeps the sign it is given. *)
Definition of_decimal (neg : bool) (m e : Z) : number :=
  if m <=? 0 then S754_zero neg
  else if 0 <=? e then of_fraction neg (m * 10 ^ e) 1
  else of_fraction neg m (10 ^ (- e)).

Definition valid (v : number) : bool := valid_binary prec emax v.

Definition is_nan (v : number) : bool :=
  match v with S754_nan => true | _ => false end.

(** [Number.isInteger] *)
Definition isInteger (v : number) : bool :=
  match v with
  | S754_zero _ => true
  | S754_finite _ m e => (0 <=? e) || (Zpos m mod 2 ^ (- e) =? 0)
  | _ => false
  end.

(** The exact value of a finite number as a fraction [(num, den)] of its
    magnitude. *)
Definition magnitude (m : positive) (e : Z) : Z * Z :=
  if 0 <=? e then (Zpos m * 2 ^ e, 1) else (Zpos m, 2 ^ (- e)).

(** The exact value of a finite number as a decimal [(d, q)] of its
    magnitude, [d * 10^q] with [q <= 0]. *)
Definition exact_decimal (m : positive) (e : Z) : Z * Z :=
  if 0 <=? e then (Zpos m * 2 ^ e, 0) else (Zpos m * 5 ^ (- e), e).

End Number.

(** ** JavaScript strings *)

Module JSString.

Definition code (c : ascii) : Z := Z.of_N (N_of_ascii c).

(** WhiteSpace and LineTerminator code points (ECMA-262, 12.2 and 12.3)
    among the code units 0..255: TAB, LF, VT, FF, CR, SP, NBSP. *)
Definition is_white_space (c : ascii) : bool :=
  existsb (Z.eqb (code c)) [9; 10; 11; 12; 13; 32; 160].

Fixpoint trim_start_list (l : list ascii) : list ascii :=
  match l with
  | c :: l' => if is_white_space c then trim_start_list l' else l
  | [] => []
  end.

Definition trim_list (l : list ascii) : list ascii :=
  rev (trim_start_list (rev (trim_start_list l))).

(** [String.prototype.trim] *)
Definition trim (s : string) : string :=
  string_of_list_ascii (trim_list (list_ascii_of_string s)).

Fixpoint starts_with (p l : list ascii) : option (list ascii) :=
  match p, l with
  | [], _ => Some l
  | a :: p', b :: l' => if Ascii.eqb a b then starts_with p' l' else None
  | _ :: _, [] => None
  end.

(** [String.prototype.includes] on the position 0 *)
Fixpoint includes_list (l p : list ascii) : bool :=
  match starts_with p l with
  | Some _ => true
  | None => match l with
            | _ :: l' => includes_list l' p
            | [] => false
            end
  end.

Definition includes (s p : string) : bool :=
  includes_list (list_ascii_of_string s) (list_ascii_of_string p).

Definition zeros (n : Z) : list ascii := repeat "0"%char (Z.to_nat n).

Definition digit_char (d : Z) : ascii := ascii_of_N (Z.to_N (48 + d)).

(** The decimal digits of [z], the least significant first pushed on
    [acc]; [fuel] bounds their number. *)
Fixpoint digits_onto (fuel : nat) (z : Z) (acc : list ascii) : list ascii :=
  match fuel with
  | O => acc
  | S fuel' =>
      let acc' := digit_char (z mod 10) :: acc in
      if z <? 10 then acc' else digits_onto fuel' (z / 10) acc'
  end.

(** The decimal digits of a natural number, "0" for zero. *)
Definition digits_of_Z (z : Z) : list ascii :=
  digits_onto (S (Z.to_nat (Z.log2 z))) z [].

Definition length (l : list ascii) : Z := Z.of_nat (List.length l).

(** The characters of [l] before position [n], and those from it on. *)
Definition take (n : Z) (l : list ascii) : list ascii := firstn (Z.to_nat n) l.
Definition drop (n : Z) (l : list ascii) : list ascii := skipn (Z.to_nat n) l.

Definition chars (s : string) : list ascii := list_ascii_of_string s.

End JSString.

(** ** Conversions between numbers and strings (ECMA-262, 6.1.6.1.20,
       21.1.3.3, 19.2.4 and 7.1.4.1) *)

Module Builtins.
Import JSString.
Local Open Scope string_scope.
Local Open Scope list_scope.
Local Open Scope Z_scope.

(** *** Number::toString, radix 10 *)

Definition ndigits (z : Z) : Z := length (digits_of_Z z).

Definition same_number (a b : Number.number) : bool :=
  match a, b with
  | S754_zero s, S754_zero s' => Bool.eqb s s'
  | S754_infinity s, S754_infinity s' => Bool.eqb s s'
  | S754_finite s m e, S754_finite s' m' e' =>
      Bool.eqb s s' && Pos.eqb m m' && Z.eqb e e'
  | _, _ => false
  end.

(** For the number [x = d * 10^q] with [K] digits in [d], the [(s, n)] with
    [k] digits in [s] and [s * 10^(n-k)] rounding to [x]: the two integers
    around [x / 10^(n-k)], for the two [n] that a [k]-digit [s] allows. *)
Definition candidates (x : Number.number) (d q K k : Z) : list (Z * Z) :=
  flat_map
    (fun up =>
       let lo := d / 10 ^ (K - k + up) in
       let n := K + q + up in
       filter
         (fun c : Z * Z =>
            (10 ^ (k - 1) <=? fst c) && (fst c <? 10 ^ k)
            && same_number (Number.of_decimal false (fst c) (n - k)) x)
         [(lo, n); (lo + 1, n)])
    [0; 1].

(** The distance of the candidate [(s, n)] to [x], in units of [10^q]. *)
Definition distance (d q k : Z) (c : Z * Z) : Z :=
  Z.abs (fst c * 10 ^ (snd c - k - q) - d).

(** Of the candidates the one closest to [x], the even [s] on a tie. *)
Definition closest (d q k : Z) (cs : list (Z * Z)) : option (Z * Z) :=
  fold_left
    (fun best c =>
       match best with
       | None => Some c
       | Some b =>
           let db := distance d q k b in
           let dc := distance d q k c in
           if (dc <? db) || ((dc =? db) && Z.even (fst c)) then Some c else best
       end)
    cs None.

(** The least [k], from [k] on, with a candidate: [(n, k, s)]. *)
Fixpoint shortest (x : Number.number) (d q K : Z) (fuel : nat) (k : Z)
  : option (Z * Z * Z) :=
  match fuel with
  | O => None
  | S fuel' =>
      match closest d q k (candidates x d q K k) with
      | Some (s, n) => Some (n, k, s)
      | None => shortest x d q K fuel' (k + 1)
      end
  end.

(** Step 5 of Number::toString: [n], [k] and [s] with [k >= 1],
    [10^(k-1) <= s < 10^k], [s * 10^(n-k)] rounding to [x] and [k] as small
    as possible; the digits of [x] itself are such an [s], so that no [k]
    beyond their number is tried. *)
Definition shortest_digits (m : positive) (e : Z) : Z * Z * Z :=
  let '(d, q) := Number.exact_decimal m e in
  let K := ndigits d in
  match shortest (S754_finite false m e) d q K (Z.to_nat K) 1 with
  | Some r => r
  | None => (K + q, K, d)
  end.

(** Steps 6 to 12 of Number::toString. *)
Definition render (n k s : Z) : list ascii :=
  let ds := digits_of_Z s in
  if (-5 <=? n) && (n <=? 21) then
    if k <=? n then ds ++ zeros (n - k)
    else if 0 <? n then take n ds ++ chars "." ++ drop n ds
    else chars "0." ++ zeros (- n) ++ ds
  else
    let e := n - 1 in
    let es := chars (if e <? 0 then "-" else "+") ++ digits_of_Z (Z.abs e) in
    if k =? 1 then ds ++ chars "e" ++ es
    else take 1 ds ++ chars "." ++ drop 1 ds ++ chars "e" ++ es.

Definition sign_chars (neg : bool) : list ascii := chars (if neg then "-" else "").

Definition toString_chars (v : Number.number) : list ascii :=
  match v with
  | S754_nan => chars "NaN"
  | S754_zero _ => chars "0"
  | S754_infinity s => sign_chars s ++ chars "Infinity"
  | S754_finite s m e =>
      let '(n, k, d) := shortest_digits m e in
      sign_chars s ++ render n k d
  end.

Definition toString (v : Number.number) : string :=
  string_of_list_ascii (toString_chars v).

(** *** Number.prototype.toFixed, for [0 <= f <= 100] *)

(** [x * 10^f] rounded to an integer, the larger of two. *)
Definition fixed_digits (m : positive) (e f : Z) : Z :=
  let '(num, den) := Number.magnitude m e in
  (2 * num * 10 ^ f + den) / (2 * den).

(** The digits [ds] with a point before the last [f] of them, after zeros
    in front when there are not more than [f]. *)
Definition with_point (ds : list ascii) (f : Z) : list ascii :=
  if f =? 0 then ds
  else
    let ds := if length ds <=? f then zeros (f + 1 - length ds) ++ ds else ds in
    let k := length ds in
    take (k - f) ds ++ chars "." ++ drop (k - f) ds.

Definition toFixed_chars (v : Number.number) (f : Z) : list ascii :=
  match v with
  | S754_finite s m e =>
      let '(num, den) := Number.magnitude m e in
      sign_chars s ++
      (if 10 ^ 21 * den <=? num then toString_chars (S754_finite false m e)
       else with_point (digits_of_Z (fixed_digits m e f)) f)
  | S754_zero _ => with_point (chars "0") f
  | _ => toString_chars v
  end.

Definition toFixed (v : Number.number) (f : Z) : string :=
  string_of_list_ascii (toFixed_chars v f).

(** *** The grammar of numeric strings *)

Definition is_digit (c : ascii) : bool := (48 <=? code c) && (code c <=? 57).

(** The digits [l] starts with, read on from the value [acc]: the value,
    how many digits there were, and what follows them. *)
Fixpoint read_digits (l : list ascii) (acc count : Z) : Z * Z * list ascii :=
  match l with
  | c :: l' =>
      if is_digit c then read_digits l' (10 * acc + (code c - 48)) (count + 1)
      else (acc, count, l)
  | [] => (acc, count, [])
  end.

(** ExponentPart, when [l] starts with a whole one: its value and what
    follows; otherwise no exponent and [l] itself. *)
Definition read_exponent (l : list ascii) : Z * list ascii :=
  match l with
  | c :: l' =>
      if (code c =? 101) || (code c =? 69) then
        let '(neg, l'') :=
          match l' with
          | s :: t => if code s =? 43 then (false, t)
                      else if code s =? 45 then (true, t) else (false, l')
          | [] => (false, l')
          end in
        let '(v, count, rest) := read_digits l'' 0 0 in
        if 0 <? count then (cond_Zopp neg v, rest) else (0, l)
      else (0, l)
  | [] => (0, l)
  end.

(** What a numeric literal denotes before rounding. *)
Variant literal : Type :=
| LInfinity
| LDecimal (m e : Z).

(** The longest prefix of [l] that is a StrUnsignedDecimalLiteral, and what
    follows it. *)
Definition read_unsigned (l : list ascii) : option (literal * list ascii) :=
  match starts_with (chars "Infinity") l with
  | Some rest => Some (LInfinity, rest)
  | None =>
      let '(int, icount, l1) := read_digits l 0 0 in
      match l1 with
      | c :: l2 =>
          if code c =? 46 then
            let '(m, fcount, l3) := read_digits l2 int 0 in
            if (0 <? icount) || (0 <? fcount) then
              let '(e, rest) := read_exponent l3 in
              Some (LDecimal m (e - fcount), rest)
            else None
          else if 0 <? icount then
            let '(e, rest) := read_exponent l1 in Some (LDecimal int e, rest)
          else None
      | [] => if 0 <? icount then Some (LDecimal int 0, []) else None
      end
  end.

(** The longest prefix of [l] that is a StrDecimalLiteral: its sign, what
    it denotes and what follows it. *)
Definition read_decimal (l : list ascii) : option (bool * literal * list ascii) :=
  let '(neg, l') :=
    match l with
    | s :: t => if code s =? 43 then (false, t)
                else if code s =? 45 then (true, t) else (false, l)
    | [] => (false, l)
    end in
  match read_unsigned l' with
  | Some (v, rest) => Some (neg, v, rest)
  | None => None
  end.

(** StringNumericValue of a StrDecimalLiteral; a literal of more than 20
    significant digits is rounded exactly too. *)
Definition literal_value (neg : bool) (v : literal) : Number.number :=
  match v with
  | LInfinity => S754_infinity neg
  | LDecimal m e => Number.of_decimal neg m e
  end.

(** [parseFloat] *)
Definition parseFloat (s : string) : Number.number :=
  match read_decimal (trim_start_list (list_ascii_of_string s)) with
  | Some (neg, v, _) => literal_value neg v
  | None => S754_nan
  end.

(** The value of a digit in the radix [r], when it is one. *)
Definition digit_in (r : Z) (c : ascii) : option Z :=
  let n := code c in
  let v := if (48 <=? n) && (n <=? 57) then n - 48
           else if (97 <=? n) && (n <=? 102) then n - 87
           else if (65 <=? n) && (n <=? 70) then n - 55
           else r in
  if v <? r then Some v else None.

Fixpoint read_radix (r : Z) (l : list ascii) (acc : Z) : option Z :=
  match l with
  | c :: l' =>
      match digit_in r c with
      | Some v => read_radix r l' (r * acc + v)
      | None => None
      end
  | [] => Some acc
  end.

(** NonDecimalIntegerLiteral: [0b], [0o] or [0x], in either case, and at
    least one digit of that radix. *)
Definition read_non_decimal (l : list ascii) : option Z :=
  match l with
  | z :: p :: (_ :: _) as ds =>
      if code z =? 48 then
        if (code p =? 98) || (code p =? 66) then read_radix 2 ds 0
        else if (code p =? 111) || (code p =? 79) then read_radix 8 ds 0
        else if (code p =? 120) || (code p =? 88) then read_radix 16 ds 0
        else None
      else None
  | _ => None
  end.

(** StringToNumber: [ToNumber] of a string. *)
Definition StringToNumber (s : string) : Number.number :=
  let l := trim_list (list_ascii_of_string s) in
  match l with
  | [] => S754_zero false
  | _ =>
      match read_decimal l with
      | Some (neg, v, []) => literal_value neg v
      | _ =>
          match read_non_decimal l with
          | Some z => Number.of_Z z
          | None => S754_nan
          end
      end
  end.

(** The global [isNaN], of a string. *)
Definition isNaN (s : string) : bool := Number.is_nan (StringToNumber s).

End Builtins.

(** ** [Map]: insertion-ordered, one entry per key *)

Module JSMap.
Section Ops.
Variable V : Type.

Definition t : Type := list (string * V).

Fixpoint get (k : string) (m : t) : option V :=
  match m with
  | (k', v) :: m' => if String.eqb k k' then Some v else get k m'
  | [] => None
  end.

Definition has (k : string) (m : t) : bool :=
  match get k m with Some _ => true | None => false end.

(** [set] keeps the position of a key that is present and appends a new
    one. *)
Fixpoint set (k : string) (v : V) (m : t) : t :=
  match m with
  | (k', v') :: m' =>
      if String.eqb k k' then (k, v) :: m' else (k', v') :: set k v m'
  | [] => [(k, v)]
  end.

Definition delete (k : string) (m : t) : t :=
  filter (fun e => negb (String.eqb k (fst e))) m.

Definition keys (m : t) : list string := map fst m.

(** [new Map(entries)] *)
Definition of_entries (l : list (string * V)) : t :=
  fold_left (fun m e => set (fst e) (snd e) m) l [].
End Ops.
End JSMap.

(** ** The board, as the application sees it *)

Module Item.
(** The fields of a board item that the application reads. *)
Record t : Type := make
  { id : string; type : string; content : string;
    x : Number.number; y : Number.number }.
End Item.

Module CalcData.
(** [calculationData] of [createCalculation], the value of a
    [calculatorNotes] entry and of a persisted one. *)
Record t : Type := make
  { type : string; operation : string; sourceIds : list string;
    operationSymbol : string; createdAt : Z }.
End CalcData.

(** What [error.message] is, as far as line 234 tells values apart. *)
Variant message_value : Type :=
| Falsy                      (* undefined (no such property), null, false, 0, NaN *)
| Text (m : string)          (* a string; the empty one is falsy *)
| Searchable (found : bool)  (* another truthy value with a method [includes], an
                                array for one; [found]: whether
                                [includes('not found')] is truthy *)
| Truthy.                    (* any other truthy value: a number, [true], an object
                                without [includes] *)

(** What a rejected call throws: any value.  Reading a property of [null]
    or [undefined] throws; every other value has a [message], which is
    [undefined] when there is no such property. *)
Variant error : Type :=
| Null
| Undefined
| Thrown (message : message_value).

(** The [TypeError] that a failing property access or call throws; its
    message is the engine's, here V8's. *)
Definition TypeError (text : string) : error := Thrown (Text text).

(** The [style] of a new sticky note. *)
Record style : Type := { fillColor : string; textAlign : string }.

Variant update : Type :=
| TagIds (tagIds : list string)
| Content (content : string).

(** The calls that leave the class: the board, the clock and the panel. *)
Variant request : Type :=
| GetSelection                                             (* miro.board.ui.getSelection() *)
| GetItem (id : string)                                    (* miro.board.getItem(id) *)
| CreateStickyNote (content : string) (x y : Number.number) (st : style)
| UpdateItem (id : string) (u : update)                    (* miro.board.updateItem({id, ...}) *)
| DeleteItem (id : string)                                 (* miro.board.deleteItem(id) *)
| SetMetadata (key : string) (data : list (string * CalcData.t))
| GetMetadata (key : string)
| DateNow                                                  (* Date.now() *)
| ShowStatus (message type : string)                       (* this.showStatus(message, type) *)
| RenderSelection (textContent : string) (disabled : bool). (* the DOM writes of updateUI *)

(** What a call resolves to; [None] stands for [null] and [undefined]. *)
Definition response (r : request) : Type :=
  match r with
  | GetSelection => list Item.t
  | GetItem _ => option Item.t
  | CreateStickyNote _ _ _ _ => Item.t
  | GetMetadata _ => option (list (string * CalcData.t))
  | DateNow => Z
  | UpdateItem _ _ | DeleteItem _ | SetMetadata _ _
  | ShowStatus _ _ | RenderSelection _ _ => unit
  end.

Variant reply (X : Type) : Type :=
| Resolved (x : X)
| Rejected (e : error).

Arguments Rejected {X} e.

(** A computation that calls out and goes on with the reply. *)
Inductive async (A : Type) : Type :=
| Ret (a : A)
| Await (r : request) (k : reply (response r) -> async A).

Arguments Ret {A} a.

(** One call and its reply. *)
Record exchange : Type := { asked : request; got : reply (response asked) }.

(** An environment answers every call, from a state of its own. *)
Definition handler (W : Type) : Type :=
  forall r : request, W -> reply (response r) * W.

(** [run h p w]: the result of [p] against [h] from [w], the state of the
    environment at the end, and the exchanges in the order they happened. *)
Fixpoint run {W A : Type} (h : handler W) (p : async A) (w : W)
  : A * W * list exchange :=
  match p with
  | Ret a => (a, w, [])
  | Await r k =>
      let '(a, w') := h r w in
      let '(b, w'', tr) := run h (k a) w' in
      (b, w'', {| asked := r; got := a |} :: tr)
  end.

Definition result_of {W A : Type} (o : A * W * list exchange) : A := fst (fst o).
Definition trace_of {W A : Type} (o : A * W * list exchange) : list exchange := snd o.
Definition requests_of {W A : Type} (o : A * W * list exchange) : list request :=
  map asked (snd o).

(** ** The class [StickyNoteCalculator] *)

Module StickyNoteCalculator.
Import JSString Builtins.
Local Open Scope string_scope.
Local Open Scope Z_scope.

(** The fields [this.selectedItems] and [this.calculatorNotes]. *)
Record state : Type :=
  { selectedItems : list Item.t;
    calculatorNotes : JSMap.t CalcData.t }.

(** How a body ends: normally, or by a [throw]. *)
Variant completion (A : Type) : Type :=
| Normal (a : A)
| Throw (e : error).

Arguments Throw {A} e.

(** A method: it can read and write the fields, await calls and throw;
    the fields keep what was written before a throw. *)
Definition method (A : Type) : Type := state -> async (completion A * state).

Fixpoint async_bind {A B : Type} (p : async A) (f : A -> async B) : async B :=
  match p with
  | Ret a => f a
  | Await r k => Await r (fun a => async_bind (k a) f)
  end.

Definition ret {A : Type} (a : A) : method A := fun s => Ret (Normal a, s).

Definition throw {A : Type} (e : error) : method A := fun s => Ret (Throw e, s).

Definition bind {A B : Type} (m : method A) (f : A -> method B) : method B :=
  fun s =>
    async_bind (m s)
      (fun r => match fst r with
                | Normal a => f a (snd r)
                | Throw e => Ret (Throw e, snd r)
                end).

(** [try { m } catch (error) { handle error }] *)
Definition try_catch {A : Type} (m : method A) (handle : error -> method A)
  : method A :=
  fun s =>
    async_bind (m s)
      (fun r => match fst r with
                | Normal a => Ret (Normal a, snd r)
                | Throw e => handle e (snd r)
                end).

(** [await] of a call: a rejection is thrown. *)
Definition await (r : request) : method (response r) :=
  fun s =>
    Await r (fun a => match a with
                      | Resolved x => Ret (Normal x, s)
                      | Rejected e => Ret (Throw e, s)
                      end).

Definition get_this : method state := fun s => Ret (Normal s, s).

Definition set_selectedItems (l : list Item.t) : method unit :=
  fun s => Ret (Normal tt, {| selectedItems := l; calculatorNotes := calculatorNotes s |}).

Definition set_calculatorNotes (m : JSMap.t CalcData.t) : method unit :=
  fun s => Ret (Normal tt, {| selectedItems := selectedItems s; calculatorNotes := m |}).

Declare Scope method_scope.
Delimit Scope method_scope with method.
Notation "x <- m ;; k" := (bind m (fun x => k))
  (at level 61, m at next level, right associativity) : method_scope.
Notation "m ;; k" := (bind m (fun _ => k))
  (at level 61, right associativity) : method_scope.
Local Open Scope method_scope.

(** [for (const x of l) { body x }] *)
Fixpoint for_of {X : Type} (l : list X) (body : X -> method unit) : method unit :=
  match l with
  | [] => ret tt
  | x :: l' => body x ;; for_of l' body
  end.

(** A [for ... of] loop that pushes to a local array, or leaves it. *)
Fixpoint for_of_fold {X S : Type} (l : list X) (acc : S) (body : S -> X -> method S)
  : method S :=
  match l with
  | [] => ret acc
  | x :: l' => acc' <- body acc x ;; for_of_fold l' acc' body
  end.

(** [Array.prototype.reduce] with an initial value. *)
Fixpoint reduce {X Y : Type} (callback : Y -> X -> Y) (l : list X) (initialValue : Y) : Y :=
  match l with
  | [] => initialValue
  | x :: l' => reduce callback l' (callback initialValue x)
  end.

(** [Math.max] of at least one number. *)
Definition Math_max (l : list Number.number) : Number.number :=
  if existsb Number.is_nan l then S754_nan
  else
    reduce
      (fun highest n =>
         if (same_number n (S754_zero false) && same_number highest (S754_zero true))
            || SFltb highest n
         then n else highest)
      l (S754_infinity true).

(** *** Lines 73 to 81 *)

Definition isNumeric (value : string) : bool :=
  let cleanValue := trim value in
  negb (isNaN cleanValue)
  && negb (Number.is_nan (parseFloat cleanValue))
  && negb (String.eqb cleanValue "").

Definition getNumericValue (content : string) : Number.number :=
  let cleanValue := trim content in
  parseFloat cleanValue.

(** *** Lines 149 to 157 *)

Definition formatResult (value : Number.number) : string :=
  if Number.isInteger value then toString value
  else toString (parseFloat (toFixed value 6)).

(** *** Lines 37 to 71 *)

Definition updateUI : method unit :=
  this <- get_this ;;
  let numericCount := Z.of_nat (List.length (selectedItems this)) in
  let hasEnough := 2 <=? numericCount in
  let textContent :=
    if numericCount =? 0 then "Select 2 or more sticky notes with numbers"
    else if numericCount =? 1 then "1 numeric sticky note selected. Select at least 1 more."
    else toString (Number.of_Z numericCount) ++ " numeric sticky notes selected" in
  await (RenderSelection textContent (negb hasEnough)).

Definition updateSelection : method unit :=
  try_catch
    (selection <- await GetSelection ;;
     set_selectedItems
       (filter (fun item => String.eqb (Item.type item) "sticky_note"
                            && isNumeric (Item.content item))
               selection) ;;
     updateUI)
    (fun _ => ret tt).

(** *** Lines 241 to 248 *)

Definition saveCalculatorNotesToMetadata : method unit :=
  try_catch
    (this <- get_this ;;
     let data := calculatorNotes this in
     await (SetMetadata "calculatorNotes" data))
    (fun _ => ret tt).

(** *** Lines 83 to 147 *)

Definition times_sign : string := String (ascii_of_N 215) EmptyString.

(** The number that lines 97 to 103 compute. *)
Definition createCalculation_result (operation : string) (values : list Number.number)
  : Number.number :=
  if String.eqb operation "sum"
  then reduce (fun acc val => Number.add acc val) values (Number.of_Z 0)
  else reduce (fun acc val => Number.mul acc val) values (Number.of_Z 1).

Definition createCalculation (operation : string) : method unit :=
  try_catch
    (this <- get_this ;;
     if Z.of_nat (List.length (selectedItems this)) <? 2 then
       await (ShowStatus "Please select at least 2 numeric sticky notes" "error")
     else
       let values := map (fun item => getNumericValue (Item.content item)) (selectedItems this) in
       let sourceIds := map Item.id (selectedItems this) in
       let result := createCalculation_result operation values in
       let operationSymbol := if String.eqb operation "sum" then "+" else times_sign in
       let avgX :=
         Number.div
           (reduce (fun sum item => Number.add sum (Item.x item)) (selectedItems this) (Number.of_Z 0))
           (Number.of_Z (Z.of_nat (List.length (selectedItems this)))) in
       let maxY := Math_max (map Item.y (selectedItems this)) in
       calculatorNote <-
         await (CreateStickyNote (formatResult result) avgX (Number.add maxY (Number.of_Z 200))
                  {| fillColor := if String.eqb operation "sum" then "#d1c4e9" else "#c8e6c8";
                     textAlign := "center" |}) ;;
       createdAt <- await DateNow ;;
       let calculationData :=
         CalcData.make "calculator" operation sourceIds operationSymbol createdAt in
       now <- await DateNow ;;
       await (UpdateItem (Item.id calculatorNote)
                (TagIds ["calc-" ++ operation ++ "-" ++ toString (Number.of_Z now)])) ;;
       this <- get_this ;;
       set_calculatorNotes (JSMap.set (Item.id calculatorNote) calculationData (calculatorNotes this)) ;;
       saveCalculatorNotesToMetadata ;;
       await (ShowStatus
                ((if String.eqb operation "sum" then "Sum" else "Product")
                 ++ " sticky note created successfully!")
                "success"))
    (fun _ => await (ShowStatus "Error creating calculation. Please try again." "error")).

(** *** Lines 187 to 239 *)

(** The number that lines 219 to 223 compute. *)
Definition updateCalculatorNote_result (operation : string) (values : list Number.number)
  : Number.number :=
  if String.eqb operation "sum"
  then reduce (fun acc val => Number.add acc val) values (Number.of_Z 0)
  else reduce (fun acc val => Number.mul acc val) values (Number.of_Z 1).

(** Lines 190 to 201: the sources that are still numeric sticky notes. *)
Definition sourceItems_of (calcData : CalcData.t) : method (list Item.t) :=
  for_of_fold (CalcData.sourceIds calcData) []
    (fun sourceItems sourceId =>
       try_catch
         (item <- await (GetItem sourceId) ;;
          match item with
          | Some item =>
              if String.eqb (Item.type item) "sticky_note" && isNumeric (Item.content item)
              then ret (sourceItems ++ [item])%list
              else ret sourceItems
          | None => ret sourceItems
          end)
         (fun _ => ret sourceItems)).

(** Line 234: [error.message && error.message.includes('not found')], as
    the condition of the [if]; reading [message] of [null] or [undefined],
    and calling an [includes] that is not there, throw. *)
Definition error_is_not_found (error : error) : completion bool :=
  match error with
  | Null => Throw (TypeError "Cannot read properties of null (reading 'message')")
  | Undefined =>
      Throw (TypeError "Cannot read properties of undefined (reading 'message')")
  | Thrown Falsy => Normal false
  | Thrown (Text m) => Normal (negb (String.eqb m "") && includes m "not found")
  | Thrown (Searchable found) => Normal found
  | Thrown Truthy => Throw (TypeError "error.message.includes is not a function")
  end.

Definition updateCalculatorNote (calculatorId : string) (calcData : CalcData.t)
  : method unit :=
  try_catch
    (sourceItems <- sourceItems_of calcData ;;
     if Z.of_nat (List.length sourceItems) =? 0 then
       try_catch
         (await (DeleteItem calculatorId) ;;
          this <- get_this ;;
          set_calculatorNotes (JSMap.delete calculatorId (calculatorNotes this)) ;;
          saveCalculatorNotesToMetadata)
         (fun _ => ret tt)
     else
       let values := map (fun item => getNumericValue (Item.content item)) sourceItems in
       let result := updateCalculatorNote_result (CalcData.operation calcData) values in
       await (UpdateItem calculatorId (Content (formatResult result))))
    (fun error =>
       match error_is_not_found error with
       | Normal true =>
           this <- get_this ;;
           set_calculatorNotes (JSMap.delete calculatorId (calculatorNotes this)) ;;
           saveCalculatorNotesToMetadata
       | Normal false => ret tt
       | Throw e => throw e
       end).

(** *** Lines 159 to 185 *)



Definition handleItemsDelete (items : list Item.t) : method unit :=
  for_of items
    (fun deletedItem =>
       this <- get_this ;;
       if JSMap.has (Item.id deletedItem) (calculatorNotes this) then
         set_calculatorNotes (JSMap.delete (Item.id deletedItem) (calculatorNotes this)) ;;
         saveCalculatorNotesToMetadata
       else ret tt).

(** *** Lines 250 to 280 *)

Definition restoreCalculatorNotes : method unit :=
  try_catch
    (data <- await (GetMetadata "calculatorNotes") ;;
     match data with
     | Some data =>
         set_calculatorNotes (JSMap.of_entries data) ;;
         this <- get_this ;;
         validCalculatorIds <-
           for_of_fold (calculatorNotes this) []
             (fun validCalculatorIds entry =>
                try_catch
                  (await (GetItem (fst entry)) ;;
                   ret (validCalculatorIds ++ [fst entry])%list)
                  (fun _ => ret validCalculatorIds)) ;;
         this <- get_this ;;
         let validEntries :=
           filter (fun entry => existsb (String.eqb (fst entry)) validCalculatorIds)
                  (calculatorNotes this) in
         set_calculatorNotes (JSMap.of_entries validEntries) ;;
         if negb (Z.of_nat (List.length validEntries) =? Z.of_nat (List.length data))
         then saveCalculatorNotesToMetadata
         else ret tt
     | None => ret tt
     end)
    (fun _ => ret tt).

End StickyNoteCalculator.

(** ** A board to run the class against

    A canvas of items, one metadata record and a clock.  A call that names
    an item the canvas does not hold is rejected; while there is an
    [outage], so is every call that would change the canvas. *)

Module Board.
Local Open Scope string_scope.
Local Open Scope Z_scope.

Record t : Type :=
  { items : list Item.t;
    selection : list Item.t;
    metadata : option (list (string * CalcData.t));
    clock : Z;
    outage : option error }.

Definition not_found : error := Thrown (Text "Item not found").

Definition find (id : string) (b : t) : option Item.t :=
  List.find (fun i => String.eqb (Item.id i) id) (items b).

Definition with_items (l : list Item.t) (b : t) : t :=
  {| items := l; selection := selection b; metadata := metadata b;
     clock := clock b; outage := outage b |}.

Definition fresh_id (b : t) : string :=
  "note-" ++ string_of_list_ascii (JSString.digits_of_Z (Z.of_nat (List.length (items b)))).

(** A change of the canvas: refused during an outage. *)
Definition change {X : Type} (b : t) (go : reply X * t) : reply X * t :=
  match outage b with
  | Some e => (Rejected e, b)
  | None => go
  end.

Definition answer : handler t :=
  fun r b =>
    match r as r' return reply (response r') * t with
    | GetSelection => (Resolved (selection b), b)
    | GetItem id =>
        match find id b with
        | Some i => (Resolved (Some i), b)
        | None => (Rejected not_found, b)
        end
    | CreateStickyNote content x y _ =>
        change b
          (let i := Item.make (fresh_id b) "sticky_note" content x y in
           (Resolved i, with_items (items b ++ [i])%list b))
    | UpdateItem id u =>
        change b
          match find id b with
          | Some _ =>
              (Resolved tt,
               with_items
                 (map (fun i =>
                         if String.eqb (Item.id i) id then
                           match u with
                           | Content c =>
                               Item.make (Item.id i) (Item.type i) c (Item.x i) (Item.y i)
                           | TagIds _ => i
                           end
                         else i)
                      (items b)) b)
          | None => (Rejected not_found, b)
          end
    | DeleteItem id =>
        change b
          match find id b with
          | Some _ =>
              (Resolved tt,
               with_items (filter (fun i => negb (String.eqb (Item.id i) id)) (items b)) b)
          | None => (Rejected not_found, b)
          end
    | SetMetadata _ data =>
        (Resolved tt,
         {| items := items b; selection := selection b; metadata := Some data;
            clock := clock b; outage := outage b |})
    | GetMetadata _ => (Resolved (metadata b), b)
    | DateNow =>
        (Resolved (clock b),
         {| items := items b; selection := selection b; metadata := metadata b;
            clock := clock b + 1; outage := outage b |})
    | ShowStatus _ _ => (Resolved tt, b)
    | RenderSelection _ _ => (Resolved tt, b)
    end.

(** A sticky note at the origin. *)
Definition note (id content : string) : Item.t :=
  Item.make id "sticky_note" content (S754_zero false) (S754_zero false).

End Board.

(** ** What a run of the recomputation amounts to *)

Section RecomputeModel.
Context {W : Type} (h : handler W).
Import StickyNoteCalculator.
Local Open Scope string_scope.

(** The item a fetch contributes to the working set: a sticky note with
    numeric content; nothing when the fetch fails or finds something
    else. *)
Definition usable (a : reply (option Item.t)) : option Item.t :=
  match a with
  | Resolved (Some item) =>
      if String.eqb (Item.type item) "sticky_note" && isNumeric (Item.content item)
      then Some item else None
  | _ => None
  end.

(** The working set of a recomputation: the sources fetched one by one,
    the usable ones kept in order; with it the state of the environment
    after the fetches and the exchanges made. *)
Fixpoint working_set (ids : list string) (acc : list Item.t) (w : W)
  : list Item.t * W * list exchange :=
  match ids with
  | [] => (acc, w, [])
  | id :: ids' =>
      let a := h (GetItem id) w in
      let acc' := match usable (fst a) with
                  | Some item => (acc ++ [item])%list
                  | None => acc
                  end in
      let '(r, w', tr) := working_set ids' acc' (snd a) in
      (r, w', {| asked := GetItem id; got := fst a |} :: tr)
  end.

(** What the recomputation writes when the working set is not empty. *)
Definition new_content (cd : CalcData.t) (items : list Item.t) : string :=
  formatResult
    (updateCalculatorNote_result (CalcData.operation cd)
       (map (fun item => getNumericValue (Item.content item)) items)).

(** The state with the entry of [id] removed, and the write of it. *)
Definition unregistered (id : string) (s : state) : state :=
  {| selectedItems := selectedItems s;
     calculatorNotes := JSMap.delete id (calculatorNotes s) |}.

Definition unregister_and_save (id : string) (s : state) (w : W) (tr : list exchange)
  : completion unit * state * W * list exchange :=
  let r := SetMetadata "calculatorNotes" (JSMap.delete id (calculatorNotes s)) in
  let a := h r w in
  (Normal tt, unregistered id s, snd a, (tr ++ [{| asked := r; got := fst a |}])%list).

End RecomputeModel.

(** ** Boards and indexes to try the class on *)

Module Scenario.
Import StickyNoteCalculator.
Local Open Scope string_scope.

(** A derived note "calc", the sum of the notes "a" and "b". *)
Definition sum_of_a_b : CalcData.t :=
  CalcData.make "calculator" "sum" ["a"; "b"] "+" 1700000000000.

Definition tracking : state :=
  {| selectedItems := []; calculatorNotes := [("calc", sum_of_a_b)] |}.

Definition board (items : list Item.t) : Board.t :=
  {| Board.items := items; Board.selection := []; Board.metadata := None;
     Board.clock := 1700000000000; Board.outage := None |}.

(** Both sources are gone, the derived note is still on the canvas. *)
Definition orphaned : Board.t := board [Board.note "calc" "3"].

(** Both sources and the derived note are gone. *)
Definition emptied : Board.t := board [].


Definition timed_out : error := Thrown (Text "Request timed out").

(** Everything is there, and the board refuses every change. *)
Definition unreachable : Board.t :=
  {| Board.items := [Board.note "a" "1"; Board.note "b" "2"; Board.note "calc" "0"];
     Board.selection := [Board.note "a" "1"; Board.note "b" "2"];
     Board.metadata := None;
     Board.clock := 1700000000000; Board.outage := Some timed_out |}.

Definition one_selected : state :=
  {| selectedItems := [Board.note "a" "1"];
     calculatorNotes := [("calc", sum_of_a_b)] |}.

Definition two_selected : state :=
  {| selectedItems := [Board.note "a" "1"; Board.note "b" "2"];
     calculatorNotes := [("calc", sum_of_a_b)] |}.

Definition product_of_a_b : CalcData.t :=
  CalcData.make "calculator" "product" ["a"; "b"] times_sign 1700000000001.

(** The class as its constructor leaves it. *)
Definition fresh : state := {| selectedItems := []; calculatorNotes := [] |}.

(** The store holds two derived notes; the canvas lost "calc-2". *)
Definition restarted : Board.t :=
  {| Board.items := [Board.note "a" "1"; Board.note "b" "2"; Board.note "calc" "3"];
     Board.selection := [];
     Board.metadata := Some [("calc", sum_of_a_b); ("calc-2", product_of_a_b)];
     Board.clock := 1700000000002; Board.outage := None |}.

(** The store holds one derived note, and the canvas has it. *)
Definition reloaded : Board.t :=
  {| Board.items := [Board.note "a" "1"; Board.note "b" "2"; Board.note "calc" "3"];
     Board.selection := [];
     Board.metadata := Some [("calc", sum_of_a_b)];
     Board.clock := 1700000000002; Board.outage := None |}.

End Scenario.

(** ** What a run of the creation amounts to *)

Section CreationModel.
Context {W : Type} (h : handler W).
Import StickyNoteCalculator.
Local Open Scope string_scope.

(** The request for the new sticky note (lines 91 to 118). *)
Definition creation_request (operation : string) (selected : list Item.t) : request :=
  CreateStickyNote
    (formatResult
       (createCalculation_result operation
          (map (fun item => getNumericValue (Item.content item)) selected)))
    (Number.div
       (reduce (fun sum item => Number.add sum (Item.x item)) selected (Number.of_Z 0))
       (Number.of_Z (Z.of_nat (List.length selected))))
    (Number.add (Math_max (map Item.y selected)) (Number.of_Z 200))
    {| fillColor := if String.eqb operation "sum" then "#d1c4e9" else "#c8e6c8";
       textAlign := "center" |}.

(** The descriptor that is registered for the new note (lines 121 to 127). *)
Definition descriptor (operation : string) (selected : list Item.t) (createdAt : Z)
  : CalcData.t :=
  CalcData.make "calculator" operation (map Item.id selected)
    (if String.eqb operation "sum" then "+" else times_sign) createdAt.

Definition registered (id : string) (d : CalcData.t) (s : state) : state :=
  {| selectedItems := selectedItems s;
     calculatorNotes := JSMap.set id d (calculatorNotes s) |}.

(** The [catch] of [createCalculation]: the error banner, whose own
    failure is thrown on. *)
Definition creation_caught (s : state) (w : W) (tr : list exchange)
  : completion unit * state * W * list exchange :=
  let r := ShowStatus "Error creating calculation. Please try again." "error" in
  let a := h r w in
  (match fst a with Resolved _ => Normal tt | Rejected e => Throw e end,
   s, snd a, (tr ++ [{| asked := r; got := fst a |}])%list).

(** The steps of [createCalculation] after the sticky note is there. *)
Definition creation_registers (operation : string) (s : state) (note : Item.t)
    (w : W) (tr : list exchange) : completion unit * state * W * list exchange :=
  let a2 := h DateNow w in
  let tr2 := (tr ++ [{| asked := DateNow; got := fst a2 |}])%list in
  match fst a2 with
  | Rejected _ => creation_caught s (snd a2) tr2
  | Resolved createdAt =>
      let a3 := h DateNow (snd a2) in
      let tr3 := (tr2 ++ [{| asked := DateNow; got := fst a3 |}])%list in
      match fst a3 with
      | Rejected _ => creation_caught s (snd a3) tr3
      | Resolved now =>
          let r4 := UpdateItem (Item.id note)
                      (TagIds ["calc-" ++ operation ++ "-"
                               ++ Builtins.toString (Number.of_Z now)]) in
          let a4 := h r4 (snd a3) in
          let tr4 := (tr3 ++ [{| asked := r4; got := fst a4 |}])%list in
          match fst a4 with
          | Rejected _ => creation_caught s (snd a4) tr4
          | Resolved _ =>
              let s' := registered (Item.id note)
                          (descriptor operation (selectedItems s) createdAt) s in
              let r5 := SetMetadata "calculatorNotes" (calculatorNotes s') in
              let a5 := h r5 (snd a4) in
              let r6 := ShowStatus
                          ((if String.eqb operation "sum" then "Sum" else "Product")
                           ++ " sticky note created successfully!") "success" in
              let a6 := h r6 (snd a5) in
              let tr6 := (tr4 ++ [{| asked := r5; got := fst a5 |};
                                  {| asked := r6; got := fst a6 |}])%list in
              match fst a6 with
              | Rejected _ => creation_caught s' (snd a6) tr6
              | Resolved _ => (Normal tt, s', snd a6, tr6)
              end
          end
      end
  end.

Definition is_status (r : request) : Prop := exists m t, r = ShowStatus m t.

Definition is_write (r : request) : Prop := exists k d, r = SetMetadata k d.

End CreationModel.

(** ** What a run of the reconciliation amounts to *)

Section RestoreModel.
Context {W : Type} (h : handler W).
Import StickyNoteCalculator.
Local Open Scope string_scope.

(** The probes of the reconciliation: one fetch per entry, in order; the
    ids whose fetch was not rejected, the state of the environment after
    the fetches and the exchanges made. *)
Fixpoint probes (entries : list (string * CalcData.t)) (acc : list string) (w : W)
  : list string * W * list exchange :=
  match entries with
  | [] => (acc, w, [])
  | entry :: entries' =>
      let a := h (GetItem (fst entry)) w in
      let acc' := match fst a with
                  | Resolved _ => (acc ++ [fst entry])%list
                  | Rejected _ => acc
                  end in
      let '(r, w', tr) := probes entries' acc' (snd a) in
      (r, w', {| asked := GetItem (fst entry); got := fst a |} :: tr)
  end.

(** An exchange that is a fetch of [id] which was not rejected, whatever
    it resolved to: the test that lines 259 to 265 make. *)
Definition resolved_fetch (id : string) (x : exchange) : bool :=
  match asked x as r return reply (response r) -> bool with
  | GetItem id' =>
      fun a => match a with
               | Resolved _ => String.eqb id id'
               | Rejected _ => false
               end
  | _ => fun _ => false
  end (got x).

(** The probe of an entry was not rejected, as far as the exchanges tell. *)
Definition probe_resolved (tr : list exchange) (entry : string * CalcData.t) : bool :=
  existsb (resolved_fetch (fst entry)) tr.

End RestoreModel.

(** ** The canvas in the words of the specification, and boards that fail *)

Section Canvas.
Local Open Scope string_scope.

(** The canvas item [id] still exists: the canvas holds an item of that
    id. *)
Definition on_canvas (id : string) (b : Board.t) : bool :=
  existsb (fun item => String.eqb (Item.id item) id) (Board.items b).

Definition is_fetch (r : request) : bool :=
  match r with
  | GetItem _ => true
  | _ => false
  end.

(** The board that rejects the calls [p] holds of, and answers the others. *)
Definition refusing (p : request -> bool) (e : error) : handler Board.t :=
  fun r b => if p r then (Rejected e, b) else Board.answer r b.

(** The board whose [getItem] resolves to [null] for an item that is not
    on the canvas, instead of rejecting. *)
Definition resolving_null : handler Board.t :=
  fun r b =>
    match r as r' return reply (response r') * Board.t with
    | GetItem id => (Resolved (Board.find id b), b)
    | r' => Board.answer r' b
    end.


End Canvas.

(** ** What formatting a result amounts to *)

Section FormatModel.
Import JSString Builtins StickyNoteCalculator.
Local Open Scope string_scope.
Local Open Scope Z_scope.

(** The magnitude of a finite number in units of [2^-1074], the smallest
    positive number. *)
Definition units (m : positive) (e : Z) : Z := Zpos m * 2 ^ (e + 1074).

(** The number that a list of digits is read as, after [acc]. *)
Fixpoint digits_value (l : list ascii) (acc : Z) : Z :=
  match l with
  | [] => acc
  | c :: l' => digits_value l' (10 * acc + (code c - 48))
  end.

(** Nothing, or a character that is not a digit, comes first. *)
Definition stops (l : list ascii) : bool :=
  match l with
  | [] => true
  | c :: _ => negb (is_digit c)
  end.

(** A character that [trim] leaves where it is. *)
Definition plain (c : ascii) : bool := negb (is_white_space c).

(** The number with the sign [neg]. *)
Definition with_sign (neg : bool) (v : Number.number) : Number.number :=
  match v with
  | S754_zero _ => S754_zero neg
  | S754_infinity _ => S754_infinity neg
  | S754_nan => S754_nan
  | S754_finite _ m e => S754_finite neg m e
  end.

(** The number as a string reads it back: -0 is written "0". *)
Definition read_back (v : Number.number) : Number.number :=
  match v with
  | S754_zero _ => S754_zero false
  | _ => v
  end.

(** The number [formatResult] prints: the number itself when it is an
    integer (or not finite), otherwise the number nearest to its rounding
    to six decimals. *)
Definition six_decimals (v : Number.number) : Number.number :=
  match v with
  | S754_finite s m e =>
      if Number.isInteger v then v else Number.of_decimal s (fixed_digits m e 6) (-6)
  | _ => v
  end.

(** The second branch in the words of the specification, to compare with
    [formatResult]: the rendering with six decimals, without the zeros it
    ends in and without a point left last. The list is the rendering
    backwards. *)
Fixpoint without_zeros (l : list ascii) : list ascii :=
  match l with
  | c :: l' =>
      if Ascii.eqb c "0" then without_zeros l'
      else if Ascii.eqb c "." then l' else l
  | [] => []
  end.

Definition strip_trailing_zeros (s : string) : string :=
  if includes s "." then string_of_list_ascii (rev (without_zeros (rev (chars s)))) else s.

Definition rounded_and_stripped (v : Number.number) : string :=
  strip_trailing_zeros (toFixed v 6).

(** The first branch in the words of the specification: a rendering with
    no fractional part, decimal digits after a minus sign or none. *)
Definition no_fractional_part (s : string) : bool :=
  match chars s with
  | c :: l =>
      if Ascii.eqb c "-"
      then forallb is_digit l && negb (length l =? 0)
      else forallb is_digit (c :: l)
  | [] => false
  end.

(** The magnitude of a number is below the integer [bound]. *)
Definition below (bound : Z) (v : Number.number) : bool :=
  match v with
  | S754_zero _ => true
  | S754_finite _ m e => let '(num, den) := Number.magnitude m e in num <? bound * den
  | _ => false
  end.

(** The magnitude of a finite number rounded to six decimals, in
    millionths; the sign of a number. *)
Definition millionths (v : Number.number) : Z :=
  match v with
  | S754_finite _ m e => fixed_digits m e 6
  | _ => 0
  end.

Definition is_negative (v : Number.number) : bool :=
  match v with
  | S754_zero s | S754_infinity s | S754_finite s _ _ => s
  | S754_nan => false
  end.

(** The sum of the notes "1.1" and "2.2". *)
Definition three_point_three : Number.number :=
  Number.add (getNumericValue "1.1") (getNumericValue "2.2").

(** A note whose value is 2^40 + 2^-12. *)
Definition fine_grained : Number.number := getNumericValue "1099511627776.000244140625".

(** The product of the notes "1e150" and "1.5e150", an integer. *)
Definition huge_product : Number.number :=
  Number.mul (getNumericValue "1e150") (getNumericValue "1.5e150").

(** A note whose value rounds to -0.000000. *)
Definition tiny_negative : Number.number := getNumericValue "-0.0000001".

End FormatModel.


(** ** Events and the panel *)

Section EventModel.
Import StickyNoteCalculator.
Local Open Scope string_scope.

(** The filter of [updateSelection] (lines 40 to 42). *)
Definition numeric_sticky_note (item : Item.t) : bool :=
  String.eqb (Item.type item) "sticky_note" && isNumeric (Item.content item).

(** The item that an exchange adds to a working set: the one a fetch
    resolved to, when it is a numeric sticky note. *)
Definition fetched (x : exchange) : option Item.t :=
  match asked x as r return reply (response r) -> option Item.t with
  | GetItem _ => usable
  | _ => fun _ => None
  end (got x).

Definition fetched_items (tr : list exchange) : list Item.t :=
  flat_map (fun x => match fetched x with Some item => [item] | None => [] end) tr.




Definition is_tagging (r : request) : bool :=
  match r with
  | UpdateItem _ (TagIds _) => true
  | _ => false
  end.

(** The notes "a" and "b" and the derived note "calc" are on the canvas,
    "a" and "b" are selected, and the store holds the entry of "calc". *)
Definition complete : Board.t :=
  {| Board.items := [Board.note "a" "1"; Board.note "b" "2"; Board.note "calc" "3"];
     Board.selection := [Board.note "a" "1"; Board.note "b" "2"];
     Board.metadata := Some [("calc", Scenario.sum_of_a_b)];
     Board.clock := 1000; Board.outage := None |}.

End EventModel.
(** * Properties *)

(** ** Numbers *)

Section NumberFacts.
Implicit Types a b : Number.number.

Lemma add_comm a b : Number.add a b = Number.add b a.
Proof.
  destruct a as [[|]|[|]| |sa ma ea], b as [[|]|[|]| |sb mb eb]; try reflexivity.
  unfold Number.add, SFadd.
  rewrite (Z.min_comm eb ea), Z.add_comm. reflexivity.
Qed.

Lemma mul_comm a b : Number.mul a b = Number.mul b a.
Proof.
  destruct a as [sa|sa| |sa ma ea], b as [sb|sb| |sb mb eb]; cbn;
    rewrite ?(xorb_comm sb sa); try reflexivity.
  rewrite (Pos.mul_comm mb ma), (Z.add_comm eb ea). reflexivity.
Qed.

(** Adding to the seed 0 gives the number back, but for -0. *)
Lemma add_zero_l a :
  Number.add (Number.of_Z 0) a
  = match a with S754_zero _ => S754_zero false | _ => a end.
Proof. destruct a as [[|]|[|]| |sa ma ea]; reflexivity. Qed.

Lemma iter_shr_52 (m : positive) :
  iter_pos shr_1 52
    {| shr_m := Zpos (Pos.iter xO m 52); shr_r := false; shr_s := false |}
  = {| shr_m := Zpos m; shr_r := false; shr_s := false |}.
Proof. reflexivity. Qed.

(** Multiplying the seed 1 by a binary64 number gives the number back. *)
Lemma mul_one_l a : Number.valid a = true -> Number.mul (Number.of_Z 1) a = a.
Proof.
  destruct a as [s|s| |s m e]; try reflexivity.
  unfold Number.valid, valid_binary, bounded, canonical_mantissa.
  intros H. apply andb_prop in H. destruct H as [Hc Hb].
  apply Z.eqb_eq in Hc.
  change (Number.of_Z 1) with (S754_finite false 4503599627370496 (-52)).
  unfold Number.mul, SFmul, binary_round_aux.
  change (Pos.mul 4503599627370496 m) with (Pos.iter xO m 52).
  assert (Hd : Zdigits2 (Zpos (Pos.iter xO m 52)) = Zpos (digits2_pos m) + 52).
  { cbn. lia. }
  unfold shr_fexp at 1. rewrite Hd.
  replace (Z.pos (digits2_pos m) + 52 + (-52 + e)) with (Z.pos (digits2_pos m) + e) by lia.
  rewrite Hc.
  replace (e - (-52 + e)) with 52 by lia.
  unfold shr, shr_record_of_loc. rewrite iter_shr_52.
  cbn [shr_m loc_of_shr_record round_nearest_even].
  replace (-52 + e + 52) with e by lia.
  unfold shr_fexp. cbn [Zdigits2]. rewrite Hc.
  rewrite Z.sub_diag. cbn [shr shr_record_of_loc shr_m].
  rewrite Hb. reflexivity.
Qed.

End NumberFacts.

(** ** The aggregate (lines 97 to 103 and 219 to 223) *)

Section Aggregate.
Import StickyNoteCalculator.
Local Open Scope string_scope.

Lemma reduce_fold_left {X Y : Type} (f : Y -> X -> Y) (l : list X) (y : Y) :
  reduce f l y = fold_left f l y.
Proof. revert y. induction l as [|x l IH]; intros y; cbn; auto. Qed.

Lemma same_result (operation : string) (values : list Number.number) :
  updateCalculatorNote_result operation values
  = createCalculation_result operation values.
Proof. reflexivity. Qed.

Lemma result_is_fold (operation : string) (values : list Number.number) :
  createCalculation_result operation values
  = if String.eqb operation "sum"
    then fold_left Number.add values (Number.of_Z 0)
    else fold_left Number.mul values (Number.of_Z 1).
Proof.
  unfold createCalculation_result.
  destruct (String.eqb operation "sum"); apply reduce_fold_left.
Qed.

Lemma result_of_two (operation : string) (a b : Number.number) :
  Number.valid a = true -> Number.valid b = true ->
  createCalculation_result operation [b; a] = createCalculation_result operation [a; b].
Proof.
  intros Ha Hb. unfold createCalculation_result.
  destruct (String.eqb operation "sum"); cbn [reduce].
  - rewrite !add_zero_l.
    destruct a as [[|]|[|]| |sa ma ea], b as [[|]|[|]| |sb mb eb];
      try reflexivity; apply add_comm.
  - rewrite !mul_one_l by assumption. apply mul_comm.
Qed.

Lemma Permutation_of_two {X : Type} (l l' : list X) :
  (List.length l <= 2)%nat -> Permutation l l' ->
  l' = l \/ exists a b, l = [a; b] /\ l' = [b; a].
Proof.
  intros Hlen Hp. destruct l as [|a [|b [|c l]]]; cbn in Hlen; [| | |lia].
  - apply Permutation_nil in Hp. left. exact Hp.
  - apply Permutation_length_1_inv in Hp. left. exact Hp.
  - apply Permutation_length_2_inv in Hp. destruct Hp as [Hp|Hp]; [left|right]; eauto.
Qed.

(** C1, as amended. The aggregate of creation and of recomputation is the
    left fold of the values, with + from 0 for "sum" and with * from 1
    otherwise; and for at most two binary64 values the result does not
    depend on their order. *)
Theorem aggregate_is_fold (operation : string) (values : list Number.number) :
  createCalculation_result operation values
  = (if String.eqb operation "sum"
     then fold_left Number.add values (Number.of_Z 0)
     else fold_left Number.mul values (Number.of_Z 1))
  /\ updateCalculatorNote_result operation values
     = createCalculation_result operation values
  /\ (forall values',
        Forall (fun v => Number.valid v = true) values ->
        (List.length values <= 2)%nat ->
        Permutation values values' ->
        createCalculation_result operation values'
        = createCalculation_result operation values).
Proof.
  split; [apply result_is_fold|]. split; [reflexivity|].
  intros values' Hvalid Hlen Hp.
  destruct (Permutation_of_two Hlen Hp) as [->|(a & b & -> & ->)]; [reflexivity|].
  inversion Hvalid as [|? ? Ha Hvalid']; subst.
  inversion Hvalid' as [|? ? Hb _]; subst.
  apply result_of_two; assumption.
Qed.

Lemma aggregate_is_fold_witness :
  createCalculation_result "product" [Number.of_Z 3; Number.of_Z 2]
  = createCalculation_result "product" [Number.of_Z 2; Number.of_Z 3].
Proof.
  exact (proj2 (proj2 (aggregate_is_fold "product" [Number.of_Z 2; Number.of_Z 3]))
           [Number.of_Z 3; Number.of_Z 2]
           ltac:(repeat constructor)
           (le_n 2)
           (perm_swap _ _ [])).
Defined.

(** C1, as stated, fails: the same three values in two orders have two
    sums, because 2^53 + 1 rounds back to 2^53 while 1 + 1 + 2^53 is
    exact. *)
Lemma sum_depends_on_order :
  Permutation (map getNumericValue ["9007199254740992"; "1"; "1"])
              (map getNumericValue ["1"; "1"; "9007199254740992"])
  /\ createCalculation_result "sum" (map getNumericValue ["9007199254740992"; "1"; "1"])
     <> createCalculation_result "sum" (map getNumericValue ["1"; "1"; "9007199254740992"]).
Proof.
  split.
  - cbn [map]. apply (Permutation_cons_append [_; _]).
  - vm_compute. discriminate.
Qed.

(** The product depends on the order as well: 2^1000 * 2^1000 overflows
    before 2^-1000 is reached. *)
Example product_depends_on_order :
  createCalculation_result "product"
    [Number.of_Z (2 ^ 1000); Number.of_Z (2 ^ 1000); S754_finite false 4503599627370496 (-1052)]
  <> createCalculation_result "product"
       [S754_finite false 4503599627370496 (-1052); Number.of_Z (2 ^ 1000); Number.of_Z (2 ^ 1000)].
Proof. vm_compute. discriminate. Qed.

(** C10. Every operation other than "sum" is computed as a product: by the
    aggregate of creation and of recomputation, in the content of the
    sticky note that creation asks for, and in the content that
    recomputation writes. *)
Theorem other_operation_is_product (operation : string) :
  operation <> "sum" ->
  (forall values,
      createCalculation_result operation values
      = fold_left Number.mul values (Number.of_Z 1)
      /\ updateCalculatorNote_result operation values
         = fold_left Number.mul values (Number.of_Z 1))
  /\ (forall selected, exists x y st,
        creation_request operation selected
        = CreateStickyNote
            (formatResult
               (fold_left Number.mul
                  (map (fun item => getNumericValue (Item.content item)) selected)
                  (Number.of_Z 1))) x y st)
  /\ (forall cd items,
        CalcData.operation cd = operation ->
        new_content cd items
        = formatResult
            (fold_left Number.mul
               (map (fun item => getNumericValue (Item.content item)) items)
               (Number.of_Z 1))).
Proof.
  intros Hop. apply String.eqb_neq in Hop.
  assert (H : forall values,
             createCalculation_result operation values
             = fold_left Number.mul values (Number.of_Z 1)).
  { intros values. rewrite result_is_fold, Hop. reflexivity. }
  split; [intros values; split; [apply H | rewrite same_result; apply H]|].
  split.
  - intros selected. unfold creation_request. rewrite H. eauto.
  - intros cd items <-. unfold new_content. rewrite same_result, H. reflexivity.
Qed.

Lemma other_operation_is_product_witness :
  createCalculation_result "average" [Number.of_Z 4; Number.of_Z 6] = Number.of_Z 24
  /\ updateCalculatorNote_result "average" [Number.of_Z 4; Number.of_Z 6] = Number.of_Z 24.
Proof.
  exact (proj1 (other_operation_is_product (operation := "average") ltac:(discriminate))
           [Number.of_Z 4; Number.of_Z 6]).
Defined.

End Aggregate.

(** ** Contents and classification (lines 73 to 81 and 149 to 157) *)

Section Contents.
Import StickyNoteCalculator.
Local Open Scope string_scope.

(** C8. The sources 4 and 6 give the content "10" under "sum" and "24"
    under "product"; the sources 1.1 and 2.2 give "3.3" under "sum",
    although their sum is the number written 3.3000000000000003; the same
    at creation and at recomputation. *)
Theorem computed_contents :
  let four_six := map getNumericValue ["4"; "6"] in
  let decimals := map getNumericValue ["1.1"; "2.2"] in
  formatResult (createCalculation_result "sum" four_six) = "10"
  /\ formatResult (createCalculation_result "product" four_six) = "24"
  /\ formatResult (createCalculation_result "sum" decimals) = "3.3"
  /\ Builtins.toString (createCalculation_result "sum" decimals) = "3.3000000000000003"
  /\ formatResult (updateCalculatorNote_result "sum" four_six) = "10"
  /\ formatResult (updateCalculatorNote_result "product" four_six) = "24"
  /\ formatResult (updateCalculatorNote_result "sum" decimals) = "3.3".
Proof. vm_compute. repeat split. Qed.

(** The same through the requests: what creation asks the board for, and
    what recomputation writes. *)
Example computed_contents_requested :
  (exists x y st,
      creation_request "sum" [Board.note "a" "4"; Board.note "b" "6"]
      = CreateStickyNote "10" x y st)
  /\ new_content Scenario.product_of_a_b [Board.note "a" "4"; Board.note "b" "6"] = "24"
  /\ new_content Scenario.sum_of_a_b [Board.note "a" "1.1"; Board.note "b" "2.2"] = "3.3".
Proof.
  split; [do 3 eexists; vm_compute; reflexivity|].
  split; vm_compute; reflexivity.
Qed.

(** C7 at the input "0x1F": the classifier accepts it, since [isNaN] reads
    the whole of it as the hexadecimal integer 31, while [parseFloat], by
    which [getNumericValue] reads it, stops after the "0": the value that
    enters the aggregate is 0, from a partial parse. *)
Theorem hexadecimal_is_numeric :
  isNumeric "0x1F" = true
  /\ Builtins.StringToNumber "0x1F" = Number.of_Z 31
  /\ Builtins.read_decimal (list_ascii_of_string "0x1F")
     = Some (false, Builtins.LDecimal 0 0, list_ascii_of_string "x1F")
  /\ getNumericValue "0x1F" = Number.of_Z 0.
Proof. vm_compute. repeat split. Qed.

(** A partial parse that the classifier does refuse, and a whole one it
    accepts. *)
Example classified :
  isNumeric "12abc" = false /\ isNumeric " 42 " = true /\ isNumeric "" = false
  /\ isNumeric "1e3" = true /\ isNumeric "1,000" = false /\ isNumeric "NaN" = false
  /\ isNumeric "-Infinity" = true /\ isNumeric "0b101" = true.
Proof. vm_compute. repeat split. Qed.

End Contents.

(** ** Running a method *)

Section Running.
Context {W : Type} (h : handler W).
Import StickyNoteCalculator.
Local Open Scope string_scope.

Lemma run_async_bind {A B : Type} (p : async A) (f : A -> async B) (w : W) :
  run h (async_bind p f) w =
  let '(a, w1, t1) := run h p w in
  let '(b, w2, t2) := run h (f a) w1 in
  (b, w2, (t1 ++ t2)%list).
Proof.
  revert w. induction p as [a | r k IH]; intros w; cbn.
  - destruct (run h (f a) w) as [[b w2] t2]. reflexivity.
  - destruct (h r w) as [a w1].
    rewrite IH.
    destruct (run h (k a) w1) as [[a' w1'] t1].
    destruct (run h (f a') w1') as [[b w2] t2]. reflexivity.
Qed.

(** Saving asks for one write of the whole index and swallows its
    failure. *)
Lemma run_save (s : state) (w : W) :
  run h (saveCalculatorNotesToMetadata s) w =
  let a := h (SetMetadata "calculatorNotes" (calculatorNotes s)) w in
  (Normal tt, s, snd a,
   [{| asked := SetMetadata "calculatorNotes" (calculatorNotes s); got := fst a |}]).
Proof.
  cbn. destruct (h _ w) as [[[]|e] w1]; reflexivity.
Qed.

End Running.

(** ** The index as a map *)

Section MapFacts.
Context {V : Type}.
Implicit Types (m : JSMap.t V) (k : string).

Lemma get_delete_same k m : JSMap.get k (JSMap.delete k m) = None.
Proof.
  induction m as [|[k' v] m IH]; cbn; [reflexivity|].
  destruct (String.eqb k k') eqn:E; cbn; [exact IH|].
  rewrite E. exact IH.
Qed.

Lemma get_delete_other k k' m :
  k <> k' -> JSMap.get k (JSMap.delete k' m) = JSMap.get k m.
Proof.
  intros Hk. induction m as [|[k0 v] m IH]; cbn; [reflexivity|].
  destruct (String.eqb k' k0) eqn:E; cbn.
  - apply String.eqb_eq in E. subst k0.
    destruct (String.eqb k k') eqn:E'; [apply String.eqb_eq in E'; contradiction|].
    exact IH.
  - destruct (String.eqb k k0); [reflexivity|exact IH].
Qed.

Lemma has_delete_same k m : JSMap.has k (JSMap.delete k m) = false.
Proof. unfold JSMap.has. rewrite get_delete_same. reflexivity. Qed.


End MapFacts.

(** ** Deletion events (lines 168 to 176) *)

Section Deletion.
Context {W : Type} (h : handler W).
Import StickyNoteCalculator.
Local Open Scope string_scope.

(** What the handler does for one deleted item. *)
Lemma run_handleItemsDelete_one (w : W) (s : state) (X : Item.t) :
  run h (handleItemsDelete [X] s) w =
  if JSMap.has (Item.id X) (calculatorNotes s) then
    let index' := JSMap.delete (Item.id X) (calculatorNotes s) in
    let a := h (SetMetadata "calculatorNotes" index') w in
    (Normal tt, {| selectedItems := selectedItems s; calculatorNotes := index' |},
     snd a, [{| asked := SetMetadata "calculatorNotes" index'; got := fst a |}])
  else (Normal tt, s, w, []).
Proof.
  unfold handleItemsDelete, for_of, bind, get_this. cbn [async_bind fst snd].
  destruct (JSMap.has (Item.id X) (calculatorNotes s)); [|reflexivity].
  unfold set_calculatorNotes. cbn [async_bind fst snd].
  rewrite !run_async_bind, run_save. reflexivity.
Qed.

(** C9. On an item-deleted event for one item: when its id is a tracked
    derived-note id, exactly that entry leaves the index, every other key
    keeps its entry, and the one call made is the write of the new index;
    when its id is not tracked (a source, or any other item), the index is
    the same and no call is made at all, so nothing is recomputed. *)
Theorem handleItemsDelete_frame (w : W) (s : state) (X : Item.t) :
  let o := run h (handleItemsDelete [X] s) w in
  let index := calculatorNotes s in
  let index' := calculatorNotes (snd (result_of o)) in
  fst (result_of o) = Normal tt /\
  selectedItems (snd (result_of o)) = selectedItems s /\
  if JSMap.has (Item.id X) index
  then index' = JSMap.delete (Item.id X) index
       /\ JSMap.has (Item.id X) index' = false
       /\ (forall k, k <> Item.id X -> JSMap.get k index' = JSMap.get k index)
       /\ requests_of o = [SetMetadata "calculatorNotes" index']
  else index' = index /\ requests_of o = [].
Proof.
  cbv zeta. rewrite run_handleItemsDelete_one.
  destruct (JSMap.has (Item.id X) (calculatorNotes s)); cbn; [|auto].
  repeat split; auto using has_delete_same.
  intros k Hk. apply get_delete_other. exact Hk.
Qed.

End Deletion.

(** ** Recomputation (lines 187 to 239) *)

Section Recompute.
Context {W : Type} (h : handler W).
Import StickyNoteCalculator.
Local Open Scope string_scope.

Lemma working_set_requests (ids : list string) (acc : list Item.t) (w : W) :
  map asked (snd (working_set h ids acc w)) = map GetItem ids.
Proof.
  revert acc w. induction ids as [|id ids IH]; intros acc w; cbn; [reflexivity|].
  specialize (IH (match usable (fst (h (GetItem id) w)) with
                  | Some item => (acc ++ [item])%list
                  | None => acc
                  end) (snd (h (GetItem id) w))).
  destruct (working_set h ids _ _) as [[r w'] tr]. cbn in *. rewrite IH. reflexivity.
Qed.

Lemma run_sourceItems_loop (ids : list string) (acc : list Item.t) (s : state) (w : W) :
  run h
    (for_of_fold ids acc
       (fun sourceItems sourceId =>
          try_catch
            (bind (await (GetItem sourceId))
               (fun item =>
                  match item with
                  | Some item =>
                      if String.eqb (Item.type item) "sticky_note"
                         && isNumeric (Item.content item)
                      then ret (sourceItems ++ [item])%list
                      else ret sourceItems
                  | None => ret sourceItems
                  end))
            (fun _ => ret sourceItems)) s) w =
  let '(items, w', tr) := working_set h ids acc w in
  (Normal items, s, w', tr).
Proof.
  revert acc w. induction ids as [|id ids IH]; intros acc w.
  - reflexivity.
  - cbn [for_of_fold working_set]. unfold bind at 1.
    rewrite run_async_bind.
    unfold try_catch at 1, bind at 1, await at 1. cbn [async_bind run].
    destruct (h (GetItem id) w) as [[[item|]|e] w1]; cbn [fst snd run async_bind usable].
    + destruct (String.eqb (Item.type item) "sticky_note" && isNumeric (Item.content item));
        cbn [fst snd run ret async_bind]; rewrite IH;
        destruct (working_set h ids _ w1) as [[r w'] tr]; reflexivity.
    + cbn [fst snd run ret async_bind]. rewrite IH.
      destruct (working_set h ids _ w1) as [[r w'] tr]; reflexivity.
    + cbn [fst snd run ret async_bind]. rewrite IH.
      destruct (working_set h ids _ w1) as [[r w'] tr]; reflexivity.
Qed.

Lemma run_sourceItems_of (cd : CalcData.t) (s : state) (w : W) :
  run h (sourceItems_of cd s) w =
  let '(items, w', tr) := working_set h (CalcData.sourceIds cd) [] w in
  (Normal items, s, w', tr).
Proof. apply run_sourceItems_loop. Qed.

(** The whole of [updateCalculatorNote], call by call. *)
Lemma run_updateCalculatorNote (id : string) (cd : CalcData.t) (s : state) (w : W) :
  run h (updateCalculatorNote id cd s) w =
  let '(items, w1, tr1) := working_set h (CalcData.sourceIds cd) [] w in
  match items with
  | [] =>
      let a := h (DeleteItem id) w1 in
      let tr := (tr1 ++ [{| asked := DeleteItem id; got := fst a |}])%list in
      match fst a with
      | Resolved _ => unregister_and_save h id s (snd a) tr
      | Rejected _ => (Normal tt, s, snd a, tr)
      end
  | _ :: _ =>
      let r := UpdateItem id (Content (new_content cd items)) in
      let a := h r w1 in
      let tr := (tr1 ++ [{| asked := r; got := fst a |}])%list in
      match fst a with
      | Resolved _ => (Normal tt, s, snd a, tr)
      | Rejected e =>
          match error_is_not_found e with
          | Normal true => unregister_and_save h id s (snd a) tr
          | Normal false => (Normal tt, s, snd a, tr)
          | Throw e' => (Throw e', s, snd a, tr)
          end
      end
  end.
Proof.
  unfold updateCalculatorNote, try_catch at 1, bind at 1.
  rewrite !run_async_bind, run_sourceItems_of.
  destruct (working_set h (CalcData.sourceIds cd) [] w) as [[items w1] tr1].
  cbn [fst snd]. unfold unregister_and_save, new_content.
  destruct items as [|item items].
  - cbn [List.length Z.of_nat Z.eqb].
    unfold try_catch at 1, bind at 1, await at 1. cbn [async_bind run].
    destruct (h (DeleteItem id) w1) as [[[]|e] w2]; cbn [fst snd run async_bind].
    + unfold bind, get_this, set_calculatorNotes. cbn [async_bind fst snd].
      rewrite !run_async_bind, run_save. cbn.
      rewrite <- ?app_assoc, ?app_nil_r. reflexivity.
    + cbn. rewrite ?app_nil_r. reflexivity.
  - replace (Z.of_nat (List.length (item :: items)) =? 0)%Z with false
      by (symmetry; apply Z.eqb_neq; cbn [List.length]; lia).
    unfold await at 1. cbn [run].
    destruct (h (UpdateItem id _) w1) as [[[]|e] w2]; cbn [fst snd run async_bind].
    + rewrite ?app_nil_r. reflexivity.
    + destruct (error_is_not_found e) as [[|]|e'].
      * unfold bind, get_this, set_calculatorNotes. cbn [async_bind fst snd].
        rewrite ?run_async_bind, run_save. cbn.
        rewrite <- ?app_assoc, ?app_nil_r. reflexivity.
      * cbn. rewrite ?app_nil_r. reflexivity.
      * cbn. rewrite ?app_nil_r. reflexivity.
Qed.

(** X7: the recomputation of a derived note whose working set is empty: the
    deletion of its canvas item is asked for; when the board carries it
    out, the id leaves the index and the new index is written; when the
    board rejects it, whatever it throws, the class is left as it was and
    no write is asked for. Nothing is thrown either way. *)
Theorem orphan_recompute
    (w : W) (s : state) (id : string) (cd : CalcData.t) :
  let ws := working_set h (CalcData.sourceIds cd) [] w in
  fst (fst ws) = [] ->
  let o := run h (updateCalculatorNote id cd s) w in
  let index' := calculatorNotes (snd (result_of o)) in
  fst (result_of o) = Normal tt /\
  match fst (h (DeleteItem id) (snd (fst ws))) with
  | Resolved _ =>
      index' = JSMap.delete id (calculatorNotes s)
      /\ JSMap.has id index' = false
      /\ requests_of o =
           (map GetItem (CalcData.sourceIds cd)
            ++ [DeleteItem id; SetMetadata "calculatorNotes" index'])%list
  | Rejected _ =>
      snd (result_of o) = s
      /\ requests_of o = (map GetItem (CalcData.sourceIds cd) ++ [DeleteItem id])%list
  end.
Proof.
  cbv zeta. intros Hempty.
  rewrite run_updateCalculatorNote.
  pose proof (working_set_requests (CalcData.sourceIds cd) [] w) as Hreq.
  destruct (working_set h (CalcData.sourceIds cd) [] w) as [[items w1] tr1].
  cbn [fst snd] in *. subst items. cbv zeta.
  destruct (fst (h (DeleteItem id) w1));
    unfold unregister_and_save, requests_of, result_of;
    cbn [fst snd unregistered calculatorNotes];
    rewrite !map_app, Hreq, <- ?app_assoc; cbn;
    auto using has_delete_same.
Qed.


(** What line 234 makes of a thrown value, case by case. *)
Lemma error_is_not_found_cases (e : error) :
  match e with
  | Thrown (Text m) =>
      error_is_not_found e = Normal (negb (String.eqb m "") && JSString.includes m "not found")
  | Thrown Falsy => error_is_not_found e = Normal false
  | Thrown (Searchable found) => error_is_not_found e = Normal found
  | Null | Undefined | Thrown Truthy =>
      exists text, error_is_not_found e = Throw (TypeError text)
  end.
Proof.
  destruct e as [| |[|m|found|]]; cbn; try reflexivity; eexists; reflexivity.
Qed.

End Recompute.

Section RecomputeOnBoards.
Import StickyNoteCalculator Scenario.
Local Open Scope string_scope.

Lemma orphan_recompute_witness :
  let o := run Board.answer (updateCalculatorNote "calc" sum_of_a_b tracking) orphaned in
  fst (result_of o) = Normal tt /\
  calculatorNotes (snd (result_of o)) = [] /\
  JSMap.has "calc" (calculatorNotes (snd (result_of o))) = false /\
  requests_of o =
    [GetItem "a"; GetItem "b"; DeleteItem "calc"; SetMetadata "calculatorNotes" []].
Proof.
pose proof (@orphan_recompute _ Board.answer orphaned tracking "calc" sum_of_a_b
              ltac:(vm_compute; reflexivity)) as H.
vm_compute in H |- *. exact H.
Defined.

(** C2 fails on the board where both sources and the derived note "calc"
    are gone. The working set of "calc" is empty; the deletion is rejected
    with "Item not found", which the write path takes for the note being
    gone (line 234 holds of it); here the method ends normally with "calc"
    still in the index, and no write of the index is asked for. *)
Theorem orphan_recompute_keeps_entry_when_deletion_fails :
  let o := run Board.answer (updateCalculatorNote "calc" sum_of_a_b tracking) emptied in
  fst (fst (working_set Board.answer (CalcData.sourceIds sum_of_a_b) [] emptied)) = []
  /\ fst (Board.answer (DeleteItem "calc") emptied) = Rejected Board.not_found
  /\ error_is_not_found Board.not_found = Normal true
  /\ fst (result_of o) = Normal tt
  /\ calculatorNotes (snd (result_of o)) = calculatorNotes tracking
  /\ JSMap.has "calc" (calculatorNotes (snd (result_of o))) = true
  /\ requests_of o = [GetItem "a"; GetItem "b"; DeleteItem "calc"].
Proof. vm_compute. repeat split. Qed.



End RecomputeOnBoards.

(** ** Creation (lines 83 to 147) *)

Section Creation.
Context {W : Type} (h : handler W).
Import StickyNoteCalculator.
Local Open Scope string_scope.

Lemma run_caught (s : state) (w : W) :
  run h (await (ShowStatus "Error creating calculation. Please try again." "error") s) w
  = creation_caught h s w [].
Proof.
  unfold creation_caught. cbn.
  destruct (h _ w) as [[[]|e] w1]; reflexivity.
Qed.

(** The whole of [createCalculation], call by call. *)
Lemma run_createCalculation (operation : string) (s : state) (w : W) :
  run h (createCalculation operation s) w =
  if (Z.of_nat (List.length (selectedItems s)) <? 2)%Z then
    let r := ShowStatus "Please select at least 2 numeric sticky notes" "error" in
    let a := h r w in
    match fst a with
    | Resolved _ => (Normal tt, s, snd a, [{| asked := r; got := fst a |}])
    | Rejected _ => creation_caught h s (snd a) [{| asked := r; got := fst a |}]
    end
  else
    let r := creation_request operation (selectedItems s) in
    let a := h r w in
    match fst a with
    | Rejected _ => creation_caught h s (snd a) [{| asked := r; got := fst a |}]
    | Resolved note =>
        creation_registers h operation s note (snd a) [{| asked := r; got := fst a |}]
    end.
Proof.
  unfold createCalculation, try_catch at 1, bind at 1, get_this at 1.
  cbn [async_bind fst snd].
  destruct (Z.of_nat (List.length (selectedItems s)) <? 2)%Z.
  - unfold await at 1. cbn [async_bind run].
    destruct (h _ w) as [[[]|e] w1]; cbn [fst snd async_bind run]; [reflexivity|].
    rewrite run_caught. unfold creation_caught.
    destruct (h _ w1) as [[[]|e'] w2]; reflexivity.
  - unfold bind at 1, await at 1. cbn [async_bind run]. fold (creation_request operation (selectedItems s)).
    destruct (h (creation_request operation (selectedItems s)) w) as [[note|e] w1];
      cbn [fst snd async_bind run].
    2:{ rewrite run_caught. unfold creation_caught.
        destruct (h _ w1) as [[[]|e'] w2]; reflexivity. }
    unfold creation_registers.
    unfold bind at 1, await at 1. cbn [async_bind run].
    destruct (h DateNow w1) as [[createdAt|e] w2]; cbn [fst snd async_bind run].
    2:{ rewrite run_caught. unfold creation_caught.
        destruct (h _ w2) as [[[]|e'] w3]; reflexivity. }
    unfold bind at 1, await at 1. cbn [async_bind run].
    destruct (h DateNow w2) as [[now|e] w3]; cbn [fst snd async_bind run].
    2:{ rewrite run_caught. unfold creation_caught.
        destruct (h _ w3) as [[[]|e'] w4]; reflexivity. }
    unfold bind at 1, await at 1. cbn [async_bind run].
    destruct (h (UpdateItem _ _) w3) as [[[]|e] w4]; cbn [fst snd async_bind run].
    2:{ rewrite run_caught. unfold creation_caught.
        destruct (h _ w4) as [[[]|e'] w5]; reflexivity. }
    unfold bind at 1, get_this at 1. cbn [async_bind fst snd].
    unfold bind at 1, set_calculatorNotes at 1. cbn [async_bind fst snd].
    unfold bind at 1. rewrite !run_async_bind, run_save.
    cbn [fst snd]. unfold await at 1. cbn [async_bind run].
    fold (descriptor operation (selectedItems s) createdAt).
    fold (registered (Item.id note) (descriptor operation (selectedItems s) createdAt) s).
    destruct (h (SetMetadata _ _) w4) as [a5 w5]. cbn [fst snd].
    destruct (h (ShowStatus _ _) w5) as [[[]|e] w6]; cbn [fst snd async_bind run].
    + reflexivity.
    + rewrite run_caught. unfold creation_caught.
      destruct (h _ w6) as [[[]|e'] w7]; reflexivity.
Qed.

Lemma caught_index (s : state) (w : W) (tr : list exchange) :
  calculatorNotes (snd (result_of (creation_caught h s w tr))) = calculatorNotes s.
Proof. reflexivity. Qed.

Lemma caught_requests (s : state) (w : W) (tr : list exchange) :
  requests_of (creation_caught h s w tr)
  = (map asked tr
     ++ [ShowStatus "Error creating calculation. Please try again." "error"])%list.
Proof. unfold requests_of, creation_caught. cbn. rewrite map_app. reflexivity. Qed.

(** From the moment the sticky note is there, the index ends as it was or
    with the one entry for that note. *)
Lemma registers_index (operation : string) (s : state) (note : Item.t) (w : W)
    (tr : list exchange) :
  let o := creation_registers h operation s note w tr in
  calculatorNotes (snd (result_of o)) = calculatorNotes s
  \/ exists createdAt,
       calculatorNotes (snd (result_of o))
       = JSMap.set (Item.id note) (descriptor operation (selectedItems s) createdAt)
           (calculatorNotes s).
Proof.
  cbv zeta. unfold creation_registers.
  destruct (h DateNow w) as [[createdAt|e] w2]; cbn [fst snd]; [|left; reflexivity].
  destruct (h DateNow w2) as [[now|e] w3]; cbn [fst snd]; [|left; reflexivity].
  destruct (h (UpdateItem _ _) w3) as [[[]|e] w4]; cbn [fst snd]; [|left; reflexivity].
  right. exists createdAt.
  destruct (h (SetMetadata _ _) w4) as [a5 w5]. cbn [fst snd].
  destruct (h (ShowStatus _ _) w5) as [[[]|e] w6]; reflexivity.
Qed.

Lemma registers_trace (operation : string) (s : state) (note : Item.t) (w : W)
    (tr : list exchange) (x : exchange) :
  In x tr -> In x (trace_of (creation_registers h operation s note w tr)).
Proof.
  intros Hx. unfold creation_registers, creation_caught, trace_of.
  destruct (h DateNow w) as [[createdAt|e] w2]; cbn [fst snd].
  2:{ rewrite !in_app_iff. tauto. }
  destruct (h DateNow w2) as [[now|e] w3]; cbn [fst snd].
  2:{ rewrite !in_app_iff. tauto. }
  destruct (h (UpdateItem _ _) w3) as [[[]|e] w4]; cbn [fst snd].
  2:{ rewrite !in_app_iff. tauto. }
  destruct (h (SetMetadata _ _) w4) as [a5 w5]. cbn [fst snd].
  destruct (h (ShowStatus _ _) w5) as [[[]|e] w6]; cbn [fst snd];
    rewrite !in_app_iff; tauto.
Qed.

(** C3. With fewer than two selected numeric notes the creation is
    rejected: the index is as it was and the only calls are status
    banners, so no sticky note is asked for.  When the request for the new
    sticky note is rejected, the index is as it was and no write of it is
    asked for.  And whatever the board answers, the index ends as it was
    or with one more entry whose key is the id of a sticky note that the
    board did create in this run. *)
Theorem createCalculation_leaves_index_on_failure
    (operation : string) (s : state) (w : W) :
  let o := run h (createCalculation operation s) w in
  let index' := calculatorNotes (snd (result_of o)) in
  let create := creation_request operation (selectedItems s) in
  ((List.length (selectedItems s) < 2)%nat ->
     index' = calculatorNotes s /\ Forall is_status (requests_of o))
  /\ (forall e, fst (h create w) = Rejected e ->
        index' = calculatorNotes s /\ Forall (fun r => ~ is_write r) (requests_of o))
  /\ (index' = calculatorNotes s
      \/ exists note createdAt,
           In {| asked := create; got := Resolved note |} (trace_of o)
           /\ index' = JSMap.set (Item.id note)
                         (descriptor operation (selectedItems s) createdAt)
                         (calculatorNotes s)).
Proof.
  cbv zeta. rewrite run_createCalculation. cbv zeta.
  destruct (Z.of_nat (List.length (selectedItems s)) <? 2)%Z eqn:Hlen.
  - assert (Hstatus : forall m t, is_status (ShowStatus m t)) by (intros m t; exists m, t; reflexivity).
    assert (Hnowrite : forall m t, ~ is_write (ShowStatus m t))
      by (intros m t (k & d & H); discriminate).
    destruct (h (ShowStatus "Please select at least 2 numeric sticky notes" "error") w)
      as [[[]|e0] w1]; cbn [fst snd].
    + split; [intros _; split; [reflexivity | cbn; auto]|].
      split; [intros e _; split; [reflexivity | cbn; auto] | left; reflexivity].
    + rewrite caught_index, caught_requests. cbn.
      split; [intros _; split; [reflexivity | auto]|].
      split; [intros e _; split; [reflexivity | auto] | left; reflexivity].
  - apply Z.ltb_ge in Hlen.
    destruct (h (creation_request operation (selectedItems s)) w) as [[note|e0] w1] eqn:Hc;
      cbn [fst snd].
    + split; [lia|]. split; [intros e He; discriminate|].
      destruct (registers_index operation s note w1
                  [{| asked := creation_request operation (selectedItems s);
                      got := Resolved note |}]) as [H|[createdAt H]].
      * left. exact H.
      * right. exists note, createdAt. split; [|exact H].
        apply registers_trace. left. reflexivity.
    + rewrite caught_index, caught_requests. cbn.
      split; [lia|]. split; [|left; reflexivity].
      intros e _. split; [reflexivity|].
      repeat constructor; intros (k & d & H); discriminate.
Qed.

End Creation.

(** ** Reconciliation on load (lines 250 to 280) *)

Lemma forallb_pointwise {A : Type} (f g : A -> bool) (l : list A) :
  (forall a, f a = g a) -> forallb f l = forallb g l.
Proof.
  intros H. induction l as [|a l IH]; cbn; [reflexivity|].
  rewrite H, IH. reflexivity.
Qed.

Section MapEntries.
Context {V : Type}.
Implicit Types (m l : list (string * V)) (k : string).

Lemma set_fresh k (v : V) m :
  ~ In k (map fst m) -> JSMap.set k v m = (m ++ [(k, v)])%list.
Proof.
  induction m as [|[k' v'] m IH]; cbn; [reflexivity|].
  intros Hk. destruct (String.eqb k k') eqn:E.
  - apply String.eqb_eq in E. subst k'. exfalso. apply Hk. left. reflexivity.
  - rewrite IH; [reflexivity|]. intros H. apply Hk. right. exact H.
Qed.

Lemma of_entries_acc l m :
  NoDup (map fst (m ++ l)) ->
  fold_left (fun m e => JSMap.set (fst e) (snd e) m) l m = (m ++ l)%list.
Proof.
  revert m. induction l as [|[k v] l IH]; intros m Hnd; cbn.
  - rewrite app_nil_r. reflexivity.
  - rewrite set_fresh.
    + rewrite IH; rewrite <- app_assoc; [reflexivity|exact Hnd].
    + rewrite map_app in Hnd. cbn in Hnd.
      apply NoDup_remove_2 in Hnd. intros H. apply Hnd.
      apply in_or_app. left. exact H.
Qed.

(** [new Map(Object.entries(data))] has the entries of [data], in
    order. *)
Lemma of_entries_object l : NoDup (map fst l) -> JSMap.of_entries l = l.
Proof. intros H. unfold JSMap.of_entries. rewrite of_entries_acc; auto. Qed.

Lemma NoDup_keys_filter (f : string * V -> bool) l :
  NoDup (map fst l) -> NoDup (map fst (filter f l)).
Proof.
  induction l as [|[k v] l IH]; cbn; [auto|].
  intros H. inversion H as [|? ? Hk Hl]; subst.
  destruct (f (k, v)); cbn; [|auto].
  constructor; [|auto].
  intros Hin. apply Hk. apply in_map_iff in Hin. destruct Hin as (e & He & Hin).
  apply filter_In in Hin. apply in_map_iff. exists e. tauto.
Qed.

Lemma filter_length_all (f : string * V -> bool) l :
  (Z.of_nat (List.length (filter f l)) =? Z.of_nat (List.length l))%Z = forallb f l.
Proof.
  assert (Hle : forall l', (List.length (filter f l') <= List.length l')%nat).
  { induction l' as [|e l' IH]; cbn; [lia|]. destruct (f e); cbn; lia. }
  induction l as [|e l IH]; cbn; [reflexivity|].
  destruct (f e); cbn [List.length andb].
  - rewrite <- IH. destruct (Z.eqb_spec (Z.of_nat (List.length (filter f l)))
                                        (Z.of_nat (List.length l)));
      [apply Z.eqb_eq | apply Z.eqb_neq]; lia.
  - apply Z.eqb_neq. specialize (Hle l). lia.
Qed.

Lemma filter_all (f : string * V -> bool) l : forallb f l = true -> filter f l = l.
Proof.
  induction l as [|e l IH]; cbn; [reflexivity|].
  destruct (f e); cbn; [|discriminate]. intros H. rewrite IH; auto.
Qed.

End MapEntries.

Section Restore.
Context {W : Type} (h : handler W).
Import StickyNoteCalculator.
Local Open Scope string_scope.

Lemma run_probes_loop (entries : list (string * CalcData.t)) (acc : list string)
    (s : state) (w : W) :
  run h
    (for_of_fold entries acc
       (fun validCalculatorIds entry =>
          try_catch
            (bind (await (GetItem (fst entry)))
               (fun _ => ret (validCalculatorIds ++ [fst entry])%list))
            (fun _ => ret validCalculatorIds)) s) w =
  let '(valid, w', tr) := probes h entries acc w in
  (Normal valid, s, w', tr).
Proof.
  revert acc w. induction entries as [|entry entries IH]; intros acc w.
  - reflexivity.
  - cbn [for_of_fold probes]. unfold bind at 1.
    rewrite run_async_bind.
    unfold try_catch at 1, bind at 1, await at 1. cbn [async_bind run].
    destruct (h (GetItem (fst entry)) w) as [[item|e] w1];
      cbn [fst snd run ret async_bind]; rewrite IH;
      destruct (probes h entries _ w1) as [[r w'] tr]; reflexivity.
Qed.

(** The whole of [restoreCalculatorNotes], call by call. *)
Lemma run_restoreCalculatorNotes (s : state) (w : W) :
  run h (restoreCalculatorNotes s) w =
  let r := GetMetadata "calculatorNotes" in
  let a := h r w in
  let x := {| asked := r; got := fst a |} in
  match fst a with
  | Resolved (Some data) =>
      let index := JSMap.of_entries data in
      let '(valid, w1, tr1) := probes h index [] (snd a) in
      let validEntries :=
        filter (fun entry => existsb (String.eqb (fst entry)) valid) index in
      let s' := {| selectedItems := selectedItems s;
                   calculatorNotes := JSMap.of_entries validEntries |} in
      if negb (Z.of_nat (List.length validEntries) =? Z.of_nat (List.length data))%Z
      then
        let r2 := SetMetadata "calculatorNotes" (calculatorNotes s') in
        let a2 := h r2 w1 in
        (Normal tt, s', snd a2, x :: (tr1 ++ [{| asked := r2; got := fst a2 |}])%list)
      else (Normal tt, s', w1, x :: tr1)
  | _ => (Normal tt, s, snd a, [x])
  end.
Proof.
  cbv zeta.
  unfold restoreCalculatorNotes, try_catch at 1, bind at 1, await at 1.
  cbn [async_bind run].
  destruct (h (GetMetadata "calculatorNotes") w) as [[[data|]|e] w0];
    cbn [fst snd async_bind run]; [|reflexivity|reflexivity].
  unfold bind at 1, set_calculatorNotes at 1. cbn [async_bind fst snd].
  unfold bind at 1, get_this at 1. cbn [async_bind fst snd calculatorNotes].
  unfold bind at 1. rewrite !run_async_bind, run_probes_loop.
  destruct (probes h (JSMap.of_entries data) [] w0) as [[valid w1] tr1].
  cbn [fst snd].
  unfold bind at 1, get_this at 1. cbn [async_bind fst snd calculatorNotes].
  unfold bind at 1, set_calculatorNotes at 1. cbn [async_bind fst snd selectedItems].
  destruct (negb _).
  - rewrite run_save. cbn. rewrite ?app_nil_r. reflexivity.
  - cbn. rewrite ?app_nil_r. reflexivity.
Qed.

Lemma probes_spec (entries : list (string * CalcData.t)) (acc : list string) (w : W) :
  let o := probes h entries acc w in
  (forall id, existsb (String.eqb id) (fst (fst o))
              = existsb (String.eqb id) acc || existsb (resolved_fetch id) (snd o))
  /\ map asked (snd o) = map GetItem (map fst entries).
Proof.
  cbv zeta. revert acc w. induction entries as [|entry entries IH]; intros acc w.
  - cbn. split; [intros id; rewrite orb_false_r; reflexivity | reflexivity].
  - cbn [probes].
    specialize (IH (match fst (h (GetItem (fst entry)) w) with
                    | Resolved _ => (acc ++ [fst entry])%list
                    | Rejected _ => acc
                    end) (snd (h (GetItem (fst entry)) w))).
    destruct (probes h entries _ _) as [[valid w'] tr]. cbn [fst snd] in *.
    destruct IH as [IHv IHr]. split; [|cbn; rewrite IHr; reflexivity].
    intros id. rewrite IHv. cbn [existsb resolved_fetch asked got].
    destruct (fst (h (GetItem (fst entry)) w)) as [item|e].
    + rewrite existsb_app. cbn. rewrite orb_false_r, <- orb_assoc. reflexivity.
    + reflexivity.
Qed.

(** X11: when the persisted record is read, the index becomes its entries less
    exactly those whose probe, one fetch per entry, was rejected, for
    whatever reason; an entry whose probe resolved, to whatever, is kept.
    The pruned index is written back when, and only when, an entry was
    dropped; when no probe was rejected the index is the record and the
    store is not written to. *)
Theorem restore_keeps_resolved_probes
    (w : W) (s : state) (data : list (string * CalcData.t)) :
  fst (h (GetMetadata "calculatorNotes") w) = Resolved (Some data) ->
  NoDup (map fst data) ->
  let o := run h (restoreCalculatorNotes s) w in
  let index' := calculatorNotes (snd (result_of o)) in
  let all_resolved := forallb (probe_resolved (trace_of o)) data in
  index' = filter (probe_resolved (trace_of o)) data
  /\ requests_of o =
     (GetMetadata "calculatorNotes" :: map GetItem (map fst data)
      ++ (if all_resolved then [] else [SetMetadata "calculatorNotes" index']))%list
  /\ (all_resolved = true -> index' = data).
Proof.
  cbv zeta. intros Hmeta Hnd.
  rewrite run_restoreCalculatorNotes. cbv zeta. rewrite Hmeta.
  rewrite (of_entries_object _ Hnd).
  pose proof (probes_spec data [] (snd (h (GetMetadata "calculatorNotes") w))) as Hp.
  cbv zeta in Hp.
  destruct (probes h data [] _) as [[valid w1] tr1]. cbn [fst snd] in Hp.
  destruct Hp as [Hvalid Hreq].
  set (x := {| asked := GetMetadata "calculatorNotes"; got := Resolved (Some data) |}).
  assert (Hkeep : forall tail entry,
             (forall y, In y tail -> resolved_fetch (fst entry) y = false) ->
             probe_resolved (x :: tr1 ++ tail) entry
             = existsb (String.eqb (fst entry)) valid).
  { intros tail entry Htail. unfold probe_resolved. cbn [existsb].
    rewrite existsb_app, Hvalid. cbn [existsb resolved_fetch asked x orb].
    replace (existsb (resolved_fetch (fst entry)) tail) with false; [apply orb_false_r|].
    symmetry. apply not_true_iff_false. intros H. apply existsb_exists in H.
    destruct H as (y & Hy & Hf). rewrite (Htail y Hy) in Hf. discriminate. }
  rewrite filter_length_all.
  set (keep := fun entry : string * CalcData.t => existsb (String.eqb (fst entry)) valid).
  rewrite (of_entries_object _ (NoDup_keys_filter keep _ Hnd)).
  assert (Hk0 : forall entry, probe_resolved (x :: tr1) entry = keep entry).
  { intros entry. rewrite <- (app_nil_r tr1). apply Hkeep. intros y []. }
  assert (Hk1 : forall a entry,
             probe_resolved (x :: tr1 ++ [{| asked := SetMetadata "calculatorNotes" (filter keep data);
                                           got := a |}]) entry = keep entry).
  { intros a entry. apply Hkeep. intros y [<-|[]]. reflexivity. }
  destruct (forallb keep data) eqn:Hall;
    cbn [negb fst snd result_of trace_of requests_of calculatorNotes].
  - rewrite (filter_ext _ _ Hk0), (forallb_pointwise _ _ data Hk0), Hall.
    rewrite (filter_all _ _ Hall). unfold requests_of. cbn [map snd asked x].
    rewrite Hreq, app_nil_r. auto.
  - cbn [snd fst]. rewrite (filter_ext _ _ (Hk1 _)), (forallb_pointwise _ _ data (Hk1 _)), Hall.
    unfold requests_of. cbn [map snd asked x]. rewrite map_app, Hreq. cbn. split; [reflexivity|].
    split; [reflexivity|discriminate].
Qed.

End Restore.

Section OnBoards.
Import StickyNoteCalculator Scenario.
Local Open Scope string_scope.

Lemma createCalculation_leaves_index_on_failure_witness :
  (calculatorNotes
     (snd (result_of (run Board.answer (createCalculation "sum" one_selected) unreachable)))
   = calculatorNotes one_selected
   /\ Forall is_status
        (requests_of (run Board.answer (createCalculation "sum" one_selected) unreachable)))
  /\ (calculatorNotes
        (snd (result_of (run Board.answer (createCalculation "sum" two_selected) unreachable)))
      = calculatorNotes two_selected
      /\ Forall (fun r => ~ is_write r)
           (requests_of (run Board.answer (createCalculation "sum" two_selected) unreachable))).
Proof.
pose proof (proj1 (@createCalculation_leaves_index_on_failure
                     _ Board.answer "sum" one_selected unreachable)
              (le_n 2)) as H1.
pose proof (proj1 (proj2 (@createCalculation_leaves_index_on_failure
                            _ Board.answer "sum" two_selected unreachable))
              timed_out ltac:(vm_compute; reflexivity)) as H2.
split; [exact H1 | exact H2].
Defined.

Lemma restore_keeps_resolved_probes_witness :
  let o := run Board.answer (restoreCalculatorNotes fresh) restarted in
  calculatorNotes (snd (result_of o)) = [("calc", sum_of_a_b)]
  /\ requests_of o =
     [GetMetadata "calculatorNotes"; GetItem "calc"; GetItem "calc-2";
      SetMetadata "calculatorNotes" [("calc", sum_of_a_b)]].
Proof.
destruct (@restore_keeps_resolved_probes _ Board.answer restarted fresh
            [("calc", sum_of_a_b); ("calc-2", product_of_a_b)] eq_refl
            ltac:(repeat constructor; cbn; intuition discriminate))
  as (Hindex & Hrequests & _).
vm_compute in Hindex, Hrequests |- *.
split; [exact Hindex | exact Hrequests].
Defined.

(** A load with no stale entry leaves the store as it is. *)
Example restore_without_stale_entries :
  let o := run Board.answer (restoreCalculatorNotes fresh) reloaded in
  calculatorNotes (snd (result_of o)) = [("calc", sum_of_a_b)]
  /\ requests_of o = [GetMetadata "calculatorNotes"; GetItem "calc"]
  /\ Board.metadata (snd (fst o)) = Board.metadata reloaded.
Proof. vm_compute. repeat split. Qed.

(** C4 fails on two boards. On the first the store holds the entry of
    "calc" and the canvas holds the item "calc", but its probe is rejected
    with "Request timed out": the entry is dropped and the empty index is
    written to the store. On the second the store holds the entry of
    "calc-2", whose item is gone, and its probe resolves to [null]: the
    entry is kept and nothing is written. *)
Theorem restore_takes_rejection_for_absence :
  (let o := run (refusing is_fetch timed_out) (restoreCalculatorNotes fresh) reloaded in
   Board.metadata reloaded = Some [("calc", sum_of_a_b)]
   /\ on_canvas "calc" reloaded = true
   /\ fst (refusing is_fetch timed_out (GetItem "calc") reloaded) = Rejected timed_out
   /\ calculatorNotes (snd (result_of o)) = []
   /\ requests_of o
      = [GetMetadata "calculatorNotes"; GetItem "calc"; SetMetadata "calculatorNotes" []]
   /\ Board.metadata (snd (fst o)) = Some [])
  /\ (let o := run resolving_null (restoreCalculatorNotes fresh) restarted in
      Board.metadata restarted = Some [("calc", sum_of_a_b); ("calc-2", product_of_a_b)]
      /\ on_canvas "calc-2" restarted = false
      /\ fst (resolving_null (GetItem "calc-2") restarted) = Resolved None
      /\ calculatorNotes (snd (result_of o))
         = [("calc", sum_of_a_b); ("calc-2", product_of_a_b)]
      /\ requests_of o = [GetMetadata "calculatorNotes"; GetItem "calc"; GetItem "calc-2"]
      /\ Board.metadata (snd (fst o)) = Board.metadata restarted).
Proof. vm_compute. repeat split. Qed.

End OnBoards.

(** ** Formatting a result *)

Unset Implicit Arguments.

(** Arithmetic on the scale of binary64 numbers is done with the powers as
    unknowns, where that is enough. *)
Ltac hide_powers :=
  repeat match goal with x := _ |- _ => clearbody x end;
  repeat match goal with
         | |- context [2 ^ ?n] =>
             let x := fresh "pow" in set (x := 2 ^ n) in *; clearbody x
         | H : context [2 ^ ?n] |- _ =>
             let x := fresh "pow" in set (x := 2 ^ n) in *; clearbody x
         end.

Ltac plia := hide_powers; lia.

Ltac pnia := hide_powers; nia.

Section Validity.
Local Open Scope Z_scope.

Lemma digits2_bounds (m : positive) :
  2 ^ (Zpos (digits2_pos m) - 1) <= Zpos m < 2 ^ Zpos (digits2_pos m).
Proof.
  induction m as [m IH|m IH|]; cbn [digits2_pos].
  - rewrite Pos2Z.inj_succ.
    replace (Z.succ (Zpos (digits2_pos m)) - 1) with (Z.succ (Zpos (digits2_pos m) - 1)) by lia.
    rewrite !Z.pow_succ_r by lia. lia.
  - rewrite Pos2Z.inj_succ.
    replace (Z.succ (Zpos (digits2_pos m)) - 1) with (Z.succ (Zpos (digits2_pos m) - 1)) by lia.
    rewrite !Z.pow_succ_r by lia. lia.
  - cbn. lia.
Qed.

Lemma pow2_lt_inv (a b : Z) : 0 <= b -> 2 ^ a < 2 ^ b -> a < b.
Proof.
  intros Hb H. destruct (Z_lt_le_dec a b) as [|Hle]; [assumption|].
  apply (Z.pow_le_mono_r 2) in Hle; lia.
Qed.

(** A finite number is a binary64 number when its exponent is in range and
    its mantissa has 53 bits, or fewer at the least exponent. *)
Lemma valid_finite (s : bool) (m : positive) (e : Z) :
  Number.valid (S754_finite s m e) = true <->
  Number.emin <= e <= 971 /\ Zpos m < 2 ^ 53 /\ (e = Number.emin \/ 2 ^ 52 <= Zpos m).
Proof.
  unfold Number.valid, valid_binary, bounded, canonical_mantissa, fexp, SpecFloat.emin,
    Number.emin, Number.prec, Number.emax.
  rewrite andb_true_iff, Z.eqb_eq, Z.leb_le.
  pose proof (digits2_bounds m) as [Hlo Hhi].
  set (d := Zpos (digits2_pos m)) in *.
  assert (Hd : 0 < d) by (unfold d; lia).
  change (3 - 1024 - 53) with (-1074). change (1024 - 53) with 971.
  split.
  - intros [Hc He].
    assert (Hd53 : d <= 53) by lia.
    assert (Zpos m < 2 ^ 53).
    { apply Z.lt_le_trans with (2 ^ d); [assumption|]. apply Z.pow_le_mono_r; lia. }
    repeat split; try lia.
    destruct (Z.eq_dec e (-1074)) as [|Hne]; [left; assumption|right].
    assert (d = 53) by lia. subst d. replace 52 with (53 - 1) by lia.
    rewrite <- H0. exact Hlo.
  - intros ([He1 He2] & Hm & Hcase). split; [|lia].
    assert (d <= 53).
    { destruct (Z_le_gt_dec d 53) as [|Hgt]; [assumption|].
      assert (2 ^ 53 <= 2 ^ (d - 1)) by (apply Z.pow_le_mono_r; lia). lia. }
    destruct Hcase as [->|Hm52]; [lia|].
    assert (52 < d) by (apply pow2_lt_inv; lia).
    lia.
Qed.

End Validity.

Section Rounding.
Local Open Scope Z_scope.

Lemma pow2_pos (a : Z) : 0 <= a -> 0 < 2 ^ a.
Proof. intros. apply Z.pow_pos_nonneg; plia. Qed.

Lemma pow2_1074_pos : 0 < 2 ^ 1074.
Proof. apply pow2_pos. plia. Qed.

Lemma pow2_split (a b : Z) : 0 <= a -> 0 <= b -> 2 ^ (a + b) = 2 ^ a * 2 ^ b.
Proof. intros. apply Z.pow_add_r; assumption. Qed.

Lemma nearest_even_spec (N G : Z) :
  0 <= N -> 0 < G ->
  0 <= Number.nearest_even N G /\ 2 * Z.abs (Number.nearest_even N G * G - N) <= G.
Proof.
  intros HN HG. unfold Number.nearest_even.
  pose proof (Z.div_mod N G ltac:(plia)) as Hdm.
  pose proof (Z.mod_pos_bound N G HG) as Hr.
  assert (Hq : 0 <= N / G) by (apply Z.div_pos; plia).
  destruct (Z.compare_spec (2 * (N mod G)) G) as [H|H|H];
    [destruct (Z.even (N / G))| |]; split; pnia.
Qed.

Lemma nearest_integer (N G m j : Z) :
  0 < G -> 2 * Z.abs (m * G - N) <= G -> Z.abs (m * G - N) <= Z.abs (j * G - N).
Proof.
  intros HG Hm. destruct (Z.eq_dec j m) as [->|Hne]; [plia|].
  assert (G <= Z.abs (j * G - m * G)) by pnia.
  plia.
Qed.

(** The fraction is below the next power of two after its binade. *)
Lemma binade_upper (num den t : Z) :
  0 < num -> 0 < den -> 0 <= t -> 0 <= Number.binade num den + 1 + t ->
  num * 2 ^ t < den * 2 ^ (Number.binade num den + 1 + t).
Proof.
  intros Hn Hd Ht. unfold Number.binade, Number.emin.
  pose proof (Z.log2_spec num Hn) as [Hn1 Hn2].
  pose proof (Z.log2_spec den Hd) as [Hd1 Hd2].
  pose proof (Z.log2_nonneg num) as Hln. pose proof (Z.log2_nonneg den) as Hld.
  set (ln := Z.log2 num) in *. set (ld := Z.log2 den) in *.
  replace (Z.succ ln) with (ln + 1) in * by plia.
  replace (Z.succ ld) with (ld + 1) in * by plia.
  destruct (Z.leb_spec (den * 2 ^ (ln - ld - -1074)) (num * 2 ^ (- -1074))) as [Hpass|Hfail];
    intros Hb.
  - assert (Hpow : 2 ^ (ln + 1 + t) = 2 ^ ld * 2 ^ (ln - ld + 1 + t)).
    { rewrite <- pow2_split by plia. f_equal. plia. }
    assert (num * 2 ^ t < 2 ^ (ln + 1 + t)).
    { rewrite (pow2_split (ln + 1) t) by plia. pose proof (pow2_pos t Ht). pnia. }
    pose proof (pow2_pos (ln - ld + 1 + t) Hb). pnia.
  - replace (ln - ld - 1 + 1 + t) with (ln - ld + t) in * by plia.
    change (- -1074) with 1074 in Hfail.
    replace (ln - ld - -1074) with (ln - ld + 1074) in Hfail by plia.
    assert (Hex : 0 <= ln - ld + 1074).
    { destruct (Z_le_gt_dec 0 (ln - ld + 1074)) as [|Hneg]; [assumption|].
      rewrite (Z.pow_neg_r 2 (ln - ld + 1074)) in Hfail by plia.
      rewrite Z.mul_0_r in Hfail.
      pose proof (Z.mul_pos_pos _ _ Hn pow2_1074_pos) as Hpos.
      exfalso. exact (Z.lt_irrefl _ (Z.lt_trans _ _ _ Hpos Hfail)). }
    destruct (Z_le_gt_dec 1074 t) as [Hbig|Hsmall].
    + replace (ln - ld + t) with (ln - ld + 1074 + (t - 1074)) by plia.
      replace (2 ^ t) with (2 ^ (1074 + (t - 1074))) by (f_equal; plia).
      rewrite (pow2_split 1074 (t - 1074)), (pow2_split (ln - ld + 1074) (t - 1074)) by plia.
      pose proof (pow2_pos (t - 1074) ltac:(plia)). pnia.
    + replace (ln - ld + 1074) with (ln - ld + t + (1074 - t)) in Hfail by plia.
      replace (2 ^ 1074) with (2 ^ (t + (1074 - t))) in Hfail by (f_equal; plia).
      rewrite (pow2_split t (1074 - t)), (pow2_split (ln - ld + t) (1074 - t)) in Hfail by plia.
      pose proof (pow2_pos (1074 - t) ltac:(plia)). pnia.
Qed.

(** A fraction among the normal numbers is not below the power of two of
    its binade. *)
Lemma binade_lower (num den : Z) :
  0 < num -> 0 < den -> 0 <= Number.binade num den + 1074 ->
  den * 2 ^ (Number.binade num den + 1074) <= num * 2 ^ 1074.
Proof.
  intros Hn Hd. unfold Number.binade, Number.emin.
  pose proof (Z.log2_spec num Hn) as [Hn1 Hn2].
  pose proof (Z.log2_spec den Hd) as [Hd1 Hd2].
  pose proof (Z.log2_nonneg num) as Hln. pose proof (Z.log2_nonneg den) as Hld.
  set (ln := Z.log2 num) in *. set (ld := Z.log2 den) in *.
  replace (Z.succ ln) with (ln + 1) in * by plia.
  replace (Z.succ ld) with (ld + 1) in * by plia.
  change (- -1074) with 1074.
  replace (ln - ld - -1074) with (ln - ld + 1074) by plia.
  destruct (Z.leb_spec (den * 2 ^ (ln - ld + 1074)) (num * 2 ^ 1074)) as [Hpass|Hfail];
    intros Hb.
  - exact Hpass.
  - assert (Hpow : 2 ^ (ln + 1074) = 2 ^ (ld + 1) * 2 ^ (ln - ld - 1 + 1074)).
    { rewrite <- pow2_split by plia. f_equal. plia. }
    assert (2 ^ (ln + 1074) <= num * 2 ^ 1074).
    { rewrite (pow2_split ln 1074) by plia. pose proof pow2_1074_pos. pnia. }
    pose proof (pow2_pos (ln - ld - 1 + 1074) Hb). pnia.
Qed.



(** The bounds that the exponent chosen for a fraction gives. *)
Lemma exponent_of_bounds (num den : Z) :
  0 < num -> 0 < den ->
  let e := Number.exponent_of num den in
  let G := den * 2 ^ (e + 1074) in
  -1074 <= e /\ 0 < G
  /\ num * 2 ^ 1074 < 2 ^ 53 * G
  /\ (-1074 < e -> 2 ^ 52 * G <= num * 2 ^ 1074).
Proof.
  intros Hn Hd. cbv zeta. unfold Number.exponent_of, Number.prec, Number.emin.
  change (53 - 1) with 52.
  set (b := Number.binade num den).
  assert (He : -1074 <= Z.max (b - 52) (-1074)) by plia.
  split; [exact He|].
  split; [apply Z.mul_pos_pos; [assumption|apply pow2_pos; plia]|].
  destruct (Z.max_spec (b - 52) (-1074)) as [[Hlt ->]|[Hge ->]].
  - (* subnormal range *)
    split; [|plia]. change (-1074 + 1074) with 0. rewrite Z.pow_0_r, Z.mul_1_r.
    destruct (Z_le_gt_dec (-1075) b) as [Hb|Hb].
    + pose proof (@binade_upper num den 1074 Hn Hd ltac:(plia) ltac:(fold b; plia)) as Hu.
      fold b in Hu.
      assert (2 ^ (b + 1 + 1074) <= 2 ^ 53) by (apply Z.pow_le_mono_r; plia).
      pose proof (pow2_pos (b + 1 + 1074) ltac:(plia)). pnia.
    + pose proof (@binade_upper num den (- (b + 1)) Hn Hd ltac:(plia) ltac:(fold b; plia)) as Hu.
      fold b in Hu. replace (b + 1 + - (b + 1)) with 0 in Hu by plia.
      rewrite Z.pow_0_r, Z.mul_1_r in Hu.
      assert (2 ^ 1074 <= 2 ^ (- (b + 1))) by (apply Z.pow_le_mono_r; plia).
      pose proof pow2_1074_pos. pose proof (pow2_pos 53 ltac:(plia)). pnia.
  - (* normal range *)
    replace (b - 52 + 1074) with (b + 1022) by plia.
    pose proof (@binade_upper num den 1074 Hn Hd ltac:(plia) ltac:(fold b; plia)) as Hu.
    pose proof (@binade_lower num den Hn Hd ltac:(fold b; plia)) as Hl.
    fold b in Hu, Hl.
    replace (b + 1 + 1074) with (53 + (b + 1022)) in Hu by plia.
    replace (b + 1074) with (52 + (b + 1022)) in Hl by plia.
    rewrite pow2_split in Hu, Hl by plia.
    split; [|intros _]; pnia.
Qed.

(** Every binary64 number is at least as far from the fraction as the
    multiple of [2^e] that is nearest to it. *)
Lemma nearest_on_grid (num den m : Z) (m' : positive) (e' : Z) :
  0 < num -> 0 < den ->
  let e := Number.exponent_of num den in
  let G := den * 2 ^ (e + 1074) in
  2 * Z.abs (m * G - num * 2 ^ 1074) <= G ->
  Number.valid (S754_finite false m' e') = true ->
  Z.abs (m * G - num * 2 ^ 1074) <= Z.abs (units m' e' * den - num * 2 ^ 1074).
Proof.
  intros Hn Hd e G Hm Hv.
  destruct (exponent_of_bounds num den Hn Hd) as (He & HG & Hup & Hlow).
  fold e in He, HG, Hup, Hlow. fold G in HG, Hup, Hlow.
  apply valid_finite in Hv. unfold Number.emin in Hv.
  destruct Hv as ([He1 He2] & Hm' & _).
  unfold units.
  destruct (Z_le_gt_dec e e') as [Hee|Hee].
  - replace (e' + 1074) with ((e' - e) + (e + 1074)) by plia.
    rewrite pow2_split by plia.
    replace (Zpos m' * (2 ^ (e' - e) * 2 ^ (e + 1074)) * den)
      with ((Zpos m' * 2 ^ (e' - e)) * G) by (unfold G; ring).
    apply nearest_integer; assumption.
  - specialize (Hlow ltac:(plia)).
    assert (Hstep : 2 ^ 53 * 2 ^ (e' + 1074) <= 2 ^ 52 * 2 ^ (e + 1074)).
    { rewrite <- !pow2_split by plia. apply Z.pow_le_mono_r; plia. }
    pose proof (pow2_pos (e' + 1074) ltac:(plia)).
    pose proof (pow2_pos (e + 1074) ltac:(plia)).
    assert (Hbelow : Zpos m' * 2 ^ (e' + 1074) * den <= 2 ^ 52 * G).
    { unfold G.
      assert (Zpos m' * 2 ^ (e' + 1074) <= 2 ^ 52 * 2 ^ (e + 1074)).
      { apply Z.le_trans with (2 ^ 53 * 2 ^ (e' + 1074)); [|exact Hstep].
        apply Z.mul_le_mono_nonneg_r; plia. }
      replace (2 ^ 52 * (den * 2 ^ (e + 1074))) with (2 ^ 52 * 2 ^ (e + 1074) * den) by ring.
      apply Z.mul_le_mono_nonneg_r; plia. }
    pose proof (@nearest_integer (num * 2 ^ 1074) G m (2 ^ 52) HG Hm).
    plia.
Qed.

(** What the rounding of a positive fraction gives: never NaN; zero or a
    binary64 number that no binary64 number is nearer to the fraction than;
    an infinity only from [2^1024 - 2^970] on. *)
Lemma of_fraction_spec (neg : bool) (num den : Z) :
  0 < num -> 0 < den ->
  match Number.of_fraction neg num den with
  | S754_nan => False
  | S754_zero s =>
      s = neg
      /\ forall m' e', Number.valid (S754_finite false m' e') = true ->
                       num * 2 ^ 1074 <= Z.abs (units m' e' * den - num * 2 ^ 1074)
  | S754_infinity s => s = neg /\ (2 ^ 1024 - 2 ^ 970) * den <= num
  | S754_finite s m e =>
      s = neg /\ Number.valid (S754_finite s m e) = true
      /\ forall m' e', Number.valid (S754_finite false m' e') = true ->
                       Z.abs (units m e * den - num * 2 ^ 1074)
                       <= Z.abs (units m' e' * den - num * 2 ^ 1074)
  end.
Proof.
  intros Hn Hd. unfold Number.of_fraction.
  destruct (exponent_of_bounds num den Hn Hd) as (He & HG & Hup & Hlow).
  pose proof (@nearest_on_grid num den) as Hgrid. cbv zeta in Hgrid.
  unfold Number.emin, Number.prec, Number.emax in *.
  change (- -1074) with 1074. change (53 - 1) with 52. change (1024 - 53) with 971.
  set (e := Number.exponent_of num den) in *.
  replace (e - -1074) with (e + 1074) by plia.
  set (G := den * 2 ^ (e + 1074)) in *.
  set (N := num * 2 ^ 1074) in *.
  assert (HN : 0 < N) by (apply Z.mul_pos_pos; [assumption|exact pow2_1074_pos]).
  destruct (nearest_even_spec N G ltac:(plia) HG) as [Hm0 Hm].
  set (m := Number.nearest_even N G) in *.
  assert (H5253 : 2 ^ 53 = 2 * 2 ^ 52) by reflexivity.
  assert (H52 : 0 < 2 ^ 52) by (apply pow2_pos; plia).
  assert (Hm53 : m <= 2 ^ 53) by pnia.
  assert (Hm52 : -1074 < e -> 2 ^ 52 <= m) by (intros H; specialize (Hlow H); pnia).
  destruct (Z.eqb_spec m 0) as [Hz|Hnz].
  - split; [reflexivity|]. intros m' e' Hv.
    specialize (Hgrid m m' e' Hn Hd Hm Hv). rewrite Hz in Hgrid.
    replace (Z.abs (0 * G - N)) with N in Hgrid by plia. exact Hgrid.
  - destruct (Z.eqb_spec m (2 ^ 53)) as [Hc|Hnc].
    + destruct (Z.ltb_spec 971 (e + 1)) as [Hinf|Hfin].
      * split; [reflexivity|].
        assert (Hmono : 2 ^ (971 + 1074) <= 2 ^ (e + 1074)) by (apply Z.pow_le_mono_r; plia).
        assert (Hc1 : 2 ^ 1024 = 2 ^ 54 * 2 ^ 970) by (rewrite <- pow2_split by plia; reflexivity).
        assert (Hc2 : 2 ^ (971 + 1074) = 2 * 2 ^ 970 * 2 ^ 1074)
          by (rewrite <- Z.pow_succ_r, <- pow2_split by plia; reflexivity).
        assert (Hc3 : 2 ^ 54 = 2 * 2 ^ 53) by reflexivity.
        pose proof pow2_1074_pos. pose proof (pow2_pos 970 ltac:(plia)).
        pose proof (pow2_pos 53 ltac:(plia)).
        rewrite Hc in Hm. unfold G, N in *.
        rewrite Hc1, Hc3.
        set (A := 2 ^ 970) in *. set (B := 2 ^ 1074) in *. set (C := 2 ^ (e + 1074)) in *.
        set (P := 2 ^ 53) in *.
        assert (2 * (P * (den * C)) - den * C <= 2 * (num * B)) by plia.
        assert (2 * A * B * den * (2 * P - 1) <= den * C * (2 * P - 1)).
        { apply Z.mul_le_mono_nonneg_r; [plia|]. rewrite (Z.mul_comm den C).
          apply Z.mul_le_mono_nonneg_r; plia. }
        pnia.
      * split; [reflexivity|]. split.
        -- apply valid_finite. unfold Number.emin.
           change (Z.pos (Z.to_pos (2 ^ 52))) with (2 ^ 52). repeat split; try plia.
        -- intros m' e' Hv. specialize (Hgrid m m' e' Hn Hd Hm Hv).
           replace (units (Z.to_pos (2 ^ 52)) (e + 1) * den) with (m * G); [exact Hgrid|].
           unfold units. change (Z.pos (Z.to_pos (2 ^ 52))) with (2 ^ 52).
           replace (e + 1 + 1074) with (1 + (e + 1074)) by plia.
           rewrite pow2_split by plia. rewrite Hc, H5253. unfold G.
           change (2 ^ 1) with 2. ring.
    + destruct (Z.ltb_spec 971 e) as [Hinf|Hfin].
      * split; [reflexivity|].
        specialize (Hlow ltac:(plia)).
        assert (Hmono : 2 ^ (972 + 1074) <= 2 ^ (e + 1074)) by (apply Z.pow_le_mono_r; plia).
        assert (Hc2 : 2 ^ 52 * 2 ^ (972 + 1074) = 2 ^ 1024 * 2 ^ 1074)
          by (rewrite <- !pow2_split by plia; reflexivity).
        pose proof pow2_1074_pos. pose proof (pow2_pos 970 ltac:(plia)).
        pose proof (pow2_pos 1024 ltac:(plia)).
        unfold G, N in *.
        set (A := 2 ^ 970) in *. set (B := 2 ^ 1074) in *. set (C := 2 ^ (e + 1074)) in *.
        set (D := 2 ^ (972 + 1074)) in *. set (P := 2 ^ 52) in *. set (Q := 2 ^ 1024) in *.
        assert (Q * B * den <= P * (den * C)).
        { rewrite <- Hc2. replace (P * (den * C)) with (P * C * den) by ring.
          apply Z.mul_le_mono_nonneg_r; [plia|].
          apply Z.mul_le_mono_nonneg_l; plia. }
        assert (Q * den <= num) by pnia. pnia.
      * assert (Hmpos : Zpos (Z.to_pos m) = m) by (apply Z2Pos.id; plia).
        split; [reflexivity|]. split.
        -- apply valid_finite. unfold Number.emin. rewrite Hmpos.
           repeat split; plia.
        -- intros m' e' Hv. specialize (Hgrid m m' e' Hn Hd Hm Hv).
           replace (units (Z.to_pos m) e * den) with (m * G); [exact Hgrid|].
           unfold units. rewrite Hmpos. unfold G. ring.
Qed.

End Rounding.

Section Exactness.
Local Open Scope Z_scope.

(** Two binary64 numbers of the same value are the same number. *)
Lemma units_inj (s s' : bool) (m m' : positive) (e e' : Z) :
  Number.valid (S754_finite s m e) = true ->
  Number.valid (S754_finite s' m' e') = true ->
  units m e = units m' e' -> m = m' /\ e = e'.
Proof.
  intros Hv Hv' Hu. apply valid_finite in Hv, Hv'. unfold Number.emin in *.
  destruct Hv as ([He1 He2] & Hm & Hn). destruct Hv' as ([He1' He2'] & Hm' & Hn').
  unfold units in Hu.
  assert (Hstep : forall (a b : positive) (x y : Z),
             -1074 <= x -> x < y -> Zpos a < 2 ^ 53 -> 2 ^ 52 <= Zpos b ->
             Zpos a * 2 ^ (x + 1074) = Zpos b * 2 ^ (y + 1074) -> False).
  { intros a b x y Hx Hxy Ha Hb Heq.
    replace (y + 1074) with ((y - x - 1) + 1 + (x + 1074)) in Heq by plia.
    rewrite (pow2_split (y - x - 1 + 1) (x + 1074)), (pow2_split (y - x - 1) 1) in Heq by plia.
    change (2 ^ 1) with 2 in Heq.
    pose proof (pow2_pos (x + 1074) ltac:(plia)).
    pose proof (pow2_pos (y - x - 1) ltac:(plia)).
    assert (H5253 : 2 ^ 53 = 2 * 2 ^ 52) by reflexivity.
    set (P := 2 ^ 52) in *. set (Q := 2 ^ 53) in *.
    assert (Zpos a = Zpos b * (2 ^ (y - x - 1) * 2)) by pnia.
    pnia. }
  destruct (Z.lt_trichotomy e e') as [Hlt|[Heq|Hgt]].
  - exfalso. apply (Hstep m m' e e'); try plia.
  - subst e'. split; [|reflexivity].
    pose proof (pow2_pos (e + 1074) ltac:(plia)).
    assert (Zpos m = Zpos m') by pnia. congruence.
  - exfalso. apply (Hstep m' m e' e); try plia.
Qed.

Lemma max_units (m : positive) (e : Z) :
  Number.valid (S754_finite false m e) = true ->
  units m e < (2 ^ 1024 - 2 ^ 970) * 2 ^ 1074.
Proof.
  intros Hv. apply valid_finite in Hv. unfold Number.emin in *.
  destruct Hv as ([He1 He2] & Hm & _). unfold units.
  assert (2 ^ (e + 1074) <= 2 ^ (971 + 1074)) by (apply Z.pow_le_mono_r; plia).
  assert (Hc : (2 ^ 1024 - 2 ^ 970) * 2 ^ 1074 = (2 ^ 54 - 1) * 2 ^ 970 * 2 ^ 1074).
  { replace (2 ^ 1024) with (2 ^ 54 * 2 ^ 970) by (rewrite <- pow2_split by plia; reflexivity).
    ring. }
  assert (Hd : 2 ^ (971 + 1074) = 2 * 2 ^ 970 * 2 ^ 1074).
  { rewrite <- Z.pow_succ_r, <- pow2_split by plia. reflexivity. }
  assert (H54 : 2 ^ 54 = 2 * 2 ^ 53) by reflexivity.
  pose proof (pow2_pos (e + 1074) ltac:(plia)).
  pose proof (pow2_pos 970 ltac:(plia)). pose proof pow2_1074_pos.
  rewrite Hc, H54. rewrite Hd in *.
  set (A := 2 ^ 970) in *. set (B := 2 ^ 1074) in *. set (C := 2 ^ (e + 1074)) in *.
  set (P := 2 ^ 53) in *.
  assert (Zpos m * C <= (P - 1) * C) by pnia.
  assert ((P - 1) * C <= (P - 1) * (2 * A * B)) by pnia.
  assert (0 < A * B) by pnia.
  pnia.
Qed.

(** A fraction that is a binary64 number rounds to that number. *)
Lemma of_fraction_exact (neg : bool) (num den : Z) (m : positive) (e : Z) :
  0 < num -> 0 < den ->
  Number.valid (S754_finite false m e) = true ->
  units m e * den = num * 2 ^ 1074 ->
  Number.of_fraction neg num den = S754_finite neg m e.
Proof.
  intros Hn Hd Hv Hu.
  pose proof (of_fraction_spec neg num den Hn Hd) as Hspec.
  assert (HN : 0 < num * 2 ^ 1074) by (apply Z.mul_pos_pos; [assumption|exact pow2_1074_pos]).
  destruct (Number.of_fraction neg num den) as [s|s| |s m0 e0].
  - destruct Hspec as [_ Hz]. specialize (Hz m e Hv). plia.
  - destruct Hspec as [_ Hinf]. pose proof (max_units m e Hv) as Hmax.
    pose proof pow2_1074_pos.
    assert (units m e * den < (2 ^ 1024 - 2 ^ 970) * den * 2 ^ 1074) by pnia.
    rewrite Hu in *.
    set (B := 2 ^ 1074) in *. set (Q := 2 ^ 1024 - 2 ^ 970) in *. pnia.
  - contradiction.
  - destruct Hspec as (-> & Hv0 & Hnear). specialize (Hnear m e Hv).
    assert (Heq : units m0 e0 = units m e) by pnia.
    destruct (units_inj neg false m0 m e0 e Hv0 Hv Heq) as [-> ->]. reflexivity.
Qed.

(** The decimal that is the exact value of a binary64 number reads back as
    that number. *)
Lemma of_decimal_exact (neg : bool) (m : positive) (e : Z) :
  Number.valid (S754_finite false m e) = true ->
  Number.of_decimal neg (fst (Number.exact_decimal m e)) (snd (Number.exact_decimal m e))
  = S754_finite neg m e.
Proof.
  intros Hv. pose proof Hv as Hb. apply valid_finite in Hb. unfold Number.emin in Hb.
  unfold Number.exact_decimal, Number.of_decimal.
  destruct (Z.leb_spec 0 e) as [He|He]; cbn [fst snd].
  - pose proof (pow2_pos e He).
    destruct (Z.leb_spec (Zpos m * 2 ^ e) 0) as [Hneg|_]; [pnia|].
    cbn [Z.leb]. apply of_fraction_exact; [pnia|plia|exact Hv|].
    unfold units. rewrite pow2_split by plia. rewrite Z.pow_0_r. ring.
  - assert (H5 : 0 < 5 ^ (- e)) by (apply Z.pow_pos_nonneg; plia).
    destruct (Z.leb_spec (Zpos m * 5 ^ (- e)) 0) as [Hneg|_]; [pnia|].
    destruct (Z.leb_spec 0 e) as [|_]; [plia|].
    apply of_fraction_exact; [pnia|apply Z.pow_pos_nonneg; plia|exact Hv|].
    unfold units.
    assert (Hsplit : 2 ^ 1074 = 2 ^ (e + 1074) * 2 ^ (- e)).
    { rewrite <- pow2_split by plia. f_equal. plia. }
    rewrite Hsplit.
    replace 10 with (2 * 5) by reflexivity. rewrite Z.pow_mul_l. ring.
Qed.

End Exactness.

Section Digits.
Import JSString Builtins.
Local Open Scope Z_scope.

Lemma read_digits_app (l rest : list ascii) (acc count : Z) :
  forallb is_digit l = true ->
  read_digits (l ++ rest) acc count
  = read_digits rest (digits_value l acc) (count + length l).
Proof.
  revert acc count. induction l as [|c l IH]; intros acc count Hl.
  - cbn. f_equal. unfold length. cbn. lia.
  - cbn in Hl. apply andb_prop in Hl. destruct Hl as [Hc Hl].
    cbn [app read_digits digits_value]. rewrite Hc, IH by assumption.
    f_equal. unfold length. cbn [List.length]. lia.
Qed.

Lemma read_digits_stop (c : ascii) (l : list ascii) (acc count : Z) :
  is_digit c = false -> read_digits (c :: l) acc count = (acc, count, c :: l).
Proof. intros H. cbn. rewrite H. reflexivity. Qed.

Lemma read_digits_all (l : list ascii) (acc count : Z) :
  forallb is_digit l = true ->
  read_digits l acc count = (digits_value l acc, count + length l, []).
Proof.
  intros H. rewrite <- (app_nil_r l) at 1. rewrite read_digits_app by assumption.
  reflexivity.
Qed.

Lemma digits_value_app (l l' : list ascii) (acc : Z) :
  digits_value (l ++ l') acc = digits_value l' (digits_value l acc).
Proof. revert acc. induction l as [|c l IH]; intros acc; cbn; auto. Qed.

Lemma digits_value_shift (l : list ascii) (acc : Z) :
  digits_value l acc = acc * 10 ^ length l + digits_value l 0.
Proof.
  revert acc. induction l as [|c l IH]; intros acc.
  - unfold length. cbn. lia.
  - cbn [digits_value]. rewrite IH. rewrite (IH (10 * 0 + _)).
    unfold length. cbn [List.length]. rewrite Nat2Z.inj_succ, Z.pow_succ_r by lia. ring.
Qed.

Lemma digit_char_code (d : Z) : 0 <= d < 10 -> code (digit_char d) = 48 + d.
Proof.
  intros Hd.
  assert (H : d = 0 \/ d = 1 \/ d = 2 \/ d = 3 \/ d = 4 \/ d = 5 \/ d = 6 \/ d = 7
              \/ d = 8 \/ d = 9) by lia.
  repeat (destruct H as [->|H]; [reflexivity|]). subst d. reflexivity.
Qed.

Lemma digit_char_is_digit (d : Z) : 0 <= d < 10 -> is_digit (digit_char d) = true.
Proof.
  intros Hd. unfold is_digit. rewrite digit_char_code by assumption.
  apply andb_true_intro. split; apply Z.leb_le; lia.
Qed.

(** What [digits_onto] pushes: digits only, that read as [z], as many as
    [z] has decimal digits. *)
Lemma digits_onto_spec (fuel : nat) (z : Z) (acc : list ascii) :
  0 <= z < 2 ^ Z.of_nat fuel -> (0 < fuel)%nat ->
  exists l,
    digits_onto fuel z acc = l ++ acc
    /\ forallb is_digit l = true
    /\ digits_value l 0 = z
    /\ 1 <= length l
    /\ z < 10 ^ length l
    /\ (0 < z -> 10 ^ (length l - 1) <= z).
Proof.
  revert z acc. induction fuel as [|fuel IH]; intros z acc Hz Hfuel; [lia|].
  cbn [digits_onto].
  pose proof (Z.mod_pos_bound z 10 ltac:(lia)) as Hmod.
  destruct (Z.ltb_spec z 10) as [Hsmall|Hbig].
  - exists [digit_char (z mod 10)]. rewrite Z.mod_small by lia.
    cbn [app forallb digits_value]. rewrite digit_char_is_digit, digit_char_code by lia.
    unfold length. cbn [List.length]. change (Z.of_nat 1) with 1.
    rewrite Z.pow_1_r, Z.sub_diag, Z.pow_0_r. repeat split; lia.
  - assert (Hfuel' : (0 < fuel)%nat).
    { destruct fuel; [|lia]. cbn in Hz. lia. }
    rewrite Nat2Z.inj_succ, Z.pow_succ_r in Hz by lia.
    pose proof (Z.div_mod z 10 ltac:(lia)) as Hdm.
    assert (Hq : 0 <= z / 10 < 2 ^ Z.of_nat fuel).
    { split; [apply Z.div_pos; lia|]. apply Z.div_lt_upper_bound; lia. }
    destruct (IH (z / 10) (digit_char (z mod 10) :: acc) Hq Hfuel')
      as (l & Heq & Hdig & Hval & Hlen & Hup & Hlow).
    exists (l ++ [digit_char (z mod 10)]).
    rewrite Heq, <- app_assoc. split; [reflexivity|].
    rewrite forallb_app, Hdig. cbn [forallb]. rewrite digit_char_is_digit by lia.
    rewrite digits_value_app, Hval. cbn [digits_value].
    rewrite digit_char_code by lia.
    unfold length in *. rewrite length_app. cbn [List.length].
    rewrite Nat2Z.inj_add. change (Z.of_nat 1) with 1.
    replace (Z.of_nat (List.length l) + 1 - 1) with (Z.of_nat (List.length l) - 1 + 1) by lia.
    rewrite !Z.pow_add_r by lia. change (10 ^ 1) with 10.
    assert (0 < z / 10) by (apply Z.div_str_pos; lia).
    specialize (Hlow ltac:(lia)).
    repeat split; try reflexivity; lia.
Qed.

Lemma digits_of_Z_spec (z : Z) :
  0 <= z ->
  forallb is_digit (digits_of_Z z) = true
  /\ digits_value (digits_of_Z z) 0 = z
  /\ 1 <= ndigits z
  /\ z < 10 ^ ndigits z
  /\ (0 < z -> 10 ^ (ndigits z - 1) <= z).
Proof.
  intros Hz. unfold ndigits, digits_of_Z.
  assert (Hfuel : 0 <= z < 2 ^ Z.of_nat (S (Z.to_nat (Z.log2 z)))).
  { rewrite Nat2Z.inj_succ, Z2Nat.id by apply Z.log2_nonneg.
    destruct (Z.eq_dec z 0) as [->|Hnz]; [cbn; lia|].
    pose proof (Z.log2_spec z ltac:(lia)). lia. }
  destruct (digits_onto_spec _ z [] Hfuel ltac:(lia)) as (l & Heq & H).
  rewrite Heq, app_nil_r. exact H.
Qed.

Lemma zeros_spec (n : Z) :
  forallb is_digit (zeros n) = true /\ length (zeros n) = Z.max 0 n
  /\ forall acc, digits_value (zeros n) acc = acc * 10 ^ Z.max 0 n.
Proof.
  unfold zeros, length. rewrite repeat_length.
  replace (Z.max 0 n) with (Z.of_nat (Z.to_nat n)) by lia.
  induction (Z.to_nat n) as [|k IH]; cbn [repeat forallb digits_value].
  - repeat split. intros acc. cbn. lia.
  - destruct IH as (H1 & _ & H3). repeat split.
    + rewrite H1. reflexivity.
    + intros acc. rewrite H3. rewrite Nat2Z.inj_succ, Z.pow_succ_r by lia.
      change (code "0" - 48) with 0. ring.
Qed.

End Digits.

Section Shortest.
Import JSString Builtins.
Local Open Scope Z_scope.

Lemma same_number_eq (a b : Number.number) : same_number a b = true -> a = b.
Proof.
  destruct a as [s|s| |s m e], b as [s'|s'| |s' m' e']; cbn; try discriminate.
  - intros H. apply eqb_prop in H. congruence.
  - intros H. apply eqb_prop in H. congruence.
  - intros H. apply andb_prop in H. destruct H as [H He].
    apply andb_prop in H. destruct H as [Hs Hm].
    apply eqb_prop in Hs. apply Pos.eqb_eq in Hm. apply Z.eqb_eq in He. congruence.
Qed.

Lemma closest_in (d q k : Z) (cs : list (Z * Z)) (best : option (Z * Z)) (r : Z * Z) :
  fold_left
    (fun best c =>
       match best with
       | None => Some c
       | Some b =>
           if (distance d q k c <? distance d q k b)
              || ((distance d q k c =? distance d q k b) && Z.even (fst c))
           then Some c else best
       end) cs best = Some r ->
  best = Some r \/ In r cs.
Proof.
  revert best. induction cs as [|c cs IH]; intros best H; cbn in H.
  - left. exact H.
  - apply IH in H. destruct H as [H|H]; [|right; right; exact H].
    destruct best as [b|].
    + destruct (_ || _) in H; [right; left|left]; congruence.
    + right. left. congruence.
Qed.

(** What the search of step 5 returns is a candidate. *)
Lemma shortest_some (x : Number.number) (d q K : Z) (fuel : nat) (k0 n k s : Z) :
  shortest x d q K fuel k0 = Some (n, k, s) ->
  k0 <= k /\ In (s, n) (candidates x d q K k).
Proof.
  revert k0. induction fuel as [|fuel IH]; intros k0 H; cbn [shortest] in H; [discriminate|].
  destruct (closest d q k0 (candidates x d q K k0)) as [[s0 n0]|] eqn:Hc.
  - inversion H; subst. split; [lia|].
    unfold closest in Hc. apply closest_in in Hc. destruct Hc as [Hc|Hc]; [discriminate|exact Hc].
  - apply IH in H. destruct H as [Hk Hin]. split; [lia|exact Hin].
Qed.

Lemma candidate_spec (x : Number.number) (d q K k s n : Z) :
  In (s, n) (candidates x d q K k) ->
  10 ^ (k - 1) <= s < 10 ^ k /\ Number.of_decimal false s (n - k) = x
  /\ (n = K + q \/ n = K + q + 1).
Proof.
  unfold candidates. intros H. apply in_flat_map in H. destruct H as (up & Hup & H).
  apply filter_In in H. destruct H as [Hin Hf]. cbn [fst snd] in Hf.
  apply andb_prop in Hf. destruct Hf as [Hf Hsame].
  apply andb_prop in Hf. destruct Hf as [Hlo Hhi].
  apply Z.leb_le in Hlo. apply Z.ltb_lt in Hhi. apply same_number_eq in Hsame.
  assert (Hn : n = K + q + up).
  { destruct Hin as [Hin|[Hin|[]]]; inversion Hin; reflexivity. }
  subst n. split; [lia|]. split; [exact Hsame|].
  destruct Hup as [<-|[<-|[]]]; lia.
Qed.

(** Step 5 of Number::toString gives digits that read back as the
    number. *)
Lemma shortest_digits_spec (m : positive) (e : Z) :
  Number.valid (S754_finite false m e) = true ->
  let '(n, k, s) := shortest_digits m e in
  1 <= k /\ 10 ^ (k - 1) <= s < 10 ^ k
  /\ Number.of_decimal false s (n - k) = S754_finite false m e.
Proof.
  intros Hv. unfold shortest_digits.
  pose proof (of_decimal_exact false m e Hv) as Hexact.
  assert (Hd : 0 < fst (Number.exact_decimal m e)).
  { unfold Number.exact_decimal. destruct (Z.leb_spec 0 e); cbn [fst];
      apply Z.mul_pos_pos; try lia; apply Z.pow_pos_nonneg; lia. }
  destruct (Number.exact_decimal m e) as [d q]. cbn [fst snd] in *.
  destruct (digits_of_Z_spec d ltac:(lia)) as (_ & _ & HK & Hup & Hlow).
  specialize (Hlow Hd).
  destruct (shortest _ d q (ndigits d) _ 1) as [[[n k] s]|] eqn:Hs.
  - apply shortest_some in Hs. destruct Hs as [Hk Hin].
    apply candidate_spec in Hin. destruct Hin as (Hr & Hval & _).
    repeat split; try lia. exact Hval.
  - replace (ndigits d + q - ndigits d) with q by lia.
    repeat split; try lia. exact Hexact.
Qed.

End Shortest.

Section Reading.
Import JSString Builtins.
Local Open Scope Z_scope.

Lemma read_digits_prefix (ds tail : list ascii) (acc count : Z) :
  forallb is_digit ds = true -> stops tail = true ->
  read_digits (ds ++ tail) acc count = (digits_value ds acc, count + length ds, tail).
Proof.
  intros Hds Htail. rewrite read_digits_app by assumption.
  destruct tail as [|c tail]; [reflexivity|].
  apply read_digits_stop. cbn in Htail. apply negb_true_iff. exact Htail.
Qed.

Lemma pow10_lt_inv (a b : Z) : 0 <= b -> 10 ^ a < 10 ^ b -> a < b.
Proof.
  intros Hb H. destruct (Z_lt_le_dec a b) as [|Hle]; [assumption|].
  apply (Z.pow_le_mono_r 10) in Hle; lia.
Qed.

Lemma ndigits_unique (k s : Z) : 1 <= k -> 10 ^ (k - 1) <= s < 10 ^ k -> ndigits s = k.
Proof.
  intros Hk [Hlo Hhi].
  assert (Hs : 0 < s).
  { apply Z.lt_le_trans with (10 ^ (k - 1)); [apply Z.pow_pos_nonneg; lia|exact Hlo]. }
  destruct (digits_of_Z_spec s ltac:(lia)) as (_ & _ & HK & Hup & Hlow).
  specialize (Hlow Hs).
  assert (k - 1 < ndigits s) by (apply pow10_lt_inv; lia).
  assert (ndigits s - 1 < k) by (apply pow10_lt_inv; lia).
  lia.
Qed.

Lemma forallb_firstn {A : Type} (f : A -> bool) (n : nat) (l : list A) :
  forallb f l = true -> forallb f (firstn n l) = true.
Proof.
  revert n. induction l as [|a l IH]; intros [|n] H; cbn in *; try reflexivity.
  apply andb_prop in H. destruct H as [-> H]. cbn. apply IH. exact H.
Qed.

Lemma forallb_skipn {A : Type} (f : A -> bool) (n : nat) (l : list A) :
  forallb f l = true -> forallb f (skipn n l) = true.
Proof.
  revert n. induction l as [|a l IH]; intros [|n] H; cbn in *; try reflexivity; try assumption.
  apply andb_prop in H. destruct H as [_ H]. apply IH. exact H.
Qed.

Lemma read_exponent_of (neg : bool) (v : Z) :
  0 <= v ->
  read_exponent (chars "e" ++ chars (if neg then "-" else "+") ++ digits_of_Z v)
  = (cond_Zopp neg v, []).
Proof.
  intros Hv. destruct (digits_of_Z_spec v Hv) as (Hdig & Hval & Hlen & _).
  unfold ndigits in Hlen.
  destruct neg; cbn [chars list_ascii_of_string app read_exponent];
    change (code "e" =? 101) with true; cbn [orb];
    [change (code "-" =? 43) with false; change (code "-" =? 45) with true
    |change (code "+" =? 43) with true];
    cbv iota; rewrite read_digits_all by assumption; rewrite Hval;
    destruct (Z.ltb_spec 0 (0 + length (digits_of_Z v))); try lia; reflexivity.
Qed.

Lemma not_Infinity (c : ascii) (l : list ascii) :
  is_digit c = true -> starts_with (chars "Infinity") (c :: l) = None.
Proof.
  intros Hc. cbn [chars list_ascii_of_string starts_with].
  destruct (Ascii.eqb_spec "I" c) as [<-|_]; [discriminate Hc|reflexivity].
Qed.

(** A number with digits before and after a point, and an exponent part or
    none. *)
Lemma read_unsigned_point (int frac tail : list ascii) :
  forallb is_digit int = true -> 1 <= length int ->
  forallb is_digit frac = true -> stops tail = true ->
  read_unsigned (int ++ chars "." ++ frac ++ tail)
  = let '(e, rest) := read_exponent tail in
    Some (LDecimal (digits_value (int ++ frac) 0) (e - length frac), rest).
Proof.
  intros Hint Hlen Hfrac Htail. unfold read_unsigned.
  destruct int as [|c int]; [unfold length in Hlen; cbn in Hlen; lia|].
  cbn [app]. rewrite not_Infinity by (cbn in Hint; apply andb_prop in Hint; tauto).
  change (c :: int ++ chars "." ++ frac ++ tail) with ((c :: int) ++ chars "." ++ frac ++ tail).
  rewrite read_digits_prefix by (assumption || reflexivity).
  cbn [chars list_ascii_of_string app]. change (code "." =? 46) with true. cbv iota.
  rewrite read_digits_prefix by assumption.
  destruct (Z.ltb_spec 0 (0 + length (c :: int))) as [_|H]; [|lia]. cbn [orb].
  pose proof (digits_value_app (c :: int) frac 0) as Hv. cbn [app] in Hv. rewrite Hv.
  destruct (read_exponent tail) as [e rest].
  replace (0 + length frac) with (length frac) by lia. reflexivity.
Qed.

(** A number of digits only, with an exponent part or none. *)
Lemma read_unsigned_integer (int tail : list ascii) :
  forallb is_digit int = true -> 1 <= length int ->
  match tail with [] => true | c :: _ => negb (is_digit c) && negb (code c =? 46) end = true ->
  read_unsigned (int ++ tail)
  = let '(e, rest) := read_exponent tail in
    Some (LDecimal (digits_value int 0) e, rest).
Proof.
  intros Hint Hlen Htail. unfold read_unsigned.
  destruct int as [|c int]; [unfold length in Hlen; cbn in Hlen; lia|].
  cbn [app]. rewrite not_Infinity by (cbn in Hint; apply andb_prop in Hint; tauto).
  change (c :: int ++ tail) with ((c :: int) ++ tail).
  assert (Hstops : stops tail = true).
  { destruct tail as [|t tail]; [reflexivity|]. cbn. apply andb_prop in Htail. tauto. }
  rewrite read_digits_prefix by assumption.
  destruct (Z.ltb_spec 0 (0 + length (c :: int))) as [_|H]; [|lia].
  destruct tail as [|t tail]; [reflexivity|].
  apply andb_prop in Htail. destruct Htail as [_ Hpoint].
  apply negb_true_iff in Hpoint. rewrite Hpoint. reflexivity.
Qed.

End Reading.

Section Rendering.
Import JSString Builtins.
Local Open Scope Z_scope.

Lemma digit_plain (c : ascii) : is_digit c = true -> plain c = true.
Proof.
  unfold is_digit, plain, is_white_space. intros H. apply andb_prop in H.
  destruct H as [H1 H2]. apply Z.leb_le in H1, H2. cbn [existsb].
  repeat match goal with |- context [code c =? ?n] =>
    destruct (Z.eqb_spec (code c) n); [lia|] end.
  reflexivity.
Qed.

Lemma digits_plain (l : list ascii) : forallb is_digit l = true -> forallb plain l = true.
Proof.
  induction l as [|c l IH]; cbn; [reflexivity|]. intros H. apply andb_prop in H.
  destruct H as [Hc Hl]. rewrite (digit_plain c Hc), IH by assumption. reflexivity.
Qed.

Lemma trim_start_plain (l : list ascii) : forallb plain l = true -> trim_start_list l = l.
Proof.
  destruct l as [|c l]; [reflexivity|]. cbn [trim_start_list forallb]. unfold plain. intros H.
  apply andb_prop in H. destruct H as [Hc _]. apply negb_true_iff in Hc. rewrite Hc.
  reflexivity.
Qed.

Lemma trim_plain (l : list ascii) : forallb plain l = true -> trim_list l = l.
Proof.
  intros H. unfold trim_list. rewrite (trim_start_plain l H).
  rewrite trim_start_plain; [apply rev_involutive|].
  apply forallb_forall. intros c Hc. apply in_rev in Hc.
  rewrite forallb_forall in H. apply H. exact Hc.
Qed.

(** Reading back a string that has no white space in it. *)
Lemma getNumericValue_plain (cs : list ascii) :
  forallb plain cs = true ->
  StickyNoteCalculator.getNumericValue (string_of_list_ascii cs)
  = match read_decimal cs with
    | Some (neg, v, _) => literal_value neg v
    | None => S754_nan
    end.
Proof.
  intros H. unfold StickyNoteCalculator.getNumericValue, parseFloat, trim.
  rewrite !list_ascii_of_string_of_list_ascii, (trim_plain cs H).
  rewrite (trim_start_plain cs H). reflexivity.
Qed.

Lemma read_decimal_signed (neg : bool) (c : ascii) (l : list ascii) :
  is_digit c = true ->
  read_decimal (sign_chars neg ++ c :: l)
  = match read_unsigned (c :: l) with
    | Some (v, rest) => Some (neg, v, rest)
    | None => None
    end.
Proof.
  intros Hc. unfold read_decimal, sign_chars.
  destruct neg; cbn [chars list_ascii_of_string app].
  - change (code "-" =? 43) with false. change (code "-" =? 45) with true. reflexivity.
  - unfold is_digit in Hc. apply andb_prop in Hc. destruct Hc as [H1 H2].
    apply Z.leb_le in H1, H2.
    destruct (Z.eqb_spec (code c) 43); [lia|]. destruct (Z.eqb_spec (code c) 45); [lia|].
    reflexivity.
Qed.

Lemma of_decimal_shift (neg : bool) (s j : Z) :
  0 < s -> 0 <= j ->
  Number.of_decimal neg (s * 10 ^ j) 0 = Number.of_decimal neg s j.
Proof.
  intros Hs Hj. unfold Number.of_decimal.
  assert (0 < 10 ^ j) by (apply Z.pow_pos_nonneg; lia).
  destruct (Z.leb_spec (s * 10 ^ j) 0); [nia|].
  destruct (Z.leb_spec s 0); [lia|].
  destruct (Z.leb_spec 0 j); [|lia].
  cbn [Z.leb]. rewrite Z.pow_0_r, Z.mul_1_r. reflexivity.
Qed.

(** What steps 6 to 12 of Number::toString write reads back as the digits
    and the exponent they were given: a digit comes first, no white space
    occurs, and nothing is left over. *)
Lemma read_render (n k s : Z) :
  1 <= k -> 10 ^ (k - 1) <= s < 10 ^ k ->
  (exists c l, render n k s = c :: l /\ is_digit c = true)
  /\ forallb plain (render n k s) = true
  /\ exists m' e',
       read_unsigned (render n k s) = Some (LDecimal m' e', [])
       /\ forall neg, Number.of_decimal neg m' e' = Number.of_decimal neg s (n - k).
Proof.
  intros Hk Hs.
  assert (Hpos : 0 < s).
  { apply Z.lt_le_trans with (10 ^ (k - 1)); [apply Z.pow_pos_nonneg; lia|tauto]. }
  destruct (digits_of_Z_spec s ltac:(lia)) as (Hdig & Hval & _).
  pose proof (ndigits_unique k s Hk Hs) as Hlen. unfold ndigits in Hlen.
  unfold render. set (ds := digits_of_Z s) in *.
  assert (Hhead : exists c l, ds = c :: l /\ is_digit c = true).
  { destruct ds as [|c l]; [unfold length in Hlen; cbn in Hlen; lia|].
    exists c, l. cbn in Hdig. apply andb_prop in Hdig. tauto. }
  assert (Htake : forall j, 1 <= j <= k ->
             forallb is_digit (take j ds) = true /\ length (take j ds) = j
             /\ forallb is_digit (drop j ds) = true /\ length (drop j ds) = k - j
             /\ exists c l, take j ds = c :: l /\ is_digit c = true).
  { intros j Hj. unfold take, drop, length in *.
    rewrite length_firstn, length_skipn.
    repeat split; try lia; try (apply forallb_firstn || apply forallb_skipn); try assumption.
    destruct Hhead as (c & l & Hds & Hc).
    destruct (Z.to_nat j) as [|jn] eqn:Hjn; [lia|].
    exists c, (firstn jn l). rewrite Hds. split; [reflexivity|assumption]. }
  destruct ((-5 <=? n) && (n <=? 21)) eqn:Hrange.
  - apply andb_prop in Hrange. destruct Hrange as [Hn1 Hn2].
    apply Z.leb_le in Hn1, Hn2.
    destruct (Z.leb_spec k n) as [Hkn|Hkn].
    + (* digits and zeros *)
      destruct (zeros_spec (n - k)) as (Hz1 & Hz2 & Hz3).
      assert (Hall : forallb is_digit (ds ++ zeros (n - k)) = true)
        by (rewrite forallb_app, Hdig, Hz1; reflexivity).
      split.
      { destruct Hhead as (c & l & -> & Hc). exists c, (l ++ zeros (n - k)). tauto. }
      split; [apply digits_plain; exact Hall|].
      exists (s * 10 ^ (n - k)), 0. split.
      * rewrite <- (app_nil_r (ds ++ zeros (n - k))).
        rewrite read_unsigned_integer; try assumption; try reflexivity.
        -- cbn [read_exponent]. rewrite digits_value_app, Hval, Hz3.
           replace (Z.max 0 (n - k)) with (n - k) by lia. reflexivity.
        -- unfold length in *. rewrite length_app. lia.
      * intros neg. apply of_decimal_shift; lia.
    + destruct (Z.ltb_spec 0 n) as [Hn0|Hn0].
      * (* digits around the point *)
        destruct (Htake n ltac:(lia)) as (Ht1 & Ht2 & Ht3 & Ht4 & Ht5).
        split.
        { destruct Ht5 as (c & l & -> & Hc). exists c, (l ++ chars "." ++ drop n ds). tauto. }
        split.
        { rewrite !forallb_app, (digits_plain _ Ht1), (digits_plain _ Ht3). reflexivity. }
        exists s, (n - k). split; [|reflexivity].
        rewrite <- (app_nil_r (drop n ds)) at 1.
        rewrite read_unsigned_point; try assumption; try reflexivity; [|lia].
        cbn [read_exponent]. unfold take, drop. rewrite firstn_skipn.
        fold (drop n ds). rewrite Hval, Ht4. do 3 f_equal. lia.
      * (* zeros after the point *)
        destruct (zeros_spec (- n)) as (Hz1 & Hz2 & Hz3).
        split; [exists "0"%char, (chars "." ++ zeros (- n) ++ ds); split; reflexivity|].
        split.
        { change (chars "0.") with (chars "0" ++ chars ".").
          rewrite !forallb_app, (digits_plain _ Hz1), (digits_plain _ Hdig). reflexivity. }
        exists s, (n - k). split; [|reflexivity].
        replace (chars "0." ++ zeros (- n) ++ ds)
          with (chars "0" ++ chars "." ++ (zeros (- n) ++ ds) ++ [])
          by (rewrite app_nil_r; reflexivity).
        rewrite read_unsigned_point; try reflexivity.
        -- cbn [read_exponent]. rewrite !digits_value_app. cbn [chars list_ascii_of_string digits_value].
           change (10 * 0 + (code "0" - 48)) with 0. rewrite Hz3, Z.mul_0_l, Hval.
           unfold length in *. rewrite length_app. do 3 f_equal. lia.
        -- rewrite forallb_app, Hz1, Hdig. reflexivity.
  - (* exponent notation *)
    set (e := n - 1).
    assert (Hexp : read_exponent (chars "e" ++ chars (if e <? 0 then "-" else "+")
                                   ++ digits_of_Z (Z.abs e)) = (e, [])).
    { rewrite read_exponent_of by lia. f_equal. unfold cond_Zopp.
      destruct (Z.ltb_spec e 0); lia. }
    destruct (digits_of_Z_spec (Z.abs e) ltac:(lia)) as (Hedig & _).
    assert (Hes : forallb plain (chars "e" ++ chars (if e <? 0 then "-" else "+")
                                 ++ digits_of_Z (Z.abs e)) = true).
    { rewrite !forallb_app, (digits_plain _ Hedig). destruct (e <? 0); reflexivity. }
    destruct (Z.eqb_spec k 1) as [Hk1|Hk1].
    + split.
      { destruct Hhead as (c & l & -> & Hc). eexists c, _. split; [reflexivity|assumption]. }
      split; [rewrite forallb_app, (digits_plain _ Hdig); exact Hes|].
      exists s, (n - k). split; [|reflexivity].
      rewrite read_unsigned_integer; try assumption; try lia; [|reflexivity].
      rewrite Hexp, Hval. do 3 f_equal. lia.
    + destruct (Htake 1 ltac:(lia)) as (Ht1 & Ht2 & Ht3 & Ht4 & Ht5).
      split.
      { destruct Ht5 as (c & l & -> & Hc). eexists c, _. split; [reflexivity|assumption]. }
      split.
      { rewrite !forallb_app, (digits_plain _ Ht1), (digits_plain _ Ht3).
        rewrite !forallb_app in Hes. exact Hes. }
      exists s, (n - k). split; [|reflexivity].
      rewrite read_unsigned_point; try assumption; try lia; [|reflexivity].
      rewrite Hexp. unfold take, drop. rewrite firstn_skipn.
      fold (drop 1 ds). rewrite Hval, Ht4. do 3 f_equal. lia.
Qed.

End Rendering.

Section ReadingBack.
Import JSString Builtins.
Local Open Scope Z_scope.

Lemma valid_sign (s s' : bool) (m : positive) (e : Z) :
  Number.valid (S754_finite s m e) = Number.valid (S754_finite s' m e).
Proof. reflexivity. Qed.

Lemma of_fraction_sign (neg : bool) (num den : Z) :
  Number.of_fraction neg num den = with_sign neg (Number.of_fraction false num den).
Proof.
  unfold Number.of_fraction.
  destruct (_ =? 0); [reflexivity|].
  destruct (_ =? 2 ^ Number.prec); destruct (_ <? _); reflexivity.
Qed.

Lemma of_decimal_sign (neg : bool) (m e : Z) :
  Number.of_decimal neg m e = with_sign neg (Number.of_decimal false m e).
Proof.
  unfold Number.of_decimal. destruct (m <=? 0); [reflexivity|].
  destruct (0 <=? e); apply of_fraction_sign.
Qed.

(** The string of a binary64 number reads back as the number. *)
Theorem toString_reads_back (v : Number.number) :
  Number.valid v = true ->
  StickyNoteCalculator.getNumericValue (toString v) = read_back v.
Proof.
  intros Hv. destruct v as [s|s| |s m e].
  - reflexivity.
  - destruct s; reflexivity.
  - reflexivity.
  - unfold toString, toString_chars.
    pose proof (shortest_digits_spec m e Hv) as Hspec.
    destruct (shortest_digits m e) as [[n k] d].
    destruct Hspec as (Hk & Hd & Hvalue).
    destruct (read_render n k d Hk Hd) as ((c & l & Hrender & Hc) & Hplain & m' & e' & Hread & Hdec).
    rewrite getNumericValue_plain.
    + rewrite Hrender, read_decimal_signed by assumption.
      rewrite <- Hrender, Hread. cbn [literal_value read_back].
      rewrite Hdec, of_decimal_sign, Hvalue. reflexivity.
    + rewrite forallb_app, Hplain. destruct s; reflexivity.
Qed.

(** The digits with a point before the last six read as those digits over
    a million. *)
Lemma read_with_point (n : Z) :
  0 <= n ->
  (exists c l, with_point (digits_of_Z n) 6 = c :: l /\ is_digit c = true)
  /\ forallb plain (with_point (digits_of_Z n) 6) = true
  /\ read_unsigned (with_point (digits_of_Z n) 6) = Some (LDecimal n (-6), []).
Proof.
  intros Hn. destruct (digits_of_Z_spec n Hn) as (Hdig & Hval & Hlen & _).
  unfold ndigits in Hlen. unfold with_point. change (6 =? 0) with false. cbv iota.
  set (ds := digits_of_Z n) in *.
  set (ds' := if length ds <=? 6 then zeros (6 + 1 - length ds) ++ ds else ds).
  assert (Hds' : forallb is_digit ds' = true /\ digits_value ds' 0 = n /\ 7 <= length ds').
  { unfold ds'. destruct (Z.leb_spec (length ds) 6) as [Hle|Hgt].
    - destruct (zeros_spec (6 + 1 - length ds)) as (Hz1 & Hz2 & Hz3).
      rewrite forallb_app, Hz1, Hdig, digits_value_app, Hz3, Z.mul_0_l, Hval.
      unfold length in *. rewrite length_app. repeat split; try reflexivity; lia.
    - repeat split; try assumption; lia. }
  destruct Hds' as (Hdig' & Hval' & Hlen').
  set (k := length ds') in *.
  assert (Hint : forallb is_digit (take (k - 6) ds') = true) by (apply forallb_firstn; assumption).
  assert (Hfrac : forallb is_digit (drop (k - 6) ds') = true) by (apply forallb_skipn; assumption).
  assert (Hlint : length (take (k - 6) ds') = k - 6).
  { unfold k, take, length in *. rewrite length_firstn. lia. }
  assert (Hlfrac : length (drop (k - 6) ds') = 6).
  { unfold k, drop, length in *. rewrite length_skipn. lia. }
  split.
  { destruct (take (k - 6) ds') as [|c l] eqn:Ht; [unfold length in Hlint; cbn in Hlint; lia|].
    exists c, (l ++ chars "." ++ drop (k - 6) ds'). split; [reflexivity|].
    cbn in Hint. apply andb_prop in Hint. tauto. }
  split.
  { rewrite !forallb_app, (digits_plain _ Hint), (digits_plain _ Hfrac). reflexivity. }
  rewrite <- (app_nil_r (drop (k - 6) ds')) at 1.
  rewrite read_unsigned_point; try assumption; try reflexivity; [|lia].
  cbn [read_exponent]. unfold take, drop. rewrite firstn_skipn. fold (drop (k - 6) ds').
  rewrite Hval', Hlfrac. reflexivity.
Qed.

(** [parseFloat (v.toFixed(6))] for a binary64 number that is not an
    integer: its 6-decimal rounding, rounded to a number. *)
Lemma parse_toFixed (s : bool) (m : positive) (e : Z) :
  Number.valid (S754_finite s m e) = true ->
  Number.isInteger (S754_finite s m e) = false ->
  parseFloat (toFixed (S754_finite s m e) 6)
  = Number.of_decimal s (fixed_digits m e 6) (-6).
Proof.
  intros Hv Hint. apply valid_finite in Hv. unfold Number.emin in Hv.
  destruct Hv as (_ & Hm & _).
  cbn [Number.isInteger] in Hint. apply orb_false_iff in Hint. destruct Hint as [He _].
  apply Z.leb_gt in He.
  assert (Hn : 0 <= fixed_digits m e 6).
  { unfold fixed_digits, Number.magnitude. destruct (Z.leb_spec 0 e); [lia|].
    assert (0 < 2 ^ (- e)) by (apply Z.pow_pos_nonneg; lia).
    apply Z.div_pos; nia. }
  destruct (read_with_point _ Hn) as ((c & l & Hhead & Hc) & Hplain & Hread).
  unfold toFixed, toFixed_chars, parseFloat.
  unfold Number.magnitude at 1. destruct (Z.leb_spec 0 e) as [|_]; [lia|].
  assert (H21 : (10 ^ 21 * 2 ^ (- e) <=? Zpos m) = false).
  { apply Z.leb_gt. assert (1 <= 2 ^ (- e)) by (apply Z.lt_pred_le, Z.pow_pos_nonneg; lia).
    assert (2 ^ 53 < 10 ^ 21) by reflexivity. nia. }
  rewrite H21, list_ascii_of_string_of_list_ascii.
  rewrite trim_start_plain by (rewrite forallb_app, Hplain; destruct s; reflexivity).
  rewrite Hhead, read_decimal_signed by assumption.
  rewrite <- Hhead, Hread. reflexivity.
Qed.

End ReadingBack.

Section SixDecimals.
Import JSString Builtins.
Local Open Scope Z_scope.

Lemma div_bounds (a b : Z) : 0 < b -> b * (a / b) <= a < b * (a / b + 1).
Proof.
  intros Hb. pose proof (Z.div_mod a b ltac:(plia)). pose proof (Z.mod_pos_bound a b Hb). plia.
Qed.

Lemma div_from_bounds (a b q : Z) : 0 < b -> b * q <= a < b * (q + 1) -> a / b = q.
Proof.
  intros Hb H. symmetry. apply (Z.div_unique a b q (a - b * q)); plia.
Qed.

(** No multiple of a million is [2^1074]. *)
Lemma million_times (x : Z) : 10 ^ 6 * x <> 2 ^ 1074.
Proof.
  intros H. assert (Hmod : (10 ^ 6 * x) mod 5 = 2 ^ 1074 mod 5) by (rewrite H; reflexivity).
  replace (10 ^ 6 * x) with (x * 200000 * 5) in Hmod by (change (10 ^ 6) with 1000000; ring).
  rewrite Z.mod_mul in Hmod by plia.
  vm_compute in Hmod. discriminate.
Qed.

(** The 6-decimal rounding of a number in units of [2^-1074]. *)
Lemma fixed_digits_units (m : positive) (e : Z) :
  -1074 <= e < 0 ->
  forall n,
    fixed_digits m e 6 = n <->
    2 * 2 ^ 1074 * n <= 2 * (units m e * 10 ^ 6) + 2 ^ 1074 < 2 * 2 ^ 1074 * (n + 1).
Proof.
  intros He n. unfold fixed_digits, Number.magnitude, units.
  destruct (Z.leb_spec 0 e) as [|_]; [plia|].
  assert (HT : 2 ^ 1074 = 2 ^ (- e) * 2 ^ (e + 1074)).
  { rewrite <- pow2_split by plia. f_equal. plia. }
  pose proof (pow2_pos (- e) ltac:(plia)) as HD.
  pose proof (pow2_pos (e + 1074) ltac:(plia)) as HS.
  rewrite HT. set (D := 2 ^ (- e)) in *. set (S := 2 ^ (e + 1074)) in *.
  set (M := 10 ^ 6).
  split.
  - intros <-. pose proof (div_bounds (2 * Zpos m * M + D) (2 * D) ltac:(plia)) as Hb.
    set (q := (2 * Zpos m * M + D) / (2 * D)) in *. pnia.
  - intros H. apply div_from_bounds; [plia|]. pnia.
Qed.

(** A binary64 number that is not an integer, rounded to six decimals and
    then to a binary64 number, is an integer or has that same 6-decimal
    rounding. *)
Lemma six_decimals_fixed (s : bool) (m : positive) (e : Z) :
  Number.valid (S754_finite s m e) = true ->
  Number.isInteger (S754_finite s m e) = false ->
  let w := Number.of_decimal s (fixed_digits m e 6) (-6) in
  Number.valid w = true
  /\ (Number.isInteger w = true \/ parseFloat (toFixed w 6) = w).
Proof.
  intros Hv Hint w.
  pose proof Hv as Hb. apply valid_finite in Hb. unfold Number.emin in Hb.
  destruct Hb as ([He1 He2] & Hm & _).
  pose proof Hint as Hne. cbn [Number.isInteger] in Hne. apply orb_false_iff in Hne.
  destruct Hne as [He _]. apply Z.leb_gt in He.
  set (n := fixed_digits m e 6) in *.
  assert (Hn : 2 * 2 ^ 1074 * n <= 2 * (units m e * 10 ^ 6) + 2 ^ 1074 < 2 * 2 ^ 1074 * (n + 1)).
  { apply (fixed_digits_units m e ltac:(plia)). reflexivity. }
  pose proof pow2_1074_pos as HT.
  assert (HU : 0 < units m e).
  { unfold units. apply Z.mul_pos_pos; [plia|apply pow2_pos; plia]. }
  assert (Hn0 : 0 <= n).
  { set (T := 2 ^ 1074) in *. set (U := units m e) in *.
    assert (0 < 2 * T * (n + 1)) by pnia. pnia. }
  unfold w, Number.of_decimal.
  destruct (Z.leb_spec n 0) as [Hz|Hpos]; [split; [reflexivity|left; reflexivity]|].
  change (0 <=? -6) with false. cbv iota. change (- -6) with 6.
  rewrite of_fraction_sign.
  pose proof (of_fraction_spec false n (10 ^ 6) Hpos ltac:(plia)) as Hspec.
  destruct (Number.of_fraction false n (10 ^ 6)) as [s0|s0| |s0 mw ew] eqn:Hof.
  - split; [reflexivity|left; reflexivity].
  - exfalso. destruct Hspec as [_ Hinf].
    assert (Hsmall : units m e <= (2 ^ 53 - 1) * 2 ^ 1074).
    { unfold units.
      pose proof (Z.pow_le_mono_r 2 (e + 1074) 1074 ltac:(plia) ltac:(plia)) as Hle.
      pose proof (pow2_pos (e + 1074) ltac:(plia)) as Hp.
      set (S := 2 ^ (e + 1074)) in *. set (T := 2 ^ 1074) in *.
      set (B := 2 ^ 53) in *. pnia. }
    assert (HQ : 2 ^ 53 + 1 <= 2 ^ 1024 - 2 ^ 970) by (vm_compute; discriminate).
    set (T := 2 ^ 1074) in *. set (U := units m e) in *.
    set (Q := 2 ^ 1024 - 2 ^ 970) in *. set (B := 2 ^ 53) in *.
    change (10 ^ 6) with 1000000 in *.
    assert (2 * T * (Q * 1000000) <= 2 * T * n) by pnia.
    assert (2 * T * ((B + 1) * 1000000) <= 2 * T * (Q * 1000000)) by pnia.
    pnia.
  - contradiction.
  - destruct Hspec as (_ & Hvw & Hnear). cbn [with_sign].
    rewrite (valid_sign s false). split; [exact Hvw|].
    destruct (Number.isInteger (S754_finite s mw ew)) eqn:Hintw; [left; reflexivity|right].
    rewrite parse_toFixed by (rewrite ?(valid_sign s false); assumption).
    assert (Hfix : fixed_digits mw ew 6 = n).
    { pose proof Hvw as Hbw. apply valid_finite in Hbw. unfold Number.emin in Hbw.
      cbn [Number.isInteger] in Hintw. apply orb_false_iff in Hintw.
      destruct Hintw as [Hew _]. apply Z.leb_gt in Hew.
      apply (fixed_digits_units mw ew ltac:(plia)).
      specialize (Hnear m e Hv).
      pose proof (million_times (units mw ew - units m e)) as Htie.
      set (T := 2 ^ 1074) in *. set (U := units m e) in *. set (V := units mw ew) in *.
      set (M := 10 ^ 6) in *. plia. }
    rewrite Hfix. unfold Number.of_decimal.
    destruct (Z.leb_spec n 0) as [|_]; [plia|].
    change (0 <=? -6) with false. cbv iota. change (- -6) with 6.
    rewrite of_fraction_sign, Hof. reflexivity.
Qed.

End SixDecimals.

Section Formatting.
Import JSString Builtins.
Local Open Scope Z_scope.

Import StickyNoteCalculator.


Lemma formatResult_six_decimals (v : Number.number) :
  Number.valid v = true -> formatResult v = toString (six_decimals v).
Proof.
  intros Hv. unfold formatResult, six_decimals.
  destruct v as [s|s| |s m e];
    [destruct s; vm_compute; reflexivity|destruct s; vm_compute; reflexivity
    |vm_compute; reflexivity|].
  destruct (Number.isInteger (S754_finite s m e)) eqn:Hint; [reflexivity|].
  rewrite parse_toFixed by assumption. reflexivity.
Qed.

Lemma six_decimals_valid (v : Number.number) :
  Number.valid v = true -> Number.valid (six_decimals v) = true.
Proof.
  intros Hv. unfold six_decimals. destruct v as [s|s| |s m e]; try assumption.
  destruct (Number.isInteger (S754_finite s m e)) eqn:Hint; [assumption|].
  apply (six_decimals_fixed s m e Hv Hint).
Qed.

Lemma formatResult_fixed (w : Number.number) :
  Number.valid w = true ->
  (Number.isInteger w = true \/ parseFloat (toFixed w 6) = w) ->
  formatResult (read_back w) = toString w.
Proof.
  intros Hv Hw. destruct w as [s|s| |s m e];
    [destruct s; vm_compute; reflexivity|destruct s; vm_compute; reflexivity
    |vm_compute; reflexivity|].
  cbn [read_back]. unfold formatResult.
  destruct (Number.isInteger (S754_finite s m e)) eqn:Hint; [reflexivity|].
  destruct Hw as [Hw|Hw]; [discriminate|]. rewrite Hw. reflexivity.
Qed.

Lemma formatResult_stable (v : Number.number) :
  Number.valid v = true ->
  getNumericValue (formatResult v) = read_back (six_decimals v)
  /\ formatResult (getNumericValue (formatResult v)) = formatResult v.
Proof.
  intros Hv.
  pose proof (six_decimals_valid v Hv) as Hw.
  rewrite (formatResult_six_decimals v Hv).
  rewrite (toString_reads_back _ Hw). split; [reflexivity|].
  apply formatResult_fixed; [exact Hw|].
  unfold six_decimals in *.
  destruct v as [s|s| |s m e]; [left; reflexivity|right; destruct s; vm_compute; reflexivity
                               |right; vm_compute; reflexivity|].
  destruct (Number.isInteger (S754_finite s m e)) eqn:Hint; [left; exact Hint|].
  apply (six_decimals_fixed s m e Hv Hint).
Qed.

End Formatting.

(** ** The neighbours of a number, and how close a fraction is to the
       number it rounds to *)

Section Neighbours.
Local Open Scope Z_scope.

Lemma pow10_pos (a : Z) : 0 <= a -> 0 < 10 ^ a.
Proof. intros. apply Z.pow_pos_nonneg; lia. Qed.

Lemma pow10_split (a b : Z) : 0 <= a -> 0 <= b -> 10 ^ (a + b) = 10 ^ a * 10 ^ b.
Proof. intros. apply Z.pow_add_r; assumption. Qed.

Lemma next_up (m : positive) (e : Z) :
  Number.valid (S754_finite false m e) = true -> e < 971 ->
  exists m' e',
    Number.valid (S754_finite false m' e') = true
    /\ units m' e' = units m e + 2 ^ (e + 1074).
Proof.
  intros Hv He. apply valid_finite in Hv. unfold Number.emin in Hv.
  destruct Hv as ([He1 He2] & Hm & Hn).
  destruct (Z_lt_ge_dec (Zpos m + 1) (2 ^ 53)) as [Hlt|Hge].
  - exists (m + 1)%positive, e. split.
    + apply valid_finite. unfold Number.emin. rewrite Pos2Z.inj_add.
      repeat split; lia.
    + unfold units. rewrite Pos2Z.inj_add. ring.
  - exists (Z.to_pos (2 ^ 52)), (e + 1). split.
    + apply valid_finite. unfold Number.emin.
      change (Zpos (Z.to_pos (2 ^ 52))) with (2 ^ 52).
      repeat split; lia.
    + unfold units. change (Zpos (Z.to_pos (2 ^ 52))) with (2 ^ 52).
      replace (e + 1 + 1074) with (1 + (e + 1074)) by lia.
      rewrite (pow2_split 1 (e + 1074)) by lia. change (2 ^ 1) with 2.
      assert (Zpos m = 2 ^ 53 - 1) by lia.
      assert (H5253 : 2 ^ 53 = 2 * 2 ^ 52) by reflexivity.
      pnia.
Qed.

Lemma next_down (m : positive) (e : Z) :
  Number.valid (S754_finite false m e) = true -> 2 ^ 52 <= Zpos m ->
  exists m' e',
    Number.valid (S754_finite false m' e') = true
    /\ units m e - 2 ^ (e + 1074) <= units m' e' < units m e.
Proof.
  intros Hv Hnormal. apply valid_finite in Hv. unfold Number.emin in Hv.
  destruct Hv as ([He1 He2] & Hm & Hn).
  assert (H52 : 1 < 2 ^ 52) by reflexivity.
  pose proof (pow2_pos (e + 1074) ltac:(lia)) as HG.
  destruct (Z_lt_ge_dec (2 ^ 52) (Zpos m)) as [Hgt|Hle];
    [|destruct (Z.eq_dec e (-1074)) as [Hemin|Hemin]].
  - exists (Pos.pred m), e.
    assert (Hpred : Zpos (Pos.pred m) = Zpos m - 1) by (apply Pos2Z.inj_pred; lia).
    split.
    + apply valid_finite. unfold Number.emin. rewrite Hpred.
      repeat split; lia.
    + unfold units. rewrite Hpred. pnia.
  - exists (Pos.pred m), e.
    assert (Hpred : Zpos (Pos.pred m) = Zpos m - 1) by (apply Pos2Z.inj_pred; lia).
    split.
    + apply valid_finite. unfold Number.emin. rewrite Hpred.
      repeat split; lia.
    + unfold units. rewrite Hpred. pnia.
  - exists (Z.to_pos (2 ^ 53 - 1)), (e - 1). split.
    + apply valid_finite. unfold Number.emin.
      change (Zpos (Z.to_pos (2 ^ 53 - 1))) with (2 ^ 53 - 1).
      repeat split; lia.
    + unfold units. change (Zpos (Z.to_pos (2 ^ 53 - 1))) with (2 ^ 53 - 1).
      replace (e + 1074) with (1 + (e - 1 + 1074)) by lia.
      rewrite (pow2_split 1 (e - 1 + 1074)) by lia. change (2 ^ 1) with 2.
      assert (Zpos m = 2 ^ 52) by lia.
      assert (H5253 : 2 ^ 53 = 2 * 2 ^ 52) by reflexivity.
      pose proof (pow2_pos (e - 1 + 1074) ltac:(lia)).
      pnia.
Qed.

(** A fraction is within half a step of the normal number it rounds to. *)
Lemma within_half_step (neg : bool) (num den : Z) (m : positive) (e : Z) :
  0 < num -> 0 < den ->
  Number.of_fraction neg num den = S754_finite neg m e ->
  2 ^ 52 <= Zpos m -> e < 971 ->
  2 * Z.abs (units m e * den - num * 2 ^ 1074) <= 2 ^ (e + 1074) * den.
Proof.
  intros Hn Hd Hof Hnormal He.
  pose proof (of_fraction_spec neg num den Hn Hd) as Hspec. rewrite Hof in Hspec.
  destruct Hspec as (_ & Hv & Hnear). rewrite (valid_sign neg false) in Hv.
  destruct (next_up m e Hv He) as (mu & eu & Hvu & Hu).
  destruct (next_down m e Hv Hnormal) as (md & ed & Hvd & Hdn).
  pose proof (Hnear mu eu Hvu) as Hnu. pose proof (Hnear md ed Hvd) as Hnd.
  assert (HG : 0 < 2 ^ (e + 1074)).
  { apply valid_finite in Hv. unfold Number.emin in Hv. apply pow2_pos. lia. }
  rewrite Hu in Hnu.
  set (X := units m e) in *. set (Xd := units md ed) in *.
  set (G := 2 ^ (e + 1074)) in *. set (N := num * 2 ^ 1074) in *.
  clearbody X Xd G N.
  assert (X * den - G * den <= Xd * den) by nia.
  assert (Xd * den < X * den) by nia.
  replace ((X + G) * den) with (X * den + G * den) in Hnu by ring.
  lia.
Qed.

(** The same for a decimal, on any scale [10^Q] that makes it whole. *)
Lemma decimal_within_half_step (s p Q : Z) (m : positive) (e : Z) :
  0 < s ->
  Number.of_decimal false s p = S754_finite false m e ->
  2 ^ 52 <= Zpos m -> e < 971 ->
  0 <= Q -> 0 <= p + Q ->
  2 * Z.abs (units m e * 10 ^ Q - s * 10 ^ (p + Q) * 2 ^ 1074) <= 2 ^ (e + 1074) * 10 ^ Q.
Proof.
  intros Hs Hof Hnormal He HQ HpQ. unfold Number.of_decimal in Hof.
  destruct (Z.leb_spec s 0) as [|_]; [lia|].
  destruct (Z.leb_spec 0 p) as [Hp|Hp].
  - pose proof (pow10_pos p Hp) as H10.
    pose proof (within_half_step false (s * 10 ^ p) 1 m e ltac:(nia) ltac:(lia) Hof Hnormal He)
      as Hh.
    rewrite (Z.add_comm p Q), (pow10_split Q p) by lia.
    pose proof (pow10_pos Q HQ) as H10Q.
    set (X := units m e) in *. set (G := 2 ^ (e + 1074)) in *. set (T := 2 ^ 1074) in *.
    set (A := 10 ^ p) in *. set (B := 10 ^ Q) in *. clearbody X G T A B.
    replace (X * B - s * (B * A) * T) with ((X * 1 - s * A * T) * B) by ring.
    rewrite Z.abs_mul, (Z.abs_eq B) by lia. nia.
  - pose proof (pow10_pos (- p) ltac:(lia)) as H10.
    pose proof (within_half_step false s (10 ^ (- p)) m e Hs H10 Hof Hnormal He) as Hh.
    replace Q with (- p + (p + Q)) at 1 3 by lia.
    rewrite (pow10_split (- p) (p + Q)) by lia.
    pose proof (pow10_pos (p + Q) HpQ) as H10Q.
    set (X := units m e) in *. set (G := 2 ^ (e + 1074)) in *. set (T := 2 ^ 1074) in *.
    set (A := 10 ^ (- p)) in *. set (B := 10 ^ (p + Q)) in *. clearbody X G T A B.
    replace (X * (A * B) - s * B * T) with ((X * A - s * T) * B) by ring.
    rewrite Z.abs_mul, (Z.abs_eq B) by lia. nia.
Qed.

End Neighbours.

(** ** Fractions of the same value round to the same number *)

Section Scaling.
Local Open Scope Z_scope.

Lemma exponent_of_unique (num den e : Z) :
  0 < num -> 0 < den -> -1074 <= e ->
  num * 2 ^ 1074 < 2 ^ 53 * (den * 2 ^ (e + 1074)) ->
  (-1074 < e -> 2 ^ 52 * (den * 2 ^ (e + 1074)) <= num * 2 ^ 1074) ->
  Number.exponent_of num den = e.
Proof.
  intros Hn Hd He Hup Hlow.
  destruct (exponent_of_bounds num den Hn Hd) as (He0 & _ & Hup0 & Hlow0).
  set (e0 := Number.exponent_of num den) in *.
  assert (Hstep : forall a b, -1074 <= a -> -1074 < b ->
             num * 2 ^ 1074 < 2 ^ 53 * (den * 2 ^ (a + 1074)) ->
             2 ^ 52 * (den * 2 ^ (b + 1074)) <= num * 2 ^ 1074 -> b <= a).
  { intros a b Ha Hb H1 H2.
    assert (Hlt : 2 ^ (b + 1074) < 2 ^ (a + 1 + 1074)).
    { replace (a + 1 + 1074) with (1 + (a + 1074)) by lia.
      rewrite (pow2_split 1 (a + 1074)) by lia. change (2 ^ 1) with 2.
      assert (H5253 : 2 ^ 53 = 2 * 2 ^ 52) by reflexivity.
      assert (H52 : 0 < 2 ^ 52) by reflexivity.
      pose proof (pow2_pos (a + 1074) ltac:(lia)). pose proof (pow2_pos (b + 1074) ltac:(lia)).
      set (P := 2 ^ 52) in *. set (Q := 2 ^ 53) in *.
      set (A := 2 ^ (a + 1074)) in *. set (B := 2 ^ (b + 1074)) in *.
      set (N := num * 2 ^ 1074) in *. clearbody P Q A B N.
      assert (P * (den * B) < P * (den * (2 * A))) by nia.
      nia. }
    apply pow2_lt_inv in Hlt; lia. }
  destruct (Z.lt_trichotomy e0 e) as [Hlt|[Heq|Hgt]]; [|exact Heq|].
  - pose proof (Hstep e0 e He0 ltac:(lia) Hup0 (Hlow ltac:(lia))). lia.
  - pose proof (Hstep e e0 He ltac:(lia) Hup (Hlow0 ltac:(lia))). lia.
Qed.

Lemma exponent_of_scale (num den c : Z) :
  0 < num -> 0 < den -> 0 < c ->
  Number.exponent_of (num * c) (den * c) = Number.exponent_of num den.
Proof.
  intros Hn Hd Hc.
  destruct (exponent_of_bounds num den Hn Hd) as (He0 & _ & Hup0 & Hlow0).
  set (e0 := Number.exponent_of num den) in *.
  apply exponent_of_unique;
    [apply Z.mul_pos_pos; assumption|apply Z.mul_pos_pos; assumption|exact He0| |].
  - replace (num * c * 2 ^ 1074) with (num * 2 ^ 1074 * c) by ring.
    replace (2 ^ 53 * (den * c * 2 ^ (e0 + 1074)))
      with (2 ^ 53 * (den * 2 ^ (e0 + 1074)) * c) by ring.
    apply Z.mul_lt_mono_pos_r; [exact Hc|exact Hup0].
  - intros H. specialize (Hlow0 H).
    replace (num * c * 2 ^ 1074) with (num * 2 ^ 1074 * c) by ring.
    replace (2 ^ 52 * (den * c * 2 ^ (e0 + 1074)))
      with (2 ^ 52 * (den * 2 ^ (e0 + 1074)) * c) by ring.
    apply Z.mul_le_mono_nonneg_r; [lia|exact Hlow0].
Qed.

Lemma nearest_even_scale (N G c : Z) :
  0 < G -> 0 < c ->
  Number.nearest_even (N * c) (G * c) = Number.nearest_even N G.
Proof.
  intros HG Hc. unfold Number.nearest_even.
  rewrite Z.div_mul_cancel_r by lia.
  rewrite Z.mul_mod_distr_r by lia.
  replace (2 * (N mod G * c)) with (2 * (N mod G) * c) by ring.
  set (r := N mod G). set (q := N / G). clearbody r q.
  destruct (Z.compare_spec (2 * r * c) (G * c)) as [H|H|H];
    destruct (Z.compare_spec (2 * r) G) as [H'|H'|H']; try reflexivity; exfalso; nia.
Qed.

Lemma of_fraction_scale (neg : bool) (num den c : Z) :
  0 < num -> 0 < den -> 0 < c ->
  Number.of_fraction neg (num * c) (den * c) = Number.of_fraction neg num den.
Proof.
  intros Hn Hd Hc. unfold Number.of_fraction.
  rewrite (exponent_of_scale num den c Hn Hd Hc).
  destruct (exponent_of_bounds num den Hn Hd) as (He0 & HG & _).
  set (e0 := Number.exponent_of num den) in *. unfold Number.emin in *.
  replace (e0 - -1074) with (e0 + 1074) by lia.
  replace (num * c * 2 ^ (- -1074)) with (num * 2 ^ (- -1074) * c) by ring.
  replace (den * c * 2 ^ (e0 + 1074)) with (den * 2 ^ (e0 + 1074) * c) by ring.
  rewrite nearest_even_scale by assumption. reflexivity.
Qed.

(** A decimal keeps its value, and the number it rounds to, when zeros
    move between its digits and its exponent. *)
Lemma of_decimal_zeros (neg : bool) (s p t : Z) :
  0 < s -> 0 <= t ->
  Number.of_decimal neg (s * 10 ^ t) p = Number.of_decimal neg s (p + t).
Proof.
  intros Hs Ht. unfold Number.of_decimal.
  pose proof (pow10_pos t Ht) as H10.
  destruct (Z.leb_spec (s * 10 ^ t) 0) as [|_]; [nia|].
  destruct (Z.leb_spec s 0) as [|_]; [lia|].
  destruct (Z.leb_spec 0 p) as [Hp|Hp]; destruct (Z.leb_spec 0 (p + t)) as [Hpt|Hpt];
    try lia.
  - rewrite (Z.add_comm p t), (pow10_split t p) by lia. f_equal. ring.
  - (* p < 0 <= p + t *)
    replace t with (p + t + - p) at 1 by lia.
    rewrite (pow10_split (p + t) (- p)) by lia.
    pose proof (pow10_pos (- p) ltac:(lia)). pose proof (pow10_pos (p + t) Hpt).
    rewrite <- (of_fraction_scale neg (s * 10 ^ (p + t)) 1 (10 ^ (- p))) by nia.
    f_equal; ring.
  - (* p + t < 0 *)
    replace (- p) with (- (p + t) + t) by lia.
    rewrite (pow10_split (- (p + t)) t) by lia.
    pose proof (pow10_pos (- (p + t)) ltac:(lia)).
    apply of_fraction_scale; lia.
Qed.

End Scaling.

(** ** Short decimals that round to a number *)

Section ShortDecimals.
Local Open Scope Z_scope.

Lemma exact_units (m : positive) (e : Z) :
  Number.valid (S754_finite false m e) = true ->
  snd (Number.exact_decimal m e) <= 0
  /\ 0 < fst (Number.exact_decimal m e)
  /\ fst (Number.exact_decimal m e) * 2 ^ 1074
     = units m e * 10 ^ (- snd (Number.exact_decimal m e)).
Proof.
  intros Hv. apply valid_finite in Hv. unfold Number.emin in Hv.
  destruct Hv as ([He1 He2] & _). unfold Number.exact_decimal, units.
  destruct (Z.leb_spec 0 e) as [He|He]; cbn [fst snd].
  - pose proof (pow2_pos e He). split; [lia|]. split; [nia|].
    rewrite (pow2_split e 1074) by lia. change (- 0) with 0. rewrite Z.pow_0_r. ring.
  - assert (H5 : 0 < 5 ^ (- e)) by (apply Z.pow_pos_nonneg; lia).
    split; [lia|]. split; [nia|].
    replace 1074 with (e + 1074 + - e) at 1 by lia.
    rewrite (pow2_split (e + 1074) (- e)) by lia.
    replace 10 with (2 * 5) by reflexivity. rewrite Z.pow_mul_l. ring.
Qed.

Variables (m : positive) (e d q K : Z).
Hypothesis Hvalid : Number.valid (S754_finite false m e) = true.
Hypothesis Hnormal : 2 ^ 52 <= Zpos m.
Hypothesis Hbelow : e < 971.
Hypothesis Hq : q <= 0.
Hypothesis Hexact : d * 2 ^ 1074 = units m e * 10 ^ (- q).
Hypothesis HK : 10 ^ (K - 1) <= d < 10 ^ K.

Lemma step_below_units : 2 ^ 52 * 2 ^ (e + 1074) <= units m e.
Proof using All.
  unfold units. apply Z.mul_le_mono_nonneg_r; [|exact Hnormal].
  apply Z.pow_nonneg. lia.
Qed.

(** A decimal that rounds to the number is within [2^-53] of it. *)
Lemma near_exact (s p : Z) :
  0 < s -> q <= p ->
  Number.of_decimal false s p = S754_finite false m e ->
  2 ^ 53 * Z.abs (d - s * 10 ^ (p - q)) <= d.
Proof using All.
  intros Hs Hp Hof.
  pose proof (decimal_within_half_step s p (- q) m e Hs Hof Hnormal Hbelow
                ltac:(lia) ltac:(lia)) as Hh.
  replace (p + - q) with (p - q) in Hh by lia.
  rewrite <- Hexact in Hh.
  pose proof step_below_units as Hstep.
  pose proof (pow10_pos (- q) ltac:(lia)) as H10.
  pose proof pow2_1074_pos as HT.
  assert (H5253 : 2 ^ 53 = 2 * 2 ^ 52) by reflexivity.
  assert (H52 : 0 < 2 ^ 52) by reflexivity.
  replace (d * 2 ^ 1074 - s * 10 ^ (p - q) * 2 ^ 1074)
    with ((d - s * 10 ^ (p - q)) * 2 ^ 1074) in Hh by ring.
  rewrite Z.abs_mul, (Z.abs_eq (2 ^ 1074)) in Hh by lia.
  assert (Hd : 2 ^ 52 * (2 ^ (e + 1074) * 10 ^ (- q)) <= d * 2 ^ 1074).
  { rewrite Hexact.
    replace (2 ^ 52 * (2 ^ (e + 1074) * 10 ^ (- q)))
      with (2 ^ 52 * 2 ^ (e + 1074) * 10 ^ (- q)) by ring.
    apply Z.mul_le_mono_nonneg_r; [lia|exact Hstep]. }
  set (a := Z.abs (d - s * 10 ^ (p - q))) in *.
  set (T := 2 ^ 1074) in *. set (GQ := 2 ^ (e + 1074) * 10 ^ (- q)) in *.
  clearbody a T GQ.
  change (2 ^ 52) with 4503599627370496 in *. change (2 ^ 53) with 9007199254740992 in *.
  apply (Z.mul_le_mono_pos_r _ _ T HT). lia.
Qed.

(** A decimal of at most 15 digits that does not end in 0 is no finer than
    the exact digits of the number it rounds to. *)
Lemma fine_exponent (s p : Z) :
  0 < s < 10 ^ 15 -> s mod 10 <> 0 ->
  Number.of_decimal false s p = S754_finite false m e ->
  q <= p.
Proof using All.
  intros Hs Hmod Hof. destruct (Z_le_gt_dec q p) as [|Hlt]; [assumption|exfalso].
  pose proof (decimal_within_half_step s p (- p) m e ltac:(lia) Hof Hnormal Hbelow
                ltac:(lia) ltac:(lia)) as Hh.
  replace (p + - p) with 0 in Hh by lia. rewrite Z.pow_0_r, Z.mul_1_r in Hh.
  replace (- p) with (- q + (q - p)) in Hh by lia.
  rewrite (pow10_split (- q) (q - p)) in Hh by lia.
  replace (units m e * (10 ^ (- q) * 10 ^ (q - p)))
    with (units m e * 10 ^ (- q) * 10 ^ (q - p)) in Hh by ring.
  rewrite <- Hexact in Hh.
  pose proof step_below_units as Hstep.
  pose proof (pow10_pos (- q) ltac:(lia)) as H10.
  pose proof pow2_1074_pos as HT.
  replace (q - p) with (1 + (q - p - 1)) in Hh by lia.
  rewrite (pow10_split 1 (q - p - 1)) in Hh by lia. change (10 ^ 1) with 10 in Hh.
  pose proof (pow10_pos (q - p - 1) ltac:(lia)) as H10'.
  set (c := 10 ^ (q - p - 1)) in *.
  assert (Hne : d * 10 * c - s <> 0).
  { intros H0. apply Hmod. replace s with (d * c * 10) by lia. apply Z.mod_mul. lia. }
  replace (d * 2 ^ 1074 * (10 * c) - s * 2 ^ 1074)
    with ((d * 10 * c - s) * 2 ^ 1074) in Hh by ring.
  rewrite Z.abs_mul, (Z.abs_eq (2 ^ 1074)) in Hh by lia.
  assert (Hd : 2 ^ 52 * (2 ^ (e + 1074) * (10 ^ (- q) * (10 * c)))
               <= d * 2 ^ 1074 * (10 * c)).
  { rewrite Hexact.
    replace (2 ^ 52 * (2 ^ (e + 1074) * (10 ^ (- q) * (10 * c))))
      with (2 ^ 52 * 2 ^ (e + 1074) * (10 ^ (- q) * (10 * c))) by ring.
    replace (units m e * 10 ^ (- q) * (10 * c))
      with (units m e * (10 ^ (- q) * (10 * c))) by ring.
    apply Z.mul_le_mono_nonneg_r; [nia|exact Hstep]. }
  set (T := 2 ^ 1074) in *. set (GQ := 2 ^ (e + 1074) * (10 ^ (- q) * (10 * c))) in *.
  set (D := d * 10 * c) in *.
  replace (d * T * (10 * c)) with (D * T) in Hd by (unfold D; ring).
  clearbody T GQ D.
  change (2 ^ 52) with 4503599627370496 in *. change (10 ^ 15) with 1000000000000000 in *.
  assert (Ha : 1 * T <= Z.abs (D - s) * T) by (apply Z.mul_le_mono_nonneg_r; lia).
  assert (Hb : (D - s) * T <= Z.abs (D - s) * T) by (apply Z.mul_le_mono_nonneg_r; lia).
  assert (Hc : s * T <= 999999999999999 * T) by (apply Z.mul_le_mono_nonneg_r; lia).
  lia.
Qed.

(** Two decimals of at most 15 digits that round to the number are the
    same decimal. *)
Lemma short_decimals_agree (s p s' p' : Z) :
  0 < s < 10 ^ 15 -> 0 < s' -> q <= p <= p' ->
  Number.of_decimal false s p = S754_finite false m e ->
  Number.of_decimal false s' p' = S754_finite false m e ->
  s = s' * 10 ^ (p' - p).
Proof using All.
  intros Hs Hs' Hp Hof Hof'.
  pose proof (near_exact s p ltac:(lia) ltac:(lia) Hof) as H1.
  pose proof (near_exact s' p' Hs' ltac:(lia) Hof') as H2.
  replace (p' - q) with (p' - p + (p - q)) in H2 by lia.
  rewrite (pow10_split (p' - p) (p - q)) in H2 by lia.
  pose proof (pow10_pos (p - q) ltac:(lia)) as HJ.
  pose proof (pow10_pos (p' - p) ltac:(lia)) as Hc.
  set (J := 10 ^ (p - q)) in *. set (b := s' * 10 ^ (p' - p)) in *.
  replace (s' * (10 ^ (p' - p) * J)) with (b * J) in H2 by (unfold b; ring).
  clearbody J b.
  change (2 ^ 53) with 9007199254740992 in *. change (10 ^ 15) with 1000000000000000 in *.
  destruct (Z.eq_dec s b) as [|Hne]; [assumption|exfalso].
  assert (HJ1 : 1 * J <= Z.abs (s * J - b * J)).
  { replace (s * J - b * J) with ((s - b) * J) by ring.
    rewrite Z.abs_mul, (Z.abs_eq J) by lia. apply Z.mul_le_mono_nonneg_r; lia. }
  assert (H5 : s * J <= 999999999999999 * J) by (apply Z.mul_le_mono_nonneg_r; lia).
  lia.
Qed.

End ShortDecimals.

(** ** The shortest digits of a number that a short decimal rounds to *)

Section ShortestDigits.
Local Open Scope Z_scope.
Import JSString Builtins.

Lemma same_number_refl (m : positive) (e : Z) :
  same_number (S754_finite false m e) (S754_finite false m e) = true.
Proof. cbn. rewrite Pos.eqb_refl, Z.eqb_refl. reflexivity. Qed.

Lemma closest_some (d q k : Z) (c : Z * Z) (cs : list (Z * Z)) :
  exists r, closest d q k (c :: cs) = Some r.
Proof.
  unfold closest. cbn [fold_left]. generalize c. clear c.
  induction cs as [|c' cs IH]; intros c; cbn [fold_left]; [eexists; reflexivity|].
  destruct (_ || _); apply IH.
Qed.

Variables (m : positive) (e d q K : Z).
Hypothesis Hvalid : Number.valid (S754_finite false m e) = true.
Hypothesis Hnormal : 2 ^ 52 <= Zpos m.
Hypothesis Hbelow : e < 971.
Hypothesis Hq : q <= 0.
Hypothesis Hexact : d * 2 ^ 1074 = units m e * 10 ^ (- q).
Hypothesis HK : 10 ^ (K - 1) <= d < 10 ^ K.

Variables (s0 n0 k0 : Z).
Hypothesis Hk0 : 1 <= k0 <= 15.
Hypothesis Hs0 : 10 ^ (k0 - 1) <= s0 < 10 ^ k0.
Hypothesis Hstripped : s0 mod 10 <> 0.
Hypothesis Hrounds : Number.of_decimal false s0 (n0 - k0) = S754_finite false m e.

Lemma s0_bounds : 0 < s0 < 10 ^ 15.
Proof using All.
  pose proof (pow10_pos (k0 - 1) ltac:(lia)).
  assert (10 ^ k0 <= 10 ^ 15) by (apply Z.pow_le_mono_r; lia). lia.
Qed.

Lemma d_pos : 0 < d.
Proof using All.
  destruct (Z_le_gt_dec K 0) as [HK0|HK0].
  - pose proof (pow10_pos 0 ltac:(lia)).
    assert (10 ^ K <= 10 ^ 0) by (apply Z.pow_le_mono_r; lia).
    destruct (Z_le_gt_dec 0 (K - 1)) as [|Hneg]; [lia|].
    rewrite (Z.pow_neg_r 10 (K - 1)) in HK by lia.
    change (10 ^ 0) with 1 in *.
    assert (d = 0) by lia. subst d.
    pose proof pow2_1074_pos. pose proof (pow10_pos (- q) ltac:(lia)).
    assert (0 < units m e).
    { unfold units. apply Z.mul_pos_pos; [lia|]. apply pow2_pos.
      apply valid_finite in Hvalid. unfold Number.emin in Hvalid. lia. }
    exfalso. nia.
  - pose proof (pow10_pos (K - 1) ltac:(lia)). lia.
Qed.

Lemma K_pos : 1 <= K.
Proof using All.
  pose proof d_pos. destruct (Z_le_gt_dec 1 K) as [|HK0]; [assumption|].
  assert (10 ^ K <= 10 ^ 0) by (apply Z.pow_le_mono_r; lia).
  change (10 ^ 0) with 1 in *. lia.
Qed.

(** Where the decimal sits among the exact digits. *)
Lemma target_position :
  k0 <= K
  /\ (n0 = K + q
      /\ (s0 = d / 10 ^ (K - k0) \/ s0 = d / 10 ^ (K - k0) + 1)
      \/ n0 = K + q + 1 /\ s0 = d / 10 ^ (K - k0 + 1) + 1).
Proof using All.
  pose proof s0_bounds as Hs. pose proof d_pos as Hd. pose proof K_pos as HK1.
  pose proof (fine_exponent m e d q K Hvalid Hnormal Hbelow Hq Hexact HK s0 (n0 - k0)
                Hs Hstripped Hrounds) as Hfine.
  pose proof (near_exact m e d q K Hvalid Hnormal Hbelow Hq Hexact HK s0 (n0 - k0)
                ltac:(lia) Hfine Hrounds) as Hnear.
  set (j := n0 - k0 - q) in *.
  assert (Hj : 0 <= j) by (unfold j; lia).
  pose proof (pow10_pos j Hj) as HJ.
  pose proof (pow10_pos (k0 - 1) ltac:(lia)) as Hk0pos.
  assert (Hk0split : 10 ^ k0 = 10 * 10 ^ (k0 - 1)).
  { replace k0 with (1 + (k0 - 1)) at 1 by lia.
    rewrite (pow10_split 1 (k0 - 1)) by lia. reflexivity. }
  assert (HKsplit : 10 ^ K = 10 * 10 ^ (K - 1)).
  { replace K with (1 + (K - 1)) at 1 by lia.
    rewrite (pow10_split 1 (K - 1)) by lia. reflexivity. }
  assert (Hk15 : 10 ^ (k0 - 1) <= 10 ^ 14) by (apply Z.pow_le_mono_r; lia).
  change (2 ^ 53) with 9007199254740992 in Hnear.
  change (10 ^ 14) with 100000000000000 in Hk15.
  (* the decimal has as many digits as the exact value, or one more *)
  assert (Hupper : j <= K - k0 + 1).
  { destruct (Z_le_gt_dec j (K - k0 + 1)) as [|Hgt]; [assumption|exfalso].
    assert (Hpow : 10 ^ (K + 1) <= 10 ^ (k0 - 1 + j)) by (apply Z.pow_le_mono_r; lia).
    rewrite (pow10_split (k0 - 1) j) in Hpow by lia.
    replace (K + 1) with (1 + K) in Hpow by lia.
    rewrite (pow10_split 1 K) in Hpow by lia. change (10 ^ 1) with 10 in Hpow.
    assert (10 ^ (k0 - 1) * 10 ^ j <= s0 * 10 ^ j) by (apply Z.mul_le_mono_nonneg_r; lia).
    set (a := s0 * 10 ^ j) in *. clearbody a. lia. }
  assert (Hlower : K - k0 <= j).
  { destruct (Z_le_gt_dec (K - k0) j) as [|Hlt]; [assumption|exfalso].
    assert (Hpow : 10 ^ (k0 + j) <= 10 ^ (K - 1)) by (apply Z.pow_le_mono_r; lia).
    rewrite (pow10_split k0 j) in Hpow by lia.
    assert (Hmax : s0 * 10 ^ j <= (10 ^ k0 - 1) * 10 ^ j)
      by (apply Z.mul_le_mono_nonneg_r; lia).
    assert (H15 : 10 ^ k0 * 10 ^ j <= 1000000000000000 * 10 ^ j).
    { apply Z.mul_le_mono_nonneg_r; [lia|]. 
      change 1000000000000000 with (10 ^ 15). apply Z.pow_le_mono_r; lia. }
    set (a := s0 * 10 ^ j) in *. set (J := 10 ^ j) in *. set (C := 10 ^ k0 * J) in *.
    replace ((10 ^ k0 - 1) * J) with (C - J) in Hmax by (unfold C; ring).
    clearbody a J C. lia. }
  assert (Hk0K : k0 <= K).
  { destruct (Z_le_gt_dec k0 K) as [|Hgt]; [assumption|exfalso].
    assert (j = 0) by lia. assert (k0 = K + 1) by lia. subst k0.
    replace (K + 1 - 1) with K in * by lia.
    replace (10 ^ j) with 1 in * by (replace j with 0 by lia; reflexivity).
    rewrite Z.mul_1_r in Hnear. lia. }
  split; [exact Hk0K|].
  assert (Hclose : Z.abs (d - s0 * 10 ^ j) < 10 ^ j).
  { assert (HdJ : d < 10 ^ (k0 + j)).
    { apply Z.lt_le_trans with (10 ^ K); [lia|]. apply Z.pow_le_mono_r; lia. }
    rewrite (pow10_split k0 j) in HdJ by lia.
    assert (H15 : 10 ^ k0 * 10 ^ j <= 1000000000000000 * 10 ^ j).
    { apply Z.mul_le_mono_nonneg_r; [lia|].
      change 1000000000000000 with (10 ^ 15). apply Z.pow_le_mono_r; lia. }
    set (a := s0 * 10 ^ j) in *. set (J := 10 ^ j) in *. set (C := 10 ^ k0 * J) in *.
    clearbody a J C. lia. }
  destruct (Z.eq_dec j (K - k0)) as [Hj0|Hj1].
  - left. split; [unfold j in Hj0; lia|]. rewrite <- Hj0.
    set (J := 10 ^ j) in *.
    pose proof (div_bounds d J HJ) as Hdiv.
    set (lo := d / J) in *. clearbody lo J.
    assert (s0 - 1 <= lo <= s0) by nia. lia.
  - assert (Hj1' : j = K - k0 + 1) by lia. right. split; [unfold j in Hj1'; lia|].
    rewrite <- Hj1'.
    assert (Hge : 10 ^ K <= s0 * 10 ^ j).
    { replace K with (k0 - 1 + j) at 1 by lia. rewrite (pow10_split (k0 - 1) j) by lia.
      apply Z.mul_le_mono_nonneg_r; lia. }
    set (J := 10 ^ j) in *.
    pose proof (div_bounds d J HJ) as Hdiv.
    set (lo := d / J) in *. clearbody lo J.
    assert (lo = s0 - 1) by nia. lia.
Qed.

Lemma target_in_candidates :
  In (s0, n0) (candidates (S754_finite false m e) d q K k0).
Proof using All.
  destruct target_position as [HkK Hpos].
  unfold candidates. apply in_flat_map.
  assert (Hpass : forall n,
             n = n0 ->
             ((10 ^ (k0 - 1) <=? s0) && (s0 <? 10 ^ k0)
              && same_number (Number.of_decimal false s0 (n - k0)) (S754_finite false m e))
             = true).
  { intros n ->. rewrite Hrounds, same_number_refl.
    destruct (Z.leb_spec (10 ^ (k0 - 1)) s0); [|lia].
    destruct (Z.ltb_spec s0 (10 ^ k0)); [reflexivity|lia]. }
  destruct Hpos as [[Hn Hs]|[Hn Hs]].
  - exists 0. split; [left; reflexivity|].
    replace (K - k0 + 0) with (K - k0) by lia.
    apply filter_In. cbn [fst snd]. split.
    + destruct Hs as [Hs|Hs]; [left|right; left]; rewrite Hs at 1; f_equal; lia.
    + apply Hpass. lia.
  - exists 1. split; [right; left; reflexivity|].
    apply filter_In. cbn [fst snd]. split.
    + right; left. rewrite Hs at 1. f_equal. lia.
    + apply Hpass. lia.
Qed.

Lemma candidate_is_target (k s n : Z) :
  1 <= k <= k0 ->
  In (s, n) (candidates (S754_finite false m e) d q K k) ->
  k = k0 /\ s = s0 /\ n = n0.
Proof using All.
  intros Hk Hin. destruct target_position as [HkK _].
  pose proof s0_bounds as Hs0b.
  apply candidate_spec in Hin. destruct Hin as (Hs & Hof & Hn).
  pose proof (fine_exponent m e d q K Hvalid Hnormal Hbelow Hq Hexact HK s0 (n0 - k0)
                Hs0b Hstripped Hrounds) as Hfine.
  assert (Hp : q <= n - k) by lia.
  pose proof (pow10_pos (k - 1) ltac:(lia)) as Hkpos.
  assert (Hsk : 10 ^ k <= 10 ^ 15) by (apply Z.pow_le_mono_r; lia).
  assert (Hkk0 : k < k0 -> 10 ^ k <= 10 ^ (k0 - 1)) by (intros; apply Z.pow_le_mono_r; lia).
  assert (Hk0split : 10 ^ k0 = 10 * 10 ^ (k0 - 1)).
  { replace k0 with (1 + (k0 - 1)) at 1 by lia.
    rewrite (pow10_split 1 (k0 - 1)) by lia. reflexivity. }
  destruct (Z_le_gt_dec (n - k) (n0 - k0)) as [Hle|Hgt].
  - pose proof (short_decimals_agree m e d q K Hvalid Hnormal Hbelow Hq Hexact HK
                  s (n - k) s0 (n0 - k0) ltac:(lia) ltac:(lia) ltac:(lia) Hof Hrounds) as Heq.
    destruct (Z.eq_dec (n0 - k0) (n - k)) as [Hsame|Hdiff].
    + rewrite Hsame, Z.sub_diag, Z.pow_0_r, Z.mul_1_r in Heq.
      destruct (Z.eq_dec k k0) as [->|Hne]; [repeat split; lia|].
      specialize (Hkk0 ltac:(lia)). lia.
    + exfalso.
      replace (n0 - k0 - (n - k)) with (1 + (n0 - k0 - (n - k) - 1)) in Heq by lia.
      rewrite (pow10_split 1 (n0 - k0 - (n - k) - 1)) in Heq by lia.
      change (10 ^ 1) with 10 in Heq.
      pose proof (pow10_pos (n0 - k0 - (n - k) - 1) ltac:(lia)) as Hc.
      set (c := 10 ^ (n0 - k0 - (n - k) - 1)) in *. clearbody c.
      assert (10 ^ k <= 10 ^ k0) by (apply Z.pow_le_mono_r; lia).
      nia.
  - exfalso.
    pose proof (short_decimals_agree m e d q K Hvalid Hnormal Hbelow Hq Hexact HK
                  s0 (n0 - k0) s (n - k) Hs0b ltac:(lia) ltac:(lia) Hrounds Hof) as Heq.
    replace (n - k - (n0 - k0)) with (1 + (n - k - (n0 - k0) - 1)) in Heq by lia.
    rewrite (pow10_split 1 (n - k - (n0 - k0) - 1)) in Heq by lia.
    change (10 ^ 1) with 10 in Heq.
    apply Hstripped. rewrite Heq.
    replace (s * (10 * 10 ^ (n - k - (n0 - k0) - 1)))
      with (s * 10 ^ (n - k - (n0 - k0) - 1) * 10) by ring.
    apply Z.mod_mul. lia.
Qed.

Lemma shortest_finds (fuel : nat) (k1 : Z) :
  1 <= k1 <= k0 -> (k0 - k1 < Z.of_nat fuel) ->
  shortest (S754_finite false m e) d q K fuel k1 = Some (n0, k0, s0).
Proof using All.
  revert k1. induction fuel as [|fuel IH]; intros k1 Hk1 Hfuel; [lia|].
  cbn [shortest].
  destruct (candidates (S754_finite false m e) d q K k1) as [|c cs] eqn:Hcs.
  - cbn. destruct (Z.eq_dec k1 k0) as [->|Hne].
    + pose proof target_in_candidates as Hin. rewrite Hcs in Hin. destruct Hin.
    + apply IH; lia.
  - destruct (closest_some d q k1 c cs) as [[s n] Hr]. rewrite Hr.
    unfold closest in Hr. apply closest_in in Hr.
    destruct Hr as [Hr|Hr]; [discriminate|]. rewrite <- Hcs in Hr.
    destruct (candidate_is_target k1 s n Hk1 Hr) as (-> & -> & ->). reflexivity.
Qed.

End ShortestDigits.

Section ShortestDigitsOf.
Local Open Scope Z_scope.
Import JSString Builtins.

(** The digits that Number::toString prints are those of a decimal of at
    most 15 digits, not ending in 0, that rounds to the number. *)
Lemma shortest_digits_of_short_decimal (m : positive) (e s0 n0 k0 : Z) :
  Number.valid (S754_finite false m e) = true ->
  2 ^ 52 <= Zpos m -> e < 971 ->
  1 <= k0 <= 15 -> 10 ^ (k0 - 1) <= s0 < 10 ^ k0 -> s0 mod 10 <> 0 ->
  Number.of_decimal false s0 (n0 - k0) = S754_finite false m e ->
  shortest_digits m e = (n0, k0, s0).
Proof.
  intros Hv Hnormal He Hk0 Hs0 Hstripped Hrounds.
  unfold shortest_digits.
  destruct (exact_units m e Hv) as (Hq & Hd & Hexact).
  destruct (Number.exact_decimal m e) as [d q]. cbn [fst snd] in *.
  destruct (digits_of_Z_spec d ltac:(lia)) as (_ & _ & HK1 & Hup & Hlow).
  specialize (Hlow Hd).
  assert (HK : 10 ^ (ndigits d - 1) <= d < 10 ^ ndigits d) by lia.
  destruct (target_position m e d q (ndigits d) Hv Hnormal He Hq Hexact HK
              s0 n0 k0 Hk0 Hs0 Hstripped Hrounds) as [HkK _].
  rewrite (shortest_finds m e d q (ndigits d) Hv Hnormal He Hq Hexact HK
             s0 n0 k0 Hk0 Hs0 Hstripped Hrounds); [reflexivity|lia|].
  rewrite Z2Nat.id by lia. lia.
Qed.

End ShortestDigitsOf.

(** ** The number nearest to a rounding to six decimals *)

Section SixDecimalNumbers.
Local Open Scope Z_scope.
Import JSString Builtins.

(** The decimal [n / 10^6], for [1 <= n < 10^15], rounds to a normal
    number. *)
Lemma millionths_normal (n : Z) :
  1 <= n < 10 ^ 15 ->
  exists m e,
    Number.of_decimal false n (-6) = S754_finite false m e
    /\ Number.valid (S754_finite false m e) = true
    /\ 2 ^ 52 <= Zpos m /\ e < 971.
Proof.
  intros Hn. unfold Number.of_decimal.
  destruct (Z.leb_spec n 0) as [|_]; [lia|].
  change (0 <=? -6) with false. cbv iota. change (- -6) with 6.
  pose proof (of_fraction_spec false n (10 ^ 6) ltac:(lia) ltac:(reflexivity)) as Hspec.
  assert (Hlow : Number.valid (S754_finite false (Z.to_pos (2 ^ 52)) (-72)) = true)
    by reflexivity.
  assert (Hhigh : Number.valid (S754_finite false (Z.to_pos (2 ^ 52)) (-22)) = true)
    by reflexivity.
  assert (Hulow : units (Z.to_pos (2 ^ 52)) (-72) * 2 ^ 20 = 2 ^ 1074).
  { unfold units. change (Zpos (Z.to_pos (2 ^ 52))) with (2 ^ 52).
    rewrite <- !pow2_split by lia. reflexivity. }
  assert (Huhigh : units (Z.to_pos (2 ^ 52)) (-22) = 2 ^ 30 * 2 ^ 1074).
  { unfold units. change (Zpos (Z.to_pos (2 ^ 52))) with (2 ^ 52).
    rewrite <- !pow2_split by lia. reflexivity. }
  pose proof pow2_1074_pos as HT.
  change (10 ^ 15) with 1000000000000000 in Hn.
  destruct (Number.of_fraction false n (10 ^ 6)) as [s|s| |s m e].
  - exfalso. destruct Hspec as [_ Hz]. specialize (Hz _ _ Hlow).
    change (10 ^ 6) with 1000000 in Hz. change (2 ^ 20) with 1048576 in Hulow.
    set (y := units (Z.to_pos (2 ^ 52)) (-72)) in *. set (T := 2 ^ 1074) in *.
    clearbody y T.
    assert (1 * T <= n * T) by (apply Z.mul_le_mono_nonneg_r; lia).
    lia.
  - exfalso. destruct Hspec as [_ Hinf].
    assert (Hbig : 10 ^ 15 < (2 ^ 1024 - 2 ^ 970) * 10 ^ 6) by reflexivity.
    change (10 ^ 15) with 1000000000000000 in Hbig.
    set (Q := (2 ^ 1024 - 2 ^ 970) * 10 ^ 6) in *. clearbody Q. lia.
  - contradiction.
  - destruct Hspec as (-> & Hv & Hnear). exists m, e.
    pose proof (Hnear _ _ Hlow) as Hn1. pose proof (Hnear _ _ Hhigh) as Hn2.
    rewrite Huhigh in Hn2.
    pose proof Hv as Hb. apply valid_finite in Hb. unfold Number.emin in Hb.
    destruct Hb as ([He1 He2] & Hm & Hcase).
    change (10 ^ 6) with 1000000 in *. change (2 ^ 20) with 1048576 in Hulow.
    change (2 ^ 30) with 1073741824 in Hn2.
    assert (Hge : units (Z.to_pos (2 ^ 52)) (-72) <= units m e).
    { set (y := units (Z.to_pos (2 ^ 52)) (-72)) in *. set (T := 2 ^ 1074) in *.
      set (X := units m e) in *. clearbody y T X.
      assert (1 * T <= n * T) by (apply Z.mul_le_mono_nonneg_r; lia).
      lia. }
    assert (Hle : units m e <= 2 * (1073741824 * 2 ^ 1074)).
    { set (T := 2 ^ 1074) in *. set (X := units m e) in *. clearbody T X.
      assert (n * T <= 999999999999999 * T) by (apply Z.mul_le_mono_nonneg_r; lia).
      lia. }
    assert (Hnormal : 2 ^ 52 <= Zpos m).
    { destruct Hcase as [->|H]; [|exact H].
      unfold units in Hge. change (-1074 + 1074) with 0 in Hge.
      change (Zpos (Z.to_pos (2 ^ 52))) with (2 ^ 52) in Hge.
      rewrite Z.pow_0_r, Z.mul_1_r in Hge.
      assert (0 < 2 ^ (-72 + 1074)) by (apply pow2_pos; lia).
      assert (2 ^ 52 * 1 <= 2 ^ 52 * 2 ^ (-72 + 1074))
        by (apply Z.mul_le_mono_nonneg_l; lia).
      lia. }
    repeat split; try assumption.
    destruct (Z_lt_ge_dec e 971) as [|Hbig]; [assumption|exfalso].
    unfold units in Hle.
    assert (Hpow : 2 ^ (31 + 1074) < 2 ^ (52 + (e + 1074))).
    { apply Z.pow_lt_mono_r; lia. }
    rewrite (pow2_split 31 1074), (pow2_split 52 (e + 1074)) in Hpow by lia.
    change (2 ^ 31) with 2147483648 in Hpow.
    assert (2 ^ 52 * 2 ^ (e + 1074) <= Zpos m * 2 ^ (e + 1074)).
    { apply Z.mul_le_mono_nonneg_r; [apply Z.pow_nonneg; lia|exact Hnormal]. }
    set (T := 2 ^ 1074) in *. set (G := 2 ^ (e + 1074)) in *.
    set (P := 2 ^ 52 * G) in *. set (X := Zpos m * G) in *. clearbody T G P X. lia.
Qed.

(** A positive integer is its digits before the final zeros, times a
    power of ten. *)
Lemma without_final_zeros (n : Z) :
  0 < n -> exists s t, 0 < s /\ 0 <= t /\ n = s * 10 ^ t /\ s mod 10 <> 0.
Proof.
  assert (H : forall (k : nat) n, 0 < n <= Z.of_nat k ->
                exists s t, 0 < s /\ 0 <= t /\ n = s * 10 ^ t /\ s mod 10 <> 0).
  { induction k as [|k IH]; intros x Hx; [lia|].
    destruct (Z.eq_dec (x mod 10) 0) as [Hz|Hnz].
    - pose proof (Z.div_mod x 10 ltac:(lia)) as Hdm. rewrite Hz, Z.add_0_r in Hdm.
      destruct (IH (x / 10) ltac:(lia)) as (s & t & Hs & Ht & Heq & Hmod).
      exists s, (t + 1). repeat split; try lia.
      rewrite (pow10_split t 1) by lia. change (10 ^ 1) with 10. lia.
    - exists x, 0. rewrite Z.pow_0_r. repeat split; try lia. }
  intros Hn. apply (H (Z.to_nat n)). lia.
Qed.

(** Digits are determined by their number and their value. *)
Lemma code_inj (c c' : ascii) : code c = code c' -> c = c'.
Proof.
  unfold code. intros H. apply N2Z.inj in H.
  rewrite <- (ascii_N_embedding c), <- (ascii_N_embedding c'), H. reflexivity.
Qed.

Lemma digits_value_bound (l : list ascii) :
  forallb is_digit l = true -> 0 <= digits_value l 0 < 10 ^ length l.
Proof.
  induction l as [|c l IH] using rev_ind; intros Hd; [cbn; lia|].
  rewrite forallb_app in Hd. apply andb_prop in Hd. destruct Hd as [Hl Hc].
  cbn [forallb] in Hc. rewrite andb_true_r in Hc.
  specialize (IH Hl). rewrite digits_value_app. cbn [digits_value].
  unfold is_digit in Hc. apply andb_prop in Hc. destruct Hc as [H1 H2].
  apply Z.leb_le in H1, H2.
  unfold length in *. rewrite length_app, Nat2Z.inj_add. cbn [List.length].
  rewrite (pow10_split (Z.of_nat (List.length l)) (Z.of_nat 1)) by lia.
  change (10 ^ Z.of_nat 1) with 10. lia.
Qed.

Lemma digits_unique (l l' : list ascii) :
  forallb is_digit l = true -> forallb is_digit l' = true ->
  List.length l = List.length l' ->
  digits_value l 0 = digits_value l' 0 -> l = l'.
Proof.
  revert l'. induction l as [|c l IH] using rev_ind; intros l' Hd Hd' Hlen Hval.
  - destruct l'; [reflexivity|discriminate].
  - destruct l' as [|c0 l0] using rev_ind; [rewrite length_app in Hlen; cbn in Hlen; lia|].
    clear IHl0.
    rewrite forallb_app in Hd, Hd'. apply andb_prop in Hd, Hd'.
    destruct Hd as [Hl Hc]. destruct Hd' as [Hl0 Hc0].
    cbn [forallb] in Hc, Hc0. rewrite andb_true_r in Hc, Hc0.
    rewrite !length_app in Hlen. cbn [List.length] in Hlen.
    rewrite !digits_value_app in Hval. cbn [digits_value] in Hval.
    unfold is_digit in Hc, Hc0. apply andb_prop in Hc, Hc0.
    destruct Hc as [H1 H2]. destruct Hc0 as [H3 H4].
    apply Z.leb_le in H1, H2, H3, H4.
    assert (code c = code c0) by lia.
    assert (digits_value l 0 = digits_value l0 0) by lia.
    f_equal; [apply IH; try assumption; lia|f_equal; apply code_inj; assumption].
Qed.

Lemma digits_of_Z_unique (l : list ascii) (z k : Z) :
  forallb is_digit l = true -> digits_value l 0 = z -> length l = k ->
  1 <= k -> 10 ^ (k - 1) <= z ->
  digits_of_Z z = l.
Proof.
  intros Hd Hv Hlen Hk Hz.
  pose proof (digits_value_bound l Hd) as Hb. rewrite Hv, Hlen in Hb.
  pose proof (pow10_pos (k - 1) ltac:(lia)).
  destruct (digits_of_Z_spec z ltac:(lia)) as (Hd' & Hv' & _).
  pose proof (ndigits_unique k z Hk ltac:(lia)) as Hn.
  apply digits_unique; try assumption; [|lia].
  unfold ndigits, length in *. lia.
Qed.

Lemma digits_with_zeros (s t : Z) :
  0 < s -> 0 <= t ->
  digits_of_Z (s * 10 ^ t) = (digits_of_Z s ++ zeros t)%list.
Proof.
  intros Hs Ht.
  destruct (digits_of_Z_spec s ltac:(lia)) as (Hd & Hv & Hk & Hup & Hlow).
  specialize (Hlow Hs).
  destruct (zeros_spec t) as (Hzd & Hzl & Hzv).
  rewrite Z.max_r in Hzl, Hzv by lia.
  pose proof (pow10_pos t Ht).
  apply (digits_of_Z_unique _ _ (ndigits s + t)).
  - rewrite forallb_app, Hd, Hzd. reflexivity.
  - rewrite digits_value_app, Hzv, Hv. reflexivity.
  - unfold length in *. rewrite length_app, Nat2Z.inj_add. unfold ndigits, length. lia.
  - lia.
  - replace (ndigits s + t - 1) with (ndigits s - 1 + t) by lia.
    rewrite (pow10_split (ndigits s - 1) t) by lia.
    apply Z.mul_le_mono_nonneg_r; lia.
Qed.

(** The last digit of a number that does not end in 0 is not "0". *)
Lemma last_digit (s : Z) :
  0 < s -> s mod 10 <> 0 ->
  exists init c,
    digits_of_Z s = (init ++ [c])%list /\ is_digit c = true /\ code c <> 48.
Proof.
  intros Hs Hmod.
  destruct (digits_of_Z_spec s ltac:(lia)) as (Hd & Hv & Hk & _).
  unfold ndigits, length in Hk.
  destruct (digits_of_Z s) as [|c0 l0] using rev_ind; [cbn in Hk; lia|].
  clear IHl0. exists l0, c0.
  rewrite forallb_app in Hd. apply andb_prop in Hd. destruct Hd as [Hl Hc].
  cbn [forallb] in Hc. rewrite andb_true_r in Hc.
  rewrite digits_value_app in Hv. cbn [digits_value] in Hv.
  repeat split; [exact Hc|].
  intros H48. apply Hmod. rewrite <- Hv, H48.
  replace (10 * digits_value l0 0 + (48 - 48)) with (digits_value l0 0 * 10) by lia.
  apply Z.mod_mul. lia.
Qed.

End SixDecimalNumbers.

(** ** The rendering with six decimals, without its final zeros *)

Section Stripping.
Local Open Scope Z_scope.
Import JSString Builtins.

Lemma rev_zeros (j : Z) : rev (zeros j) = zeros j.
Proof.
  unfold zeros. induction (Z.to_nat j) as [|k IH]; [reflexivity|].
  cbn [repeat rev]. rewrite IH. symmetry. apply repeat_cons.
Qed.

Lemma zeros_add (a b : Z) : 0 <= a -> 0 <= b -> zeros (a + b) = (zeros a ++ zeros b)%list.
Proof.
  intros Ha Hb. unfold zeros. rewrite Z2Nat.inj_add by lia. apply repeat_app.
Qed.

Lemma zeros_length (j : Z) : 0 <= j -> List.length (zeros j) = Z.to_nat j.
Proof. intros. unfold zeros. apply repeat_length. Qed.

Lemma without_zeros_zeros (j : Z) (c : ascii) (l : list ascii) :
  Ascii.eqb c "0" = false ->
  without_zeros (zeros j ++ c :: l) = if Ascii.eqb c "." then l else c :: l.
Proof.
  intros Hc. unfold zeros. induction (Z.to_nat j) as [|k IH]; cbn [repeat app without_zeros].
  - rewrite Hc. reflexivity.
  - exact IH.
Qed.

Lemma not_zero_char (c : ascii) : code c <> 48 -> Ascii.eqb c "0" = false.
Proof.
  intros H. apply Ascii.eqb_neq. intros ->. apply H. reflexivity.
Qed.

Lemma not_point_char (c : ascii) : is_digit c = true -> Ascii.eqb c "." = false.
Proof.
  intros H. apply Ascii.eqb_neq. intros ->. discriminate.
Qed.

(** Stripping removes the zeros that a fraction ends in, and the point
    when nothing else is left of the fraction. *)
Lemma strip_fraction (A F : list ascii) (j : Z) :
  (F = [] \/ exists init c, F = (init ++ [c])%list /\ is_digit c = true /\ code c <> 48) ->
  rev (without_zeros (rev (A ++ chars "." ++ F ++ zeros j)))
  = match F with [] => A | _ => (A ++ chars "." ++ F)%list end.
Proof.
  intros HF.
  assert (Hrev : forall F', rev (A ++ chars "." ++ F' ++ zeros j)
                 = (zeros j ++ rev F' ++ "."%char :: rev A)%list).
  { intros F'. rewrite !rev_app_distr, rev_zeros. cbn [chars list_ascii_of_string rev app].
    rewrite <- !app_assoc. reflexivity. }
  rewrite Hrev.
  destruct HF as [->|(init & c & -> & Hd & Hc)].
  - cbn [rev app]. rewrite without_zeros_zeros by reflexivity. cbn.
    apply rev_involutive.
  - rewrite rev_app_distr. cbn [rev app].
    rewrite without_zeros_zeros by (apply not_zero_char; exact Hc).
    rewrite (not_point_char c Hd).
    cbn [rev]. rewrite !rev_app_distr, !rev_involutive. cbn [rev app].
    rewrite <- !app_assoc. cbn [app chars list_ascii_of_string].
    destruct init; cbn [app]; rewrite ?rev_involutive; reflexivity.
Qed.

Lemma take_app_le (n : Z) (l l' : list ascii) :
  0 <= n <= length l -> take n (l ++ l') = take n l.
Proof.
  intros Hn. unfold take, length in *. rewrite firstn_app.
  replace (Z.to_nat n - List.length l)%nat with 0%nat by lia.
  cbn. apply app_nil_r.
Qed.

Lemma drop_app_le (n : Z) (l l' : list ascii) :
  0 <= n <= length l -> drop n (l ++ l') = (drop n l ++ l')%list.
Proof.
  intros Hn. unfold drop, length in *. rewrite skipn_app.
  replace (Z.to_nat n - List.length l)%nat with 0%nat by lia. reflexivity.
Qed.

Lemma firstn_zeros (a b : nat) :
  firstn a (repeat "0"%char b) = repeat "0"%char (Nat.min a b).
Proof.
  revert b. induction a as [|a IH]; intros [|b]; cbn; try reflexivity.
  f_equal. apply IH.
Qed.

Lemma skipn_zeros (a b : nat) :
  skipn a (repeat "0"%char b) = repeat "0"%char (b - a).
Proof.
  revert b. induction a as [|a IH]; intros [|b]; cbn; try reflexivity.
  apply IH.
Qed.

Lemma take_all_and (n : Z) (l : list ascii) (j : Z) :
  length l <= n -> 0 <= j -> n - length l <= j ->
  take n (l ++ zeros j) = (l ++ zeros (n - length l))%list.
Proof.
  intros Hn Hj Hle. unfold take, length in *. rewrite firstn_app.
  rewrite firstn_all2 by lia. f_equal.
  unfold zeros. rewrite firstn_zeros. f_equal. lia.
Qed.

Lemma drop_all_and (n : Z) (l : list ascii) (j : Z) :
  length l <= n -> 0 <= j -> n - length l <= j ->
  drop n (l ++ zeros j) = zeros (j - (n - length l)).
Proof.
  intros Hn Hj Hle. unfold drop, length in *. rewrite skipn_app.
  rewrite skipn_all2 by lia. cbn [app].
  unfold zeros. rewrite skipn_zeros. f_equal. lia.
Qed.

(** The digits of [s0 * 10^t] with a point before the last six, without
    the zeros at the end, are what Number::toString renders for the digits
    [s0] and the exponent they have in millionths. *)
Lemma render_stripped (pre : list ascii) (s0 t : Z) :
  0 < s0 -> s0 mod 10 <> 0 -> 0 <= t -> ndigits s0 + t <= 27 ->
  rev (without_zeros (rev (pre ++ with_point (digits_of_Z (s0 * 10 ^ t)) 6)))
  = (pre ++ render (ndigits s0 + t - 6) (ndigits s0) s0)%list.
Proof.
  intros Hs Hmod Ht Hshort.
  destruct (last_digit s0 Hs Hmod) as (init & c & HD & Hd & Hc).
  rewrite (digits_with_zeros s0 t Hs Ht).
  destruct (digits_of_Z_spec s0 ltac:(lia)) as (_ & _ & Hk & _).
  unfold render, with_point. change (6 =? 0) with false. cbv iota.
  set (D0 := digits_of_Z s0) in *.
  assert (HlenD : length D0 = ndigits s0) by reflexivity.
  set (k0 := ndigits s0) in *. clearbody k0 D0.
  assert (Hlen : length (D0 ++ zeros t) = k0 + t).
  { unfold length in *. rewrite length_app, zeros_length by lia. lia. }
  rewrite Hlen.
  assert (Hrange : (-5 <=? k0 + t - 6) && (k0 + t - 6 <=? 21) = true).
  { apply andb_true_intro. split; apply Z.leb_le; lia. }
  rewrite Hrange.
  destruct (Z.leb_spec (k0 + t) 6) as [Hsmall|Hlarge].
  - (* 0.000ddd *)
    assert (Hlen' : length (zeros (6 + 1 - (k0 + t)) ++ D0 ++ zeros t) = 7).
    { unfold length in *. rewrite !length_app, !zeros_length by lia. lia. }
    rewrite Hlen'. change (7 - 6) with 1.
    replace (6 + 1 - (k0 + t)) with (1 + (6 - k0 - t)) by lia.
    rewrite zeros_add by lia. change (zeros 1) with ["0"%char].
    cbn [app]. unfold take, drop. change (Z.to_nat 1) with 1%nat.
    cbn [firstn skipn app].
    destruct (Z.leb_spec k0 (k0 + t - 6)) as [|_]; [lia|].
    destruct (Z.ltb_spec 0 (k0 + t - 6)) as [|_]; [lia|].
    replace (- (k0 + t - 6)) with (6 - k0 - t) by lia.
    pose proof (strip_fraction (pre ++ ["0"%char]) (zeros (6 - k0 - t) ++ D0) t) as Hstrip.
    rewrite <- !app_assoc in Hstrip. cbn [app chars list_ascii_of_string] in Hstrip |- *.
    rewrite Hstrip.
    + rewrite HD. destruct (zeros (6 - k0 - t)); destruct init; reflexivity.
    + right. exists (zeros (6 - k0 - t) ++ init)%list, c.
      rewrite HD, app_assoc. repeat split; assumption.
  - rewrite !Hlen.
    destruct (Z.leb_spec k0 (k0 + t - 6)) as [Hint|Hfrac].
    + (* ddd000.000000 *)
      rewrite take_all_and, drop_all_and by lia.
      rewrite HlenD.
      replace (t - (k0 + t - 6 - k0)) with 6 by lia.
      replace (k0 + t - 6 - k0) with (t - 6) by lia.
      pose proof (strip_fraction (pre ++ D0 ++ zeros (t - 6)) [] 6 (or_introl eq_refl)) as Hstrip.
      rewrite <- !app_assoc in Hstrip. cbn [app] in Hstrip.
      rewrite <- !app_assoc. rewrite Hstrip. reflexivity.
    + (* dd.ddd000 *)
      destruct (Z.ltb_spec 0 (k0 + t - 6)) as [_|]; [|lia].
      rewrite take_app_le, drop_app_le by lia.
      pose proof (strip_fraction (pre ++ take (k0 + t - 6) D0) (drop (k0 + t - 6) D0) t) as Hstrip.
      rewrite <- !app_assoc in Hstrip. rewrite <- ?app_assoc.
      rewrite Hstrip.
      * destruct (drop (k0 + t - 6) D0) eqn:Hdrop; [|reflexivity].
        exfalso. apply (f_equal (@List.length ascii)) in Hdrop.
        unfold drop in Hdrop. rewrite length_skipn in Hdrop.
        unfold length in HlenD. cbn in Hdrop. lia.
      * right. exists (drop (k0 + t - 6) init), c. split; [|split; assumption].
        rewrite HD. apply drop_app_le.
        rewrite HD in HlenD. unfold length in *. rewrite length_app in HlenD.
        cbn in HlenD. lia.
Qed.

Lemma ndigits_short (s0 t bound : Z) :
  0 < s0 -> 0 <= t -> 0 <= bound -> s0 * 10 ^ t < 10 ^ bound ->
  1 <= ndigits s0 /\ ndigits s0 + t <= bound
  /\ 10 ^ (ndigits s0 - 1) <= s0 < 10 ^ ndigits s0.
Proof.
  intros Hs Ht Hb Hlt.
  destruct (digits_of_Z_spec s0 ltac:(lia)) as (_ & _ & Hk & Hup & Hlow).
  specialize (Hlow Hs). repeat split; try lia.
  assert (H : 10 ^ (ndigits s0 - 1 + t) < 10 ^ bound).
  { rewrite pow10_split by lia. pose proof (pow10_pos t Ht).
    apply Z.le_lt_trans with (s0 * 10 ^ t); [|exact Hlt].
    apply Z.mul_le_mono_nonneg_r; lia. }
  apply pow10_lt_inv in H; lia.
Qed.

End Stripping.

(** ** Where the output is the rounding to six decimals without its zeros *)

Section RoundedAndStripped.
Local Open Scope Z_scope.
Import JSString Builtins StickyNoteCalculator.

Lemma includes_point (A B : list ascii) :
  includes_list (A ++ chars "." ++ B) (chars ".") = true.
Proof.
  induction A as [|a A IH].
  - reflexivity.
  - cbn [app includes_list]. destruct (starts_with _ _); [reflexivity|exact IH].
Qed.

(** A number that is not an integer and whose rounding to six decimals
    has at most fifteen digits is printed as that rounding without the
    zeros it ends in; a negative number that rounds to -0.000000 is left
    out, it is printed as 0. *)
Lemma formatResult_rounds_and_strips (s : bool) (m : positive) (e : Z) :
  Number.valid (S754_finite s m e) = true ->
  Number.isInteger (S754_finite s m e) = false ->
  fixed_digits m e 6 < 10 ^ 15 ->
  s = false \/ 1 <= fixed_digits m e 6 ->
  formatResult (S754_finite s m e) = rounded_and_stripped (S754_finite s m e).
Proof.
  intros Hv Hint Hshort Hsign.
  rewrite (formatResult_six_decimals _ Hv). unfold six_decimals. rewrite Hint.
  pose proof Hv as Hb. apply valid_finite in Hb. unfold Number.emin in Hb.
  destruct Hb as (_ & Hm & _).
  cbn [Number.isInteger] in Hint. apply orb_false_iff in Hint. destruct Hint as [He _].
  apply Z.leb_gt in He.
  assert (Hn : 0 <= fixed_digits m e 6).
  { unfold fixed_digits, Number.magnitude. destruct (Z.leb_spec 0 e); [lia|].
    assert (0 < 2 ^ (- e)) by (apply Z.pow_pos_nonneg; lia).
    apply Z.div_pos; nia. }
  assert (H21 : (10 ^ 21 * 2 ^ (- e) <=? Zpos m) = false).
  { apply Z.leb_gt. assert (1 <= 2 ^ (- e)) by (apply Z.lt_pred_le, Z.pow_pos_nonneg; lia).
    assert (2 ^ 53 < 10 ^ 21) by reflexivity. nia. }
  assert (Hfixed : toFixed (S754_finite s m e) 6
                   = string_of_list_ascii
                       (sign_chars s ++ with_point (digits_of_Z (fixed_digits m e 6)) 6)).
  { unfold toFixed, toFixed_chars, Number.magnitude.
    destruct (Z.leb_spec 0 e) as [|_]; [lia|]. rewrite H21. reflexivity. }
  unfold rounded_and_stripped, strip_trailing_zeros. rewrite Hfixed. clear Hfixed H21.
  set (n6 := fixed_digits m e 6) in *. clearbody n6.
  assert (Hinc : includes (string_of_list_ascii (sign_chars s ++ with_point (digits_of_Z n6) 6)) "."
                 = true).
  { unfold includes. rewrite list_ascii_of_string_of_list_ascii.
    unfold with_point. change (6 =? 0) with false. cbv iota zeta.
    rewrite app_assoc. apply includes_point. }
  rewrite Hinc. unfold chars at 1. rewrite list_ascii_of_string_of_list_ascii.
  destruct (Z.eq_dec n6 0) as [->|Hnz].
  - destruct Hsign as [->|]; [|lia]. vm_compute. reflexivity.
  - destruct (without_final_zeros n6 ltac:(lia)) as (s0 & t & Hs0 & Ht & -> & Hmod).
    destruct (ndigits_short s0 t 15 Hs0 Ht ltac:(lia) Hshort) as (Hk1 & Hk15 & Hrange).
    rewrite render_stripped by (assumption || lia).
    destruct (millionths_normal (s0 * 10 ^ t) ltac:(lia)) as (m' & e' & Hdec & Hv' & Hm' & He').
    rewrite of_decimal_sign, Hdec. cbn [with_sign].
    unfold toString, toString_chars.
    rewrite (shortest_digits_of_short_decimal m' e' s0 (ndigits s0 + t - 6) (ndigits s0));
      try assumption; try lia.
    + cbv iota beta. reflexivity.
    + rewrite <- Hdec, of_decimal_zeros by lia. f_equal. lia.
Qed.

End RoundedAndStripped.

(** ** The rendering of an integer *)

Section IntegerRendering.
Local Open Scope Z_scope.
Import JSString Builtins StickyNoteCalculator.

(** The search of step 5 stops at the first length that has a candidate. *)
Lemma shortest_at_most (x : Number.number) (d q K : Z) (fuel : nat) (k1 k' : Z) :
  k1 <= k' -> k' - k1 < Z.of_nat fuel ->
  candidates x d q K k' <> [] ->
  exists n k s, shortest x d q K fuel k1 = Some (n, k, s) /\ k1 <= k <= k'.
Proof.
  revert k1. induction fuel as [|fuel IH]; intros k1 Hk1 Hfuel Hcs; [lia|].
  cbn [shortest].
  destruct (candidates x d q K k1) as [|c cs] eqn:Hk.
  - cbn. destruct (Z.eq_dec k1 k') as [->|Hne]; [contradiction|].
    destruct (IH (k1 + 1) ltac:(lia) ltac:(lia) Hcs) as (n & k & s & Hs & Hr).
    exists n, k, s. split; [exact Hs|lia].
  - destruct (closest_some d q k1 c cs) as [[s n] Hr]. rewrite Hr.
    exists n, k1, s. split; [reflexivity|lia].
Qed.

(** The integer that an integer number is, in the terms of step 5. *)
Lemma integer_value (m : positive) (e : Z) :
  Number.valid (S754_finite false m e) = true ->
  Number.isInteger (S754_finite false m e) = true ->
  exists V,
    0 < V
    /\ units m e = V * 2 ^ 1074
    /\ snd (Number.exact_decimal m e) <= 0
    /\ fst (Number.exact_decimal m e) = V * 10 ^ (- snd (Number.exact_decimal m e))
    /\ fst (Number.magnitude m e) = V * snd (Number.magnitude m e)
    /\ 0 < snd (Number.magnitude m e).
Proof.
  intros Hv Hint. apply valid_finite in Hv. unfold Number.emin in Hv.
  destruct Hv as (He & _).
  unfold Number.exact_decimal, Number.magnitude, units.
  cbn [Number.isInteger] in Hint.
  destruct (Z.leb_spec 0 e) as [Hpos|Hneg]; cbn [fst snd].
  - exists (Zpos m * 2 ^ e). pose proof (pow2_pos e Hpos).
    split; [apply Z.mul_pos_pos; lia|].
    split; [rewrite pow2_split by lia; ring|].
    split; [lia|].
    split; [cbn; ring|].
    split; [ring|lia].
  - cbn [orb] in Hint. apply Z.eqb_eq in Hint.
    assert (H2 : 0 < 2 ^ (- e)) by (apply pow2_pos; lia).
    apply Z.div_exact in Hint; [|lia].
    set (V := Zpos m / 2 ^ (- e)) in *.
    exists V.
    assert (HV : 0 < V).
    { assert (0 < 2 ^ (- e) * V) by lia.
      destruct (Z_lt_le_dec 0 V) as [|Hle]; [assumption|].
      exfalso. clearbody V. hide_powers. nia. }
    split; [exact HV|].
    split.
    { rewrite Hint.
      assert (Hsplit : 2 ^ 1074 = 2 ^ (e + 1074) * 2 ^ (- e)).
      { rewrite <- pow2_split by lia. f_equal. lia. }
      rewrite Hsplit. ring. }
    split; [lia|].
    split.
    { rewrite Hint at 1. replace 10 with (2 * 5) by reflexivity.
      rewrite Z.pow_mul_l. ring. }
    split; [rewrite Hint at 1; ring|exact H2].
Qed.

(** 10^21 is a number. *)
Lemma ten_to_21 :
  Number.valid (S754_finite false 7629394531250000 17) = true
  /\ units 7629394531250000 17 = 10 ^ 21 * 2 ^ 1074.
Proof.
  split; [reflexivity|]. unfold units.
  replace (17 + 1074) with (17 + 1074) by reflexivity.
  rewrite (pow2_split 17 1074) by lia. rewrite Z.mul_assoc. f_equal.
Qed.

(** No decimal from 10^21 on rounds to a number below 10^21. *)
Lemma rounds_below_10_21 (s p V : Z) (m : positive) (e : Z) :
  0 < s -> 0 <= p -> 10 ^ 21 <= s * 10 ^ p ->
  units m e = V * 2 ^ 1074 ->
  Number.of_decimal false s p = S754_finite false m e ->
  10 ^ 21 <= V.
Proof.
  intros Hs Hp Hlarge Hunits Hof. unfold Number.of_decimal in Hof.
  destruct (Z.leb_spec s 0) as [|_]; [lia|].
  destruct (Z.leb_spec 0 p) as [_|]; [|lia].
  pose proof (pow10_pos p Hp) as H10.
  pose proof (of_fraction_spec false (s * 10 ^ p) 1 ltac:(nia) ltac:(lia)) as Hspec.
  rewrite Hof in Hspec. destruct Hspec as (_ & _ & Hnear).
  destruct ten_to_21 as [Hv21 Hu21].
  specialize (Hnear _ _ Hv21). rewrite Hu21, Hunits in Hnear.
  pose proof pow2_1074_pos as HT.
  set (c := s * 10 ^ p) in *. set (T := 2 ^ 1074) in *. clearbody c T.
  change (10 ^ 21) with 1000000000000000000000 in *.
  rewrite !Z.mul_1_r in Hnear.
  replace (V * T - c * T) with ((V - c) * T) in Hnear by ring.
  replace (1000000000000000000000 * T - c * T)
    with ((1000000000000000000000 - c) * T) in Hnear by ring.
  rewrite !Z.abs_mul, (Z.abs_eq T) in Hnear by lia.
  apply Z.mul_le_mono_pos_r in Hnear; [|exact HT].
  lia.
Qed.

Lemma digit_not_minus (c : ascii) : is_digit c = true -> Ascii.eqb c "-" = false.
Proof.
  intros H. apply Ascii.eqb_neq. intros ->. discriminate.
Qed.

(** An integer below 10^21 is printed as digits, after a minus sign when
    it is negative. *)
Lemma integer_rendering (v : Number.number) :
  Number.valid v = true ->
  Number.isInteger v = true -> below (10 ^ 21) v = true ->
  no_fractional_part (toString v) = true.
Proof.
  intros Hv Hint Hbelow.
  destruct v as [s|s| |s m e]; [reflexivity|discriminate|discriminate|].
  rewrite (valid_sign s false) in Hv.
  assert (Hint' : Number.isInteger (S754_finite false m e) = true) by exact Hint.
  destruct (integer_value m e Hv Hint') as (V & HV & Hunits & Hq & Hd & Hmag & Hden).
  cbn [below] in Hbelow.
  assert (HV21 : V < 10 ^ 21).
  { destruct (Number.magnitude m e) as [num den]. cbn [fst snd] in *.
    apply Z.ltb_lt in Hbelow. subst num.
    change (10 ^ 21) with 1000000000000000000000 in *.
    clear - Hbelow Hden. hide_powers. nia. }
  clear Hbelow Hmag Hden Hint Hint'.
  unfold toString, toString_chars, shortest_digits.
  destruct (Number.exact_decimal m e) as [d q]. cbn [fst snd] in *.
  destruct (ndigits_short V 0 21 HV ltac:(lia) ltac:(lia)
              ltac:(rewrite Z.pow_0_r, Z.mul_1_r; exact HV21)) as (Hn1 & Hn21 & Hrange).
  set (nV := ndigits V) in *.
  assert (HK : ndigits d = nV - q).
  { subst d. unfold ndigits at 1. rewrite digits_with_zeros by lia.
    unfold length. rewrite length_app, zeros_length by lia.
    unfold nV, ndigits, length. lia. }
  rewrite HK.
  assert (Hexact : Number.of_decimal false V 0 = S754_finite false m e).
  { unfold Number.of_decimal. destruct (Z.leb_spec V 0) as [|_]; [lia|].
    cbn [Z.leb]. rewrite Z.pow_0_r, Z.mul_1_r.
    apply of_fraction_exact; [lia|lia|exact Hv|]. rewrite Hunits. ring. }
  assert (Hcand : candidates (S754_finite false m e) d q (nV - q) nV <> []).
  { assert (Hin : In (V, nV) (candidates (S754_finite false m e) d q (nV - q) nV)).
    { unfold candidates. apply in_flat_map. exists 0. split; [left; reflexivity|].
      apply filter_In. cbn [fst snd]. split.
      - left. f_equal; [|lia].
        replace (nV - q - nV + 0) with (- q) by lia. subst d.
        apply Z.div_mul. pose proof (pow10_pos (- q) ltac:(lia)). lia.
      - replace (nV - q + q + 0 - nV) with 0 by lia. rewrite Hexact.
        rewrite same_number_refl, andb_true_r.
        apply andb_true_intro. split; [apply Z.leb_le|apply Z.ltb_lt]; lia. }
    intros Hnil. rewrite Hnil in Hin. destruct Hin. }
  destruct (shortest_at_most (S754_finite false m e) d q (nV - q) (Z.to_nat (nV - q)) 1 nV
              ltac:(lia) ltac:(rewrite Z2Nat.id by lia; lia) Hcand)
    as (n & k & s' & Hshortest & Hk).
  rewrite Hshortest.
  apply shortest_some in Hshortest. destruct Hshortest as [_ Hin].
  apply candidate_spec in Hin. destruct Hin as (Hs' & Hrounds & Hn).
  assert (Hs'pos : 0 < s').
  { pose proof (pow10_pos (k - 1) ltac:(lia)). lia. }
  assert (Hn' : n <= 21).
  { destruct (Z_le_gt_dec n 21) as [|Hgt]; [assumption|]. exfalso.
    assert (Hlarge : 10 ^ 21 <= s' * 10 ^ (n - k)).
    { replace 21 with (k - 1 + (n - k)) by lia.
      rewrite pow10_split by lia. pose proof (pow10_pos (n - k) ltac:(lia)).
      apply Z.mul_le_mono_nonneg_r; lia. }
    pose proof (rounds_below_10_21 s' (n - k) V m e Hs'pos ltac:(lia) Hlarge Hunits Hrounds).
    lia. }
  unfold render.
  destruct (Z.leb_spec (-5) n) as [_|]; [|lia].
  destruct (Z.leb_spec n 21) as [_|]; [|lia].
  destruct (Z.leb_spec k n) as [_|]; [|lia].
  cbn [andb].
  destruct (digits_of_Z_spec s' ltac:(lia)) as (Hdig & _ & Hlen & _).
  destruct (zeros_spec (n - k)) as (Hzd & _).
  assert (Hall : forallb is_digit (digits_of_Z s' ++ zeros (n - k)) = true)
    by (rewrite forallb_app, Hdig, Hzd; reflexivity).
  unfold no_fractional_part, chars. rewrite list_ascii_of_string_of_list_ascii.
  unfold ndigits, length in Hlen.
  destruct s; cbn [sign_chars chars list_ascii_of_string app].
  - change (Ascii.eqb "-" "-") with true. cbv iota. rewrite Hall. cbn [andb].
    unfold length. rewrite length_app.
    destruct (Z.eqb_spec (Z.of_nat (List.length (digits_of_Z s') + List.length (zeros (n - k)))) 0);
      [lia|reflexivity].
  - destruct (digits_of_Z s' ++ zeros (n - k))%list as [|c l] eqn:Hl.
    + apply (f_equal (@List.length ascii)) in Hl. rewrite length_app in Hl.
      cbn [List.length] in Hl. lia.
    + cbn [forallb] in Hall. pose proof Hall as Hc. apply andb_prop in Hc.
      rewrite (digit_not_minus c (proj1 Hc)). exact Hall.
Qed.

End IntegerRendering.

(** ** The claim about formatResult *)

Section RoundTrip.
Local Open Scope Z_scope.
Import JSString Builtins StickyNoteCalculator.

(** C6 (amended): for every binary64 value [v],
    - when [v] is a mathematical integer of magnitude below 10^21,
      [formatResult v] renders it with no fractional part: the output is
      decimal digits, after a minus sign for a negative [v], and reads back
      as [v];
    - when [v] is not an integer, its rounding to six decimals has at most
      fifteen digits and is not -0.000000, [formatResult v] is that
      rounding without its trailing zeros;
    - formatting is idempotent under round trip:
      format(parse(format(v))) = format(v). *)
Theorem formatResult_round_trip (v : Number.number) :
  Number.valid v = true ->
  (Number.isInteger v = true -> below (10 ^ 21) v = true ->
   no_fractional_part (formatResult v) = true
   /\ getNumericValue (formatResult v) = read_back v)
  /\ (Number.isInteger v = false -> millionths v < 10 ^ 15 ->
      is_negative v = false \/ 1 <= millionths v ->
      formatResult v = rounded_and_stripped v)
  /\ formatResult (getNumericValue (formatResult v)) = formatResult v.
Proof.
  intros Hv. split; [|split].
  - intros Hint Hbelow. unfold formatResult. rewrite Hint. split.
    + apply integer_rendering; assumption.
    + apply toString_reads_back, Hv.
  - intros Hint Hshort Hsign.
    destruct v as [s|s| |s m e]; [discriminate| |reflexivity|].
    + destruct Hsign as [Hs|Hs]; [|cbn in Hs; lia].
      cbn [is_negative] in Hs. subst s. reflexivity.
    + apply formatResult_rounds_and_strips; assumption.
  - apply formatResult_stable, Hv.
Qed.

Lemma formatResult_round_trip_witness :
  (Number.valid three_point_three = true
   /\ Number.isInteger three_point_three = false
   /\ millionths three_point_three < 10 ^ 15
   /\ formatResult three_point_three = rounded_and_stripped three_point_three
   /\ formatResult (getNumericValue (formatResult three_point_three))
      = formatResult three_point_three)
  /\ (Number.valid (getNumericValue "42") = true
      /\ Number.isInteger (getNumericValue "42") = true
      /\ below (10 ^ 21) (getNumericValue "42") = true
      /\ no_fractional_part (formatResult (getNumericValue "42")) = true
      /\ getNumericValue (formatResult (getNumericValue "42")) = getNumericValue "42").
Proof.
  split.
  - split; [vm_compute; reflexivity|].
    split; [vm_compute; reflexivity|].
    split; [vm_compute; reflexivity|].
    split.
    + refine (proj1 (proj2 (formatResult_round_trip three_point_three _)) _ _ _).
      * vm_compute; reflexivity.
      * vm_compute; reflexivity.
      * vm_compute; reflexivity.
      * left. vm_compute; reflexivity.
    + refine (proj2 (proj2 (formatResult_round_trip three_point_three _))).
      vm_compute; reflexivity.
  - split; [vm_compute; reflexivity|].
    split; [vm_compute; reflexivity|].
    split; [vm_compute; reflexivity|].
    refine (proj1 (formatResult_round_trip (getNumericValue "42") _) _ _).
    + vm_compute; reflexivity.
    + vm_compute; reflexivity.
    + vm_compute; reflexivity.
Defined.

(** C6 as worded fails on both branches. The product of 1e150 and 1.5e150
    is an integer, and is printed with a fraction and an exponent. The
    number 2^40 + 2^-12 is not an integer: rounded to six decimals it is
    1099511627776.000244, but the number nearest to that is printed with
    four decimals. And -0.0000001 rounds to -0.000000, which without its
    zeros is -0, but is printed as 0. *)
Example formatResult_beyond_six_decimals :
  (Number.valid huge_product = true
   /\ Number.isInteger huge_product = true
   /\ formatResult huge_product = "1.5e+300"%string
   /\ no_fractional_part (formatResult huge_product) = false)
  /\ (Number.valid fine_grained = true
      /\ Number.isInteger fine_grained = false
      /\ rounded_and_stripped fine_grained = "1099511627776.000244"%string
      /\ formatResult fine_grained = "1099511627776.0002"%string
      /\ formatResult fine_grained <> rounded_and_stripped fine_grained)
  /\ (Number.valid tiny_negative = true
      /\ Number.isInteger tiny_negative = false
      /\ rounded_and_stripped tiny_negative = "-0"%string
      /\ formatResult tiny_negative = "0"%string).
Proof.
  vm_compute. repeat split. intros H. discriminate H.
Qed.

(** Where the six decimals are within the precision of the number, the
    output is the rounding without its trailing zeros: the sum of 1.1 and
    2.2, which is 3.3000000000000003, is printed as 3.3. *)
Example formatResult_of_a_sum :
  toFixed three_point_three 6 = "3.300000"%string
  /\ rounded_and_stripped three_point_three = "3.3"%string
  /\ formatResult three_point_three = "3.3"%string.
Proof.
  vm_compute. repeat split.
Qed.

End RoundTrip.

(** ** Methods in general *)

Section Methods.
Context {W : Type} (h : handler W).
Import StickyNoteCalculator.
Local Open Scope string_scope.
Local Open Scope Z_scope.

Lemma run_bind {A B : Type} (m : method A) (f : A -> method B) (s : state) (w : W) :
  run h (bind m f s) w =
  let '(r, w1, t1) := run h (m s) w in
  match fst r with
  | Normal a =>
      let '(b, w2, t2) := run h (f a (snd r)) w1 in (b, w2, (t1 ++ t2)%list)
  | Throw e => ((Throw e, snd r), w1, t1)
  end.
Proof.
  unfold bind. rewrite (run_async_bind h).
  destruct (run h (m s) w) as [[[c s1] w1] t1]. cbn [fst snd].
  destruct c as [a|e]; [reflexivity|].
  cbn [run]. rewrite app_nil_r. reflexivity.
Qed.

Lemma run_try_catch {A : Type} (m : method A) (f : error -> method A) (s : state) (w : W) :
  run h (try_catch m f s) w =
  let '(r, w1, t1) := run h (m s) w in
  match fst r with
  | Normal a => ((Normal a, snd r), w1, t1)
  | Throw e =>
      let '(b, w2, t2) := run h (f e (snd r)) w1 in (b, w2, (t1 ++ t2)%list)
  end.
Proof.
  unfold try_catch. rewrite (run_async_bind h).
  destruct (run h (m s) w) as [[[c s1] w1] t1]. cbn [fst snd].
  destruct c as [a|e]; [|reflexivity].
  cbn [run]. rewrite app_nil_r. reflexivity.
Qed.

Lemma run_await (r : request) (s : state) (w : W) :
  run h (await r s) w =
  (match fst (h r w) with Resolved x => Normal x | Rejected e => Throw e end,
   s, snd (h r w), [{| asked := r; got := fst (h r w) |}]).
Proof.
  cbn. destruct (h r w) as [[x|e] w1]; reflexivity.
Qed.

End Methods.

(** ** The selection and the panel (lines 37 to 71) *)

Section Panel.
Context {W : Type} (h : handler W).
Import StickyNoteCalculator.
Local Open Scope string_scope.
Local Open Scope Z_scope.

Lemma run_updateUI (s : state) (w : W) :
  exists text,
    let r := RenderSelection text (Nat.ltb (List.length (selectedItems s)) 2) in
    run h (updateUI s) w =
    (match fst (h r w) with Resolved _ => Normal tt | Rejected e => Throw e end,
     s, snd (h r w), [{| asked := r; got := fst (h r w) |}]).
Proof.
  unfold updateUI, bind, get_this, await. cbn [async_bind fst snd].
  exists (let numericCount := Z.of_nat (List.length (selectedItems s)) in
          if (numericCount =? 0)%Z then "Select 2 or more sticky notes with numbers"
          else if (numericCount =? 1)%Z
               then "1 numeric sticky note selected. Select at least 1 more."
               else (Builtins.toString (Number.of_Z numericCount)
                     ++ " numeric sticky notes selected")%string).
  cbv zeta.
  replace (negb (2 <=? Z.of_nat (List.length (selectedItems s))))
    with (Nat.ltb (List.length (selectedItems s)) 2).
  - cbn [run async_bind fst snd]. destruct (h _ w) as [[[]|e] w1]; reflexivity.
  - destruct (Nat.ltb_spec (List.length (selectedItems s)) 2) as [H|H];
      destruct (Z.leb_spec 2 (Z.of_nat (List.length (selectedItems s)))) as [H'|H'];
      try reflexivity; lia.
Qed.

Lemma caught_first (s : state) (w : W) (x : exchange) (tr : list exchange) :
  hd_error (requests_of (creation_caught h s w (x :: tr))) = Some (asked x).
Proof. reflexivity. Qed.

Lemma registers_first (operation : string) (s : state) (note : Item.t) (w : W)
    (x : exchange) (tr : list exchange) :
  hd_error (requests_of (creation_registers h operation s note w (x :: tr)))
  = Some (asked x).
Proof.
  unfold creation_registers, creation_caught.
  repeat match goal with
         | |- context [match fst ?a with Resolved _ => _ | Rejected _ => _ end] =>
             destruct (fst a)
         end; reflexivity.
Qed.

(** X2: the two buttons are disabled exactly when fewer than two numeric notes
    are selected, which is when a calculation is refused: with the buttons
    enabled the first call of [createCalculation] is the creation of the
    note, with the buttons disabled it is the notice to select more. *)
Theorem buttons_follow_the_guard (operation : string) (s : state) (w w' : W) :
  exists text disabled,
    requests_of (run h (updateUI s) w) = [RenderSelection text disabled]
    /\ disabled = Nat.ltb (List.length (selectedItems s)) 2
    /\ hd_error (requests_of (run h (createCalculation operation s) w'))
       = Some (if disabled
               then ShowStatus "Please select at least 2 numeric sticky notes" "error"
               else creation_request operation (selectedItems s)).
Proof.
  destruct (run_updateUI s w) as [text Hrun]. cbv zeta in Hrun.
  exists text, (Nat.ltb (List.length (selectedItems s)) 2).
  split; [rewrite Hrun; reflexivity|]. split; [reflexivity|].
  rewrite (run_createCalculation h).
  replace (Z.of_nat (List.length (selectedItems s)) <? 2)
    with (Nat.ltb (List.length (selectedItems s)) 2).
  - destruct (Nat.ltb (List.length (selectedItems s)) 2); cbv zeta.
    + destruct (fst (h _ w')); [reflexivity|apply caught_first].
    + destruct (fst (h _ w')); [apply registers_first|apply caught_first].
  - destruct (Nat.ltb_spec (List.length (selectedItems s)) 2) as [H|H];
      destruct (Z.ltb_spec (Z.of_nat (List.length (selectedItems s))) 2) as [H'|H'];
      try reflexivity; lia.
Qed.

Lemma numeric_has_value (content : string) :
  isNumeric content = true -> Number.is_nan (getNumericValue content) = false.
Proof.
  unfold isNumeric, getNumericValue. cbv zeta. intros H.
  apply andb_prop in H. destruct H as [H _]. apply andb_prop in H. destruct H as [_ H].
  apply negb_true_iff in H. exact H.
Qed.

(** X1: [updateSelection] never throws and leaves the index alone. When the
    board hands over the selection, the selected items become exactly the
    sticky notes of it with numeric content, in their order, whatever
    happens to the panel afterwards; each of them has a value that is not
    NaN. When the board refuses, the selected items stay as they were and
    the panel is not touched. *)
Theorem updateSelection_keeps_numeric_notes (s : state) (w : W) :
  let o := run h (updateSelection s) w in
  let selected := selectedItems (snd (result_of o)) in
  fst (result_of o) = Normal tt
  /\ calculatorNotes (snd (result_of o)) = calculatorNotes s
  /\ match fst (h GetSelection w) with
     | Resolved selection =>
         selected = filter numeric_sticky_note selection
         /\ Forall (fun item =>
                      Item.type item = "sticky_note"
                      /\ isNumeric (Item.content item) = true
                      /\ Number.is_nan (getNumericValue (Item.content item)) = false)
                   selected
         /\ exists text,
              requests_of o
              = [GetSelection; RenderSelection text (Nat.ltb (List.length selected) 2)]
     | Rejected _ => selected = selectedItems s /\ requests_of o = [GetSelection]
     end.
Proof.
  cbv zeta. unfold updateSelection.
  rewrite (run_try_catch h), (run_bind h), (run_await h). cbn [fst snd].
  destruct (fst (h GetSelection w)) as [selection|e].
  - rewrite (run_bind h).
    change (run h (set_selectedItems ?l s) ?w1)
      with (Normal tt, {| selectedItems := l; calculatorNotes := calculatorNotes s |},
            w1, @nil exchange).
    cbn [fst snd]. fold numeric_sticky_note.
    set (s' := {| selectedItems := _; calculatorNotes := calculatorNotes s |}).
    destruct (run_updateUI s' (snd (h GetSelection w))) as [text Hrun]. cbv zeta in Hrun.
    rewrite Hrun. cbn [fst snd app].
    assert (Hall : Forall (fun item =>
                      Item.type item = "sticky_note"
                      /\ isNumeric (Item.content item) = true
                      /\ Number.is_nan (getNumericValue (Item.content item)) = false)
                   (filter numeric_sticky_note selection)).
    { apply Forall_forall. intros item Hin. apply filter_In in Hin.
      destruct Hin as [_ Hin]. unfold numeric_sticky_note in Hin.
      apply andb_prop in Hin. destruct Hin as [Ht Hn]. apply String.eqb_eq in Ht.
      repeat split; [exact Ht|exact Hn|apply numeric_has_value, Hn]. }
    destruct (fst (h (RenderSelection _ _) _)) as [[]|e]; cbn;
      (repeat split; [exact Hall|exists text; reflexivity]).
  - cbn. repeat split.
Qed.

End Panel.

(** ** Deletion events with several items (lines 168 to 176) *)

Section DeletionEvents.
Context {W : Type} (h : handler W).
Import StickyNoteCalculator.
Local Open Scope string_scope.
Local Open Scope Z_scope.




End DeletionEvents.

(** ** Recomputation in general (lines 187 to 239) *)

Section RecomputeOutcome.
Context {W : Type} (h : handler W).
Import StickyNoteCalculator.
Local Open Scope string_scope.
Local Open Scope Z_scope.

Lemma working_set_fetched (ids : list string) (acc : list Item.t) (w : W) :
  fst (fst (working_set h ids acc w))
  = (acc ++ fetched_items (snd (working_set h ids acc w)))%list.
Proof.
  revert acc w. induction ids as [|id ids IH]; intros acc w; cbn [working_set].
  - cbn. rewrite app_nil_r. reflexivity.
  - cbv zeta.
    specialize (IH (match usable (fst (h (GetItem id) w)) with
                    | Some item => (acc ++ [item])%list
                    | None => acc
                    end) (snd (h (GetItem id) w))).
    destruct (working_set h ids _ _) as [[r w'] tr]. cbn [fst snd] in *.
    rewrite IH. unfold fetched_items at 2. cbn [flat_map fetched asked got].
    fold (fetched_items tr).
    destruct (usable (fst (h (GetItem id) w))); [rewrite <- app_assoc|]; reflexivity.
Qed.

Lemma fetched_items_numeric (tr : list exchange) :
  Forall (fun item => numeric_sticky_note item = true) (fetched_items tr).
Proof.
  apply Forall_forall. intros item Hin. unfold fetched_items in Hin.
  apply in_flat_map in Hin. destruct Hin as (x & _ & Hin).
  destruct x as [r a]. unfold fetched in Hin. cbn [asked got] in Hin.
  destruct r; try contradiction. unfold usable in Hin.
  destruct a as [[i|]|e]; try contradiction.
  fold (numeric_sticky_note i) in Hin.
  destruct (numeric_sticky_note i) eqn:E; [|contradiction].
  destruct Hin as [<-|[]]. exact E.
Qed.




(** X6: when the working set is not empty and the board accepts the write, a
    recomputation changes nothing in the class: it asks for the fetches
    and for the write of the aggregate of the working set. The working
    set is, in the order of the source ids, what the fetches resolved to
    as far as it is a sticky note with numeric content; sources whose
    fetch was rejected, or that are something else now, are left out. *)
Theorem updateCalculatorNote_writes_aggregate
    (id : string) (cd : CalcData.t) (s : state) (w : W) :
  let ws := working_set h (CalcData.sourceIds cd) [] w in
  let items := fst (fst ws) in
  let write := UpdateItem id (Content (new_content cd items)) in
  items <> [] ->
  fst (h write (snd (fst ws))) = Resolved tt ->
  let o := run h (updateCalculatorNote id cd s) w in
  snd (result_of o) = s
  /\ requests_of o = (map GetItem (CalcData.sourceIds cd) ++ [write])%list
  /\ items = fetched_items (firstn (List.length (CalcData.sourceIds cd)) (trace_of o))
  /\ Forall (fun item => numeric_sticky_note item = true) items.
Proof.
  cbv zeta. intros Hne Hok. rewrite (run_updateCalculatorNote h).
  pose proof (working_set_requests h (CalcData.sourceIds cd) [] w) as Hreq.
  pose proof (working_set_fetched (CalcData.sourceIds cd) [] w) as Hfetched.
  destruct (working_set h (CalcData.sourceIds cd) [] w) as [[items w1] tr1].
  cbn [fst snd app] in *.
  destruct items as [|item items]; [contradiction|]. cbv zeta. rewrite Hok.
  unfold requests_of, result_of, trace_of. cbn [fst snd].
  assert (Hlen : List.length (CalcData.sourceIds cd) = List.length tr1).
  { rewrite <- (length_map GetItem), <- Hreq, length_map. reflexivity. }
  rewrite map_app, Hreq, Hlen, firstn_app, firstn_all, Nat.sub_diag. cbn [firstn map].
  rewrite app_nil_r. repeat split; [exact Hfetched|].
  rewrite Hfetched. apply fetched_items_numeric.
Qed.

End RecomputeOutcome.

Section RecomputeOutcomeOnBoards.
Import StickyNoteCalculator.
Local Open Scope string_scope.

Lemma updateCalculatorNote_writes_aggregate_witness :
  requests_of (run Board.answer
                 (updateCalculatorNote "calc" Scenario.sum_of_a_b Scenario.tracking) complete)
  = (map GetItem (CalcData.sourceIds Scenario.sum_of_a_b)
     ++ [UpdateItem "calc"
           (Content
              (new_content Scenario.sum_of_a_b
                 (fst (fst (working_set Board.answer
                              (CalcData.sourceIds Scenario.sum_of_a_b) [] complete)))))])%list.
Proof.
  exact (proj1 (proj2
    (updateCalculatorNote_writes_aggregate Board.answer "calc" Scenario.sum_of_a_b
       Scenario.tracking complete
       ltac:(vm_compute; discriminate) ltac:(vm_compute; reflexivity)))).
Defined.

End RecomputeOutcomeOnBoards.

(** ** Update events (lines 159 to 185) *)

Section UpdateEvents.
Context {W : Type} (h : handler W).
Import StickyNoteCalculator.
Local Open Scope string_scope.
Local Open Scope Z_scope.






End UpdateEvents.

(** ** A calculation that goes through, and one that is cut short
       (lines 83 to 147) *)

Section CreationOutcome.
Context {W : Type} (h : handler W).
Import StickyNoteCalculator.
Local Open Scope string_scope.
Local Open Scope Z_scope.

Lemma get_set_same {V : Type} (k : string) (v : V) (m : JSMap.t V) :
  JSMap.get k (JSMap.set k v m) = Some v.
Proof.
  induction m as [|[k' v'] m IH]; cbn.
  - rewrite String.eqb_refl. reflexivity.
  - destruct (String.eqb k k') eqn:E; cbn; rewrite ?String.eqb_refl, ?E; auto.
Qed.

Lemma get_set_other {V : Type} (k k' : string) (v : V) (m : JSMap.t V) :
  k <> k' -> JSMap.get k (JSMap.set k' v m) = JSMap.get k m.
Proof.
  intros Hne. induction m as [|[k0 v0] m IH]; cbn.
  - destruct (String.eqb_spec k k'); [contradiction|reflexivity].
  - destruct (String.eqb_spec k' k0) as [<-|Hk0]; cbn.
    + destruct (String.eqb_spec k k'); [contradiction|reflexivity].
    + destruct (String.eqb k k0); [reflexivity|exact IH].
Qed.

Lemma enough_selected (s : state) :
  (2 <= List.length (selectedItems s))%nat ->
  (Z.of_nat (List.length (selectedItems s)) <? 2) = false.
Proof. intros H. apply Z.ltb_ge. lia. Qed.

(** X8: when at least two notes are selected and the board creates the note,
    tells the time twice and accepts the tag, the new note is registered
    under its id with the operation and the ids of the selected notes in
    their order; every other key of the index keeps its entry. The write
    of the index is asked for, but the registration does not depend on
    its success. The calls are, in order: the creation, the clock twice,
    the tag, the write of the index, and the status of success. *)
Theorem createCalculation_registers_the_note
    (operation : string) (s : state) (w : W) (note : Item.t) (createdAt now : Z) :
  let create := creation_request operation (selectedItems s) in
  let w1 := snd (h create w) in
  let w2 := snd (h DateNow w1) in
  let w3 := snd (h DateNow w2) in
  let tag := UpdateItem (Item.id note)
               (TagIds ["calc-" ++ operation ++ "-" ++ Builtins.toString (Number.of_Z now)]) in
  (2 <= List.length (selectedItems s))%nat ->
  fst (h create w) = Resolved note ->
  fst (h DateNow w1) = Resolved createdAt ->
  fst (h DateNow w2) = Resolved now ->
  fst (h tag w3) = Resolved tt ->
  let o := run h (createCalculation operation s) w in
  let d := descriptor operation (selectedItems s) createdAt in
  let index' := calculatorNotes (snd (result_of o)) in
  index' = JSMap.set (Item.id note) d (calculatorNotes s)
  /\ JSMap.get (Item.id note) index' = Some d
  /\ (forall k, k <> Item.id note -> JSMap.get k index' = JSMap.get k (calculatorNotes s))
  /\ CalcData.operation d = operation
  /\ CalcData.sourceIds d = map Item.id (selectedItems s)
  /\ selectedItems (snd (result_of o)) = selectedItems s
  /\ exists after,
       requests_of o
       = ([create; DateNow; DateNow; tag; SetMetadata "calculatorNotes" index';
           ShowStatus ((if String.eqb operation "sum" then "Sum" else "Product")
                       ++ " sticky note created successfully!") "success"]
          ++ after)%list.
Proof.
  cbv zeta. intros Hlen Hcreate Hat Hnow Htag.
  rewrite (run_createCalculation h), (enough_selected s Hlen). cbv zeta.
  rewrite Hcreate. unfold creation_registers. rewrite Hat, Hnow, Htag. cbv zeta.
  unfold creation_caught, registered, result_of, requests_of.
  destruct (fst (h (ShowStatus _ "success") _)); cbn [fst snd calculatorNotes selectedItems];
    (repeat split;
     [apply get_set_same|intros k Hk; apply get_set_other; exact Hk|]);
    eexists; rewrite ?map_app; cbn [map asked app]; reflexivity.
Qed.

(** X9: when the note is created but the board rejects the tag, the note
    stays on the canvas and is not registered: the class is left as it
    was, no deletion and no write of the index is asked for, and the
    status of failure is shown. *)
Theorem createCalculation_leaves_untagged_note
    (operation : string) (s : state) (w : W) (note : Item.t) (createdAt now : Z)
    (e : error) :
  let create := creation_request operation (selectedItems s) in
  let w1 := snd (h create w) in
  let w2 := snd (h DateNow w1) in
  let w3 := snd (h DateNow w2) in
  let tag := UpdateItem (Item.id note)
               (TagIds ["calc-" ++ operation ++ "-" ++ Builtins.toString (Number.of_Z now)]) in
  (2 <= List.length (selectedItems s))%nat ->
  fst (h create w) = Resolved note ->
  fst (h DateNow w1) = Resolved createdAt ->
  fst (h DateNow w2) = Resolved now ->
  fst (h tag w3) = Rejected e ->
  let o := run h (createCalculation operation s) w in
  snd (result_of o) = s
  /\ In {| asked := create; got := Resolved note |} (trace_of o)
  /\ requests_of o
     = [create; DateNow; DateNow; tag;
        ShowStatus "Error creating calculation. Please try again." "error"].
Proof.
  cbv zeta. intros Hlen Hcreate Hat Hnow Htag.
  rewrite (run_createCalculation h), (enough_selected s Hlen). cbv zeta.
  rewrite Hcreate. unfold creation_registers. rewrite Hat, Hnow, Htag. cbv zeta.
  unfold creation_caught, result_of, requests_of, trace_of. cbn [fst snd].
  split; [reflexivity|].
  split; [rewrite <- !app_assoc; left; reflexivity|rewrite !map_app; reflexivity].
Qed.

Lemma caught_reports (s : state) (w : W) (tr : list exchange) :
  exists before message type,
    requests_of (creation_caught h s w tr) = (before ++ [ShowStatus message type])%list.
Proof.
  exists (map asked tr), "Error creating calculation. Please try again.", "error".
  unfold creation_caught, requests_of. cbn [fst snd]. rewrite map_app. reflexivity.
Qed.

Lemma caught_ends (s : state) (w : W) (tr : list exchange) :
  (forall message type w', fst (h (ShowStatus message type) w') = Resolved tt) ->
  fst (result_of (creation_caught h s w tr)) = Normal tt.
Proof.
  intros Hstatus. unfold creation_caught, result_of. cbn [fst snd].
  rewrite Hstatus. reflexivity.
Qed.

Lemma registers_reports (operation : string) (s : state) (note : Item.t) (w : W)
    (tr : list exchange) :
  exists before message type,
    requests_of (creation_registers h operation s note w tr)
    = (before ++ [ShowStatus message type])%list.
Proof.
  unfold creation_registers. cbv zeta.
  destruct (fst (h DateNow w)) as [createdAt|]; [|apply caught_reports].
  destruct (fst (h DateNow _)) as [now|]; [|apply caught_reports].
  destruct (fst (h (UpdateItem _ _) _)); [|apply caught_reports].
  destruct (fst (h (ShowStatus _ "success") _)) eqn:Hshown; [|apply caught_reports].
  eexists _, _, _. unfold requests_of. cbn [fst snd].
  rewrite (map_app asked _ [_; _]). cbn [map asked].
  change [?a; ?b] with ([a] ++ [b])%list at 1.
  rewrite app_assoc. reflexivity.
Qed.

Lemma registers_ends (operation : string) (s : state) (note : Item.t) (w : W)
    (tr : list exchange) :
  (forall message type w', fst (h (ShowStatus message type) w') = Resolved tt) ->
  fst (result_of (creation_registers h operation s note w tr)) = Normal tt.
Proof.
  intros Hstatus. unfold creation_registers. cbv zeta.
  destruct (fst (h DateNow w)) as [createdAt|]; [|apply caught_ends, Hstatus].
  destruct (fst (h DateNow _)) as [now|]; [|apply caught_ends, Hstatus].
  destruct (fst (h (UpdateItem _ _) _)); [|apply caught_ends, Hstatus].
  rewrite Hstatus. reflexivity.
Qed.

(** X10: every run of [createCalculation] ends by showing a status, and it
    completes normally whenever showing a status does not fail: no
    rejection by the board or the clock is thrown further. *)
Theorem createCalculation_reports (operation : string) (s : state) (w : W) :
  let o := run h (createCalculation operation s) w in
  (exists before message type,
      requests_of o = (before ++ [ShowStatus message type])%list)
  /\ ((forall message type w', fst (h (ShowStatus message type) w') = Resolved tt) ->
      fst (result_of o) = Normal tt).
Proof.
  cbv zeta. rewrite (run_createCalculation h).
  destruct (Z.of_nat (List.length (selectedItems s)) <? 2); cbv zeta.
  - destruct (fst (h (ShowStatus _ "error") w)) eqn:Hshown.
    + split; [|reflexivity].
      exists [], "Please select at least 2 numeric sticky notes", "error". reflexivity.
    + split; [apply caught_reports|apply caught_ends].
  - destruct (fst (h (creation_request _ _) w)).
    + split; [apply registers_reports|apply registers_ends].
    + split; [apply caught_reports|apply caught_ends].
Qed.

End CreationOutcome.

Section CreationOutcomeOnBoards.
Import StickyNoteCalculator.
Local Open Scope string_scope.
Local Open Scope Z_scope.

Lemma createCalculation_registers_the_note_witness :
  JSMap.get "note-3"
    (calculatorNotes
       (snd (result_of
               (run Board.answer (createCalculation "sum" Scenario.two_selected) complete))))
  = Some (descriptor "sum" (selectedItems Scenario.two_selected) 1000).
Proof.
  pose proof
    (createCalculation_registers_the_note Board.answer "sum" Scenario.two_selected complete
       (Item.make "note-3" "sticky_note" "3" (S754_zero false)
          (S754_finite false 7036874417766400 (-45)))
       1000 1001
       ltac:(vm_compute; lia) ltac:(vm_compute; reflexivity)
       ltac:(vm_compute; reflexivity) ltac:(vm_compute; reflexivity)
       ltac:(vm_compute; reflexivity)) as H.
  cbv zeta in H. destruct H as (_ & H & _). vm_compute in H |- *. exact H.
Defined.

Lemma createCalculation_leaves_untagged_note_witness :
  snd (result_of
         (run (refusing is_tagging Scenario.timed_out)
            (createCalculation "sum" Scenario.two_selected) complete))
  = Scenario.two_selected.
Proof.
  pose proof
    (createCalculation_leaves_untagged_note (refusing is_tagging Scenario.timed_out)
       "sum" Scenario.two_selected complete
       (Item.make "note-3" "sticky_note" "3" (S754_zero false)
          (S754_finite false 7036874417766400 (-45)))
       1000 1001 Scenario.timed_out
       ltac:(vm_compute; lia) ltac:(vm_compute; reflexivity)
       ltac:(vm_compute; reflexivity) ltac:(vm_compute; reflexivity)
       ltac:(vm_compute; reflexivity)) as H.
  cbv zeta in H. destruct H as (H & _). vm_compute in H |- *. exact H.
Defined.

End CreationOutcomeOnBoards.

(** ** Reading a formatted result back (lines 78 to 81 and 149 to 157) *)

Section ReadingResults.
Import StickyNoteCalculator.

(** X12: the content that [formatResult] gives a derived note reads back,
    with [getNumericValue], as the number that was printed: the value
    itself when it is an integer, a NaN or an infinity, and otherwise the
    number nearest to its rounding to six decimals; -0 reads back as 0. *)
Theorem formatResult_reads_back (v : Number.number) :
  Number.valid v = true ->
  getNumericValue (formatResult v) = read_back (six_decimals v).
Proof.
  intros Hv. exact (proj1 (formatResult_stable v Hv)).
Qed.

Lemma formatResult_reads_back_witness :
  getNumericValue (formatResult three_point_three) = getNumericValue "3.3".
Proof.
  pose proof (formatResult_reads_back three_point_three ltac:(vm_compute; reflexivity)) as H.
  vm_compute in H |- *. exact H.
Defined.

End ReadingResults.
